(** * StoryApp: a shallow embedding of the generation, memory, refinement and
    assembly pipeline, and the properties its specification states about it.

    Conventions of the embedding.

    - A Python [str] is a [string]; a character is a code point below 256
      (the Latin-1 range), classified as Python classifies it.
    - A Python [int] is a [Z]; [range(n)] runs [Z.to_nat n] times.
    - [None] is [None]; an [Optional[str]] is an [option string].  Python's
      truth test on such a value ([if result:]) is [Py.truthy].
    - A dict with string keys is a [gmap string _]; a config section with a
      fixed set of keys is a record.
    - An exception is a value of [Exn]; a computation that may raise returns a
      [Result].  Effects (the model backend, the clock, the file system, the
      vector collection, [time.sleep]) are threaded through a [World]; what
      the outside answers is read from an [Env] of oracles.
    - What the code calls but does not define is modelled by what the code
      relies on: the HTTP client behind [OllamaClient.generate] and
      [str.format] are oracles of the environment; [os.path], [glob], [re],
      [hashlib.md5], [time.sleep] and the ChromaDB collection are functions
      written out here, each with the part of the library it covers.  A
      file is kept as the text stored on disk and is read as text mode
      reads it, with its line ends translated.
    - A value of the configuration has the type the code expects of it: an
      int where the code computes with one, a string where it compares
      one.  Where the code meets a null in place of a list, the field is
      an [option] and the run raises as the code does.
    - Keyword arguments passed on with two stars are a list of pairs in the
      order of the dict; a key that names a parameter bound by position
      makes the call raise, as in Python.
    - Calls to [logger] are output only and are left out, except the error
      records of [MemoryManager._add_chromadb], which are the only trace a
      failed insert leaves. *)

From Stdlib Require Import ZArith String Ascii List DecimalString QArith Lia.
From stdpp Require Import base option gmap strings list.

Open Scope string_scope.
Open Scope Z_scope.

(* ===================================================================== *)
(** * Part I. Definitions                                                  *)
(* ===================================================================== *)

(** ** Exceptions and results *)

(** A raised exception: its class and what [str(e)] shows. *)
Record Exn := mkExn { exn_class : string; exn_text : string }.

Inductive Result (A : Type) : Type :=
| Ok (a : A)
| Raise (e : Exn).
Arguments Ok {A} a.
Arguments Raise {A} e.

Definition ZeroDivisionError : Exn :=
  mkExn "ZeroDivisionError" "division by zero".
Definition KeyError (k : string) : Exn := mkExn "KeyError" k.
Definition ValueError (msg : string) : Exn := mkExn "ValueError" msg.

(** ** Python strings *)

Module Py.

Definition LF : ascii := ascii_of_nat 10.
Definition CR : ascii := ascii_of_nat 13.
Definition nl : string := String LF "".

(** What reading a file opened in text mode does to line ends: a
    carriage return followed by a line feed, and a carriage return
    alone, are read as one line feed. *)
Fixpoint universal_newlines (s : string) : string :=
  match s with
  | EmptyString => EmptyString
  | String c s' =>
      if Ascii.eqb c CR then
        match s' with
        | String d s'' =>
            if Ascii.eqb d LF then String LF (universal_newlines s'')
            else String LF (universal_newlines s')
        | EmptyString => String LF EmptyString
        end
      else String c (universal_newlines s')
  end.

(** [str.isspace] on one character (code points below 256): the ASCII
    controls 9 to 13, the separators 28 to 31, the space, NEL and NBSP. *)
Definition isspace (c : ascii) : bool :=
  let n := nat_of_ascii c in
  ((9 <=? n) && (n <=? 13) || (28 <=? n) && (n <=? 32)
   || (n =? 133) || (n =? 160))%nat.

(** The character class [\w] of [re] on [str] patterns: [_] and whatever
    [str.isalnum] accepts. *)
Definition isword (c : ascii) : bool :=
  let n := nat_of_ascii c in
  ((48 <=? n) && (n <=? 57) || (65 <=? n) && (n <=? 90) || (n =? 95)
   || (97 <=? n) && (n <=? 122)
   || (n =? 170) || (n =? 178) || (n =? 179) || (n =? 181)
   || (n =? 185) || (n =? 186) || (188 <=? n) && (n <=? 190)
   || (192 <=? n) && (n <=? 214) || (216 <=? n) && (n <=? 246)
   || (248 <=? n) && (n <=? 255))%nat.

Fixpoint lstrip (s : string) : string :=
  match s with
  | String c s' => if isspace c then lstrip s' else s
  | EmptyString => EmptyString
  end.

Definition rstrip (s : string) : string :=
  String.rev (lstrip (String.rev s)).

(** [s.strip()] *)
Definition strip (s : string) : string := rstrip (lstrip s).

(** [s.startswith(p)] *)
Definition startswith (s p : string) : bool := String.prefix p s.

(** [bool(s)] for a string. *)
Definition nonempty (s : string) : bool :=
  match s with EmptyString => false | String _ _ => true end.

(** [bool(x)] for an [Optional[str]]. *)
Definition truthy (x : option string) : bool :=
  match x with Some s => nonempty s | None => false end.

(** [x or y] on optional strings. *)
Definition or_else (x y : option string) : option string :=
  if truthy x then x else y.

(** [sep.join(parts)] *)
Fixpoint join (sep : string) (parts : list string) : string :=
  match parts with
  | [] => ""
  | [p] => p
  | p :: rest => p +:+ sep +:+ join sep rest
  end.

(** [''.join(parts)] *)
Definition concat (parts : list string) : string :=
  fold_right String.app "" parts.

(** [s.split(sep, maxsplit)] for a non-empty [sep] and [maxsplit >= 0]:
    [skip] characters of a separator just matched are still to be passed
    over, [cur] is the piece read so far, reversed. *)
Fixpoint split_go (sep : string) (maxsplit skip : nat) (cur s : string)
  : list string :=
  match s with
  | EmptyString => [String.rev cur]
  | String c s' =>
      match skip with
      | S k => split_go sep maxsplit k cur s'
      | O =>
          match maxsplit with
          | O => [String.rev cur +:+ s]
          | S m =>
              if String.prefix sep s
              then String.rev cur :: split_go sep m (String.length sep - 1) "" s'
              else split_go sep maxsplit 0 (String c cur) s'
          end
      end
  end.

Definition split (s sep : string) (maxsplit : nat) : list string :=
  split_go sep maxsplit 0 "" s.

(** [s.replace(old, new)] for a non-empty [old]. *)
Fixpoint replace_go (old new : string) (skip : nat) (s : string) : string :=
  match s with
  | EmptyString => EmptyString
  | String c s' =>
      match skip with
      | S k => replace_go old new k s'
      | O =>
          if String.prefix old s
          then new +:+ replace_go old new (String.length old - 1) s'
          else String c (replace_go old new 0 s')
      end
  end.

Definition replace (s old new : string) : string :=
  replace_go old new 0 s.

(** [len(s.split())]: the number of maximal runs of non-space
    characters; [inword] tells whether the previous character was one. *)
Fixpoint count_fields (inword : bool) (s : string) : nat :=
  match s with
  | EmptyString => 0
  | String c s' =>
      if isspace c then count_fields false s'
      else if inword then count_fields true s'
      else S (count_fields true s')
  end.

(** [str(n)] for an [int]. *)
Definition str_of_int (n : Z) : string := NilZero.string_of_int (Z.to_int n).

(** [f"{n:02d}"]: the sign, then the digits padded with zeros to the
    width 2 (sign included). *)
Definition fmt_02d (n : Z) : string :=
  let digits := NilZero.string_of_uint (N.to_uint (Z.abs_N n)) in
  if n <? 0 then "-" +:+ digits
  else if (String.length digits <? 2)%nat then "0" +:+ digits
  else digits.

(** Sorting strings as [list.sort()] does, by code points. *)
Fixpoint insert_sorted (x : string) (l : list string) : list string :=
  match l with
  | [] => [x]
  | y :: l' => if String.leb x y then x :: l else y :: insert_sorted x l'
  end.

Definition sorted (l : list string) : list string :=
  fold_right insert_sorted [] l.

(** A reading of [template.format] with keyword arguments for templates made of text,
    the doubled braces [{{] and [}}], and fields [{name}] whose name is
    an identifier.  [field] holds the name being read, reversed.  A field
    of another shape (empty, numbered, with an index, an attribute, a
    conversion or a format specification) is outside this fragment and
    is reported as such.  It serves as the [str_format] of the example
    environments. *)
Definition lookup_arg (args : list (string * string)) (name : string)
  : option string :=
  match list_find (fun kv => bool_decide (fst kv = name)) args with
  | Some (_, (_, v)) => Some v
  | None => None
  end.

Definition isdigit (c : ascii) : bool :=
  let n := nat_of_ascii c in ((48 <=? n) && (n <=? 57))%nat.

Fixpoint format_plain_go (args : list (string * string))
    (field : option string) (skip : bool) (s : string) : Result string :=
  let unmodelled := Raise (mkExn "Unmodelled" "field outside the fragment") in
  match s with
  | EmptyString =>
      match field with
      | None => Ok EmptyString
      | Some _ => Raise (ValueError "expected '}' before end of string")
      end
  | String c s' =>
      let cons_to (x : string) (r : Result string) :=
        match r with
        | Ok t => Ok (x +:+ t)
        | Raise e => Raise e
        end in
      if skip then format_plain_go args field false s'
      else
        match field with
        | None =>
            if Ascii.eqb c "{" then
              if String.prefix "{{" s
              then cons_to "{" (format_plain_go args None true s')
              else format_plain_go args (Some EmptyString) false s'
            else if Ascii.eqb c "}" then
              if String.prefix "}}" s
              then cons_to "}" (format_plain_go args None true s')
              else Raise (ValueError "Single '}' encountered in format string")
            else cons_to (String c "") (format_plain_go args None false s')
        | Some name =>
            if Ascii.eqb c "}" then
              match name with
              | EmptyString => unmodelled
              | _ =>
                  match lookup_arg args (String.rev name) with
                  | Some v => cons_to v (format_plain_go args None false s')
                  | None => Raise (KeyError (String.rev name))
                  end
              end
            else if isword c && negb (isdigit c && negb (nonempty name))
            then format_plain_go args (Some (String c name)) false s'
            else unmodelled
        end
  end.

Definition format_plain (template : string) (args : list (string * string))
  : Result string :=
  format_plain_go args None false template.

End Py.

(** ** The world *)

(** Values of keyword arguments and of metadata fields. *)
Inductive PyVal :=
| VStr (s : string)
| VInt (n : Z)
| VFloat (q : Q).

(** Keyword arguments of a generation call, in the order given. *)
Abbreviation Kwargs := (list (string * PyVal)).

(** What one call of [OllamaClient.generate] does: it returns the
    response text or raises. *)
Inductive Outcome :=
| Returns (text : string)
| Fails (e : Exn).

(** [datetime.now()] *)
Record DateTime := mkDateTime {
  dt_year : nat; dt_month : nat; dt_day : nat;
  dt_hour : nat; dt_minute : nat; dt_second : nat; dt_microsecond : nat
}.

(** What the outside answers.
    - [backend n model prompt kwargs]: the outcome of the [n]-th call of
      [OllamaClient.generate] (counted from 0) with these arguments;
    - [clock n]: the [n]-th reading of [datetime.now()];
    - [db_fault n]: the exception with which the [n]-th operation on the
      collection fails in the backend, if it does;
    - [duplicate_raises]: whether the collection's [add] raises on an id it
      already holds (it leaves the record as it is otherwise);
    - [distance q d]: the distance the collection computes between the
      embeddings of the query [q] and of the document [d], in units of its
      own (the embedding arithmetic is not modelled);
    - [str_format t args]: what [t.format] returns or raises on the keyword
      arguments [args]. *)
Record Env := mkEnv {
  backend : nat -> option string -> string -> Kwargs -> Outcome;
  clock : nat -> DateTime;
  db_fault : nat -> option Exn;
  duplicate_raises : bool;
  distance : string -> string -> Z;
  str_format : string -> list (string * string) -> Result string
}.

Inductive LogLevel := LError | LWarning.

(** The effects a run leaves behind, in the order they happen. *)
Inductive Event :=
| EvGenerate (model : option string) (prompt : string) (kwargs : Kwargs)
    (out : Outcome)
| EvSleep (seconds : Z)
| EvWrite (path content : string)
| EvLog (level : LogLevel) (msg : string).

(** One record of the collection: the document and its metadata. *)
Abbreviation Metadata := (gmap string PyVal).
Abbreviation Record_ := (string * Metadata)%type.

(** The state a run passes along: counters that index the oracles of the
    environment, the file system, the collection, and the events so far. *)
Record World := mkWorld {
  llm_calls : nat;                     (* calls of the backend so far *)
  clock_reads : nat;                   (* readings of the clock so far *)
  db_ops : nat;                        (* collection operations so far *)
  files : gmap string string;          (* regular files: path to the text stored *)
  dirs : gset string;                  (* directories created explicitly *)
  collection : gmap string Record_;    (* the vector store: id to record *)
  trace : list Event                   (* events, the latest first *)
}.

(** The events of a world in the order they happened. *)
Definition history (w : World) : list Event := rev (trace w).

(** The files written so far, each with the content written, in order. *)
Definition written (w : World) : list (string * string) :=
  flat_map (fun e => match e with
                     | EvWrite path content => [(path, content)]
                     | _ => []
                     end) (history w).

Definition emit (e : Event) (w : World) : World :=
  mkWorld (llm_calls w) (clock_reads w) (db_ops w) (files w) (dirs w)
          (collection w) (e :: trace w).

(** A computation: it runs in a world, leaves a world, and returns or
    raises.  The effects done before a raise stay done. *)
Definition M (A : Type) : Type := World -> Result A * World.

Global Instance M_ret : MRet M := fun A (a : A) w => (Ok a, w).

Global Instance M_bind : MBind M := fun A B (f : A -> M B) (m : M A) w =>
  match m w with
  | (Ok a, w') => f a w'
  | (Raise e, w') => (Raise e, w')
  end.

Definition raise {A : Type} (e : Exn) : M A := fun w => (Raise e, w).

(** What a computation returns or raises in a world, and the world it
    leaves. *)
Definition result_of {A : Type} (m : M A) (w : World) : Result A := fst (m w).
Definition world_after {A : Type} (m : M A) (w : World) : World := snd (m w).

(** [try: body except Exception as e: handler(e)] *)
Definition try_except {A : Type} (body : M A) (handler : Exn -> M A) : M A :=
  fun w =>
    match body w with
    | (Ok a, w') => (Ok a, w')
    | (Raise e, w') => handler e w'
    end.

Definition tell (e : Event) : M unit := fun w => (Ok tt, emit e w).

(** ** Configuration ([config.yaml], as the code reads it) *)

(** One entry of [config['models']]: a model chain.  For [primary],
    [model] and [fallback], a key that is absent or holds a null is
    [None].  [mc_alternatives] is what [model_cfg.get('alternatives', [])]
    returns: the list, the empty list when the key is absent, and [None]
    when the key is there and holds a null. *)
Record ModelCfg := mkModelCfg {
  mc_primary : option string;
  mc_model : option string;
  mc_fallback : option string;
  mc_alternatives : option (list string)
}.

Record Config := mkConfig {
  project_base_path : string;               (* ['project']['base_path'] *)
  models : gmap string ModelCfg;            (* ['models'] *)
  advanced_max_retries : option Z;          (* ['advanced']['max_retries'] *)
  advanced_retry_delay : option Z;          (* ['advanced']['retry_delay'] *)
  generation_refinement : Kwargs;           (* ['generation']['refinement'] *)
  scene_min_words : Z;                      (* ['scene']['min_words'] *)
  scene_max_words : Z;                      (* ['scene']['max_words'] *)
  scene_max_retries : Z;                    (* ['scene']['max_retries'] *)
  chapter_smoothing_enabled : option bool;  (* ['chapter']['smoothing_enabled'] *)
  vector_db_type : string                   (* ['vector_db']['type'] *)
}.

(** ** utils.py *)

Module utils.

(** [os.path.join] (POSIX): a component that starts with a slash
    restarts the path; a slash is put between the others. *)
Definition join2 (path b : string) : string :=
  if Py.startswith b "/" then b
  else if negb (Py.nonempty path) || Py.startswith (String.rev path) "/"
       then path +:+ b
       else path +:+ "/" +:+ b.

Definition os_path_join (a : string) (parts : list string) : string :=
  fold_left join2 parts a.

(** The directories [Path(d).mkdir(parents=True)] makes sure exist: [d]
    and each of its ancestors ([acc] is the part read, reversed). *)
Fixpoint dir_chain (acc s : string) : list string :=
  match s with
  | EmptyString => if Py.nonempty acc then [String.rev acc] else []
  | String c s' =>
      (if Ascii.eqb c "/" && Py.nonempty acc then [String.rev acc] else [])
      ++ dir_chain (String c acc) s'
  end.

(** [os.path.dirname] (POSIX): what precedes the last slash, without its
    trailing slashes unless it is made of slashes only. *)
Fixpoint drop_to_slash (r : string) : string :=
  match r with
  | EmptyString => EmptyString
  | String c r' => if Ascii.eqb c "/" then r else drop_to_slash r'
  end.

Fixpoint drop_slashes (r : string) : string :=
  match r with
  | String c r' => if Ascii.eqb c "/" then drop_slashes r' else r
  | EmptyString => EmptyString
  end.

Definition os_path_dirname (p : string) : string :=
  let head := drop_to_slash (String.rev p) in
  match drop_slashes head with
  | EmptyString => String.rev head
  | h => String.rev h
  end.

(** [os.path.exists] *)
Definition os_path_exists (path : string) : M bool := fun w =>
  (Ok (bool_decide (is_Some (files w !! path))
       || bool_decide (path ∈ dirs w)), w).

(** [ensure_dir]: [Path(path).mkdir(parents=True, exist_ok=True)].  It
    raises, and makes no directory, when the path is a regular file or
    lies below one. *)
Definition ensure_dir (path : string) : M unit := fun w =>
  if forallb (fun d => negb (bool_decide (is_Some (files w !! d))))
             (dir_chain "" path)
  then
    (Ok tt,
     mkWorld (llm_calls w) (clock_reads w) (db_ops w) (files w)
             (list_to_set (dir_chain "" path) ∪ dirs w)
             (collection w) (trace w))
  else if bool_decide (is_Some (files w !! path))
  then (Raise (mkExn "FileExistsError" path), w)
  else (Raise (mkExn "NotADirectoryError" path), w).

(** [load_text_file]: the content as a file opened in text mode is
    read, or the empty string when there is no such file; opening a
    directory raises. *)
Definition load_text_file (file_path : string) : M string := fun w =>
  match files w !! file_path with
  | Some content => (Ok (Py.universal_newlines content), w)
  | None =>
      if bool_decide (file_path ∈ dirs w)
      then (Raise (mkExn "IsADirectoryError" file_path), w)
      else (Ok "", w)
  end.

Definition write_file (file_path content : string) : M unit := fun w =>
  if bool_decide (file_path ∈ dirs w)
  then (Raise (mkExn "IsADirectoryError" file_path), w)
  else
    (Ok tt,
     mkWorld (llm_calls w) (clock_reads w) (db_ops w)
             (<[file_path := content]> (files w)) (dirs w)
             (collection w) (EvWrite file_path content :: trace w)).

(** [save_text_file] *)
Definition save_text_file (content file_path : string) : M unit :=
  ensure_dir (os_path_dirname file_path) ;;
  write_file file_path content.

(** [get_project_path] *)
Definition get_project_path (config : Config) (parts : list string) : string :=
  os_path_join (project_base_path config) parts.

(** [get_scene_path] *)
Definition get_scene_path (config : Config) (book_name : string)
    (chapter scene : Z) (version stage : string) : string :=
  let base := get_project_path config ["output"; book_name; "scenes"; stage] in
  let filename :=
    "chapter_" +:+ Py.fmt_02d chapter +:+ "_scene_" +:+ Py.fmt_02d scene
    +:+ "_" +:+ version +:+ ".md" in
  os_path_join base [filename].

(** [get_chapter_path] *)
Definition get_chapter_path (config : Config) (book_name : string)
    (chapter : Z) (version : string) : string :=
  let base := get_project_path config ["output"; book_name; "chapters"] in
  let filename :=
    "chapter_" +:+ Py.fmt_02d chapter +:+ "_" +:+ version +:+ ".md" in
  os_path_join base [filename].

(** [re.sub(r'^#+\s+.*$', '', text, flags=re.MULTILINE)], read as a scan
    of the text.  A match starts at the start of a line with a run of
    [#], needs white space after it (which may run over line ends), and
    takes the rest of the line it has reached. *)
Inductive HeaderScan :=
| AtLineStart
| InLine
| InHashes (run : string)
| InBlank
| InHeader.

Fixpoint strip_headers (st : HeaderScan) (s : string) : string :=
  match s with
  | EmptyString =>
      match st with InHashes run => run | _ => EmptyString end
  | String c s' =>
      let next := if Ascii.eqb c Py.LF then AtLineStart else InLine in
      match st with
      | AtLineStart =>
          if Ascii.eqb c "#" then strip_headers (InHashes "#") s'
          else String c (strip_headers next s')
      | InLine => String c (strip_headers next s')
      | InHashes run =>
          if Ascii.eqb c "#" then strip_headers (InHashes (String c run)) s'
          else if Py.isspace c then strip_headers InBlank s'
          else run +:+ String c (strip_headers InLine s')
      | InBlank =>
          if Py.isspace c then strip_headers InBlank s'
          else strip_headers InHeader s'
      | InHeader =>
          if Ascii.eqb c Py.LF then String c (strip_headers AtLineStart s')
          else strip_headers InHeader s'
      end
  end.

(** [re.sub(d + r'.*?' + d, '', text, flags=re.DOTALL)] for a literal
    delimiter [d]: each stretch from a delimiter to the next one is cut
    out, both included.  [inside] holds the text since an opening
    delimiter, reversed; it is given back when no closing one follows. *)
Fixpoint remove_blocks (d : string) (inside : option string) (skip : nat)
    (s : string) : string :=
  match s with
  | EmptyString =>
      match inside with Some buf => String.rev buf | None => EmptyString end
  | String c s' =>
      match skip with
      | S k => remove_blocks d (option_map (String c) inside) k s'
      | O =>
          match inside with
          | None =>
              if String.prefix d s
              then remove_blocks d (Some (String c "")) (String.length d - 1) s'
              else String c (remove_blocks d None 0 s')
          | Some buf =>
              if String.prefix d s
              then remove_blocks d None (String.length d - 1) s'
              else remove_blocks d (Some (String c buf)) 0 s'
          end
      end
  end.

(** [len(re.findall(r'\b\w+\b', text))]: the number of maximal runs of
    word characters. *)
Fixpoint count_runs (inword : bool) (s : string) : nat :=
  match s with
  | EmptyString => 0
  | String c s' =>
      if Py.isword c
      then (if inword then count_runs true s' else S (count_runs true s'))
      else count_runs false s'
  end.

(** [count_words] *)
Definition count_words (text : string) : Z :=
  let text := strip_headers AtLineStart text in
  let text := remove_blocks "```" None 0 text in
  let text := remove_blocks "---" None 0 text in
  Z.of_nat (count_runs false text).

(** The message [validate_word_count] returns, kept as the arguments of
    its f-string.  The deviation is the exact quotient; Python rounds it
    to a float and prints one decimal. *)
Inductive Message :=
| TooShort (word_count min_words : Z)
| TooLong (word_count max_words : Z)
| Valid (word_count : Z) (deviation : Q).

(** [a / b] on two [int]s. *)
Definition true_div (a b : Z) : Result Q :=
  if b =? 0 then Raise ZeroDivisionError
  else Ok (inject_Z a / inject_Z b)%Q.

(** [validate_word_count] *)
Definition validate_word_count (text : string) (target min_words max_words : Z)
  : Result (bool * Z * Message) :=
  let word_count := count_words text in
  if word_count <? min_words then
    Ok (false, word_count, TooShort word_count min_words)
  else if word_count >? max_words then
    Ok (false, word_count, TooLong word_count max_words)
  else
    match true_div (Z.abs (word_count - target)) target with
    | Ok q => Ok (true, word_count, Valid word_count (q * inject_Z 100)%Q)
    | Raise e => Raise e
    end.

End utils.

(** ** MD5 ([hashlib.md5], RFC 1321) on a list of bytes *)

Module MD5.

Definition mask32 (x : Z) : Z := x mod 2 ^ 32.

Definition rotl (x : Z) (n : Z) : Z :=
  mask32 (Z.lor (Z.shiftl x n) (Z.shiftr x (32 - n))).

Definition not32 (x : Z) : Z := 2 ^ 32 - 1 - x.

(** The per-round shifts and the sine table. *)
Definition shifts : list Z :=
  [7; 12; 17; 22; 7; 12; 17; 22; 7; 12; 17; 22; 7; 12; 17; 22;
   5; 9; 14; 20; 5; 9; 14; 20; 5; 9; 14; 20; 5; 9; 14; 20;
   4; 11; 16; 23; 4; 11; 16; 23; 4; 11; 16; 23; 4; 11; 16; 23;
   6; 10; 15; 21; 6; 10; 15; 21; 6; 10; 15; 21; 6; 10; 15; 21].

Definition sines : list Z :=
  [3614090360; 3905402710; 606105819; 3250441966; 4118548399; 1200080426; 2821735955; 4249261313;
   1770035416; 2336552879; 4294925233; 2304563134; 1804603682; 4254626195; 2792965006; 1236535329;
   4129170786; 3225465664; 643717713; 3921069994; 3593408605; 38016083; 3634488961; 3889429448;
   568446438; 3275163606; 4107603335; 1163531501; 2850285829; 4243563512; 1735328473; 2368359562;
   4294588738; 2272392833; 1839030562; 4259657740; 2763975236; 1272893353; 4139469664; 3200236656;
   681279174; 3936430074; 3572445317; 76029189; 3654602809; 3873151461; 530742520; 3299628645;
   4096336452; 1126891415; 2878612391; 4237533241; 1700485571; 2399980690; 4293915773; 2240044497;
   1873313359; 4264355552; 2734768916; 1309151649; 4149444226; 3174756917; 718787259; 3951481745].

(** The little-endian bytes of a word, and the word of four bytes. *)
Definition bytes_le (width : nat) (x : Z) : list Z :=
  map (fun i => (Z.shiftr x (8 * Z.of_nat i)) mod 256) (seq 0 width).

Fixpoint word_le (bytes : list Z) : Z :=
  match bytes with
  | [] => 0
  | b :: rest => b + 256 * word_le rest
  end.

(** The message padded to a multiple of 64 bytes: a bit 1, zeros, and the
    length in bits on 64 bits. *)
Definition pad (msg : list Z) : list Z :=
  let len := Z.of_nat (length msg) in
  let zeros := Z.to_nat ((55 - len) mod 64) in
  msg ++ [128] ++ repeat 0 zeros ++ bytes_le 8 ((8 * len) mod 2 ^ 64).

(** The blocks of a list, [size] elements each. *)
Fixpoint chunks (fuel size : nat) {A : Type} (l : list A) : list (list A) :=
  match fuel with
  | O => []
  | S fuel' =>
      match l with
      | [] => []
      | _ => firstn size l :: chunks fuel' size (skipn size l)
      end
  end.

Definition State := (Z * Z * Z * Z)%type.

(** One of the 64 operations on a block of 16 words. *)
Definition round (block : list Z) (st : State) (i : nat) : State :=
  let '(a, b, c, d) := st in
  let zi := Z.of_nat i in
  let '(f, g) :=
    if (i <? 16)%nat then (Z.lor (Z.land b c) (Z.land (not32 b) d), zi)
    else if (i <? 32)%nat then
      (Z.lor (Z.land d b) (Z.land (not32 d) c), (5 * zi + 1) mod 16)
    else if (i <? 48)%nat then (Z.lxor (Z.lxor b c) d, (3 * zi + 5) mod 16)
    else (Z.lxor c (Z.lor b (not32 d)), (7 * zi) mod 16) in
  let f' := mask32 (f + a + nth i sines 0 + nth (Z.to_nat g) block 0) in
  (d, mask32 (b + rotl f' (nth i shifts 0)), b, c).

Definition process (st : State) (chunk : list Z) : State :=
  let block := map word_le (chunks 16 4 chunk) in
  let '(a, b, c, d) := fold_left (round block) (seq 0 64) st in
  let '(a0, b0, c0, d0) := st in
  (mask32 (a0 + a), mask32 (b0 + b), mask32 (c0 + c), mask32 (d0 + d)).

Definition initial : State := (1732584193, 4023233417, 2562383102, 271733878).

(** The 16 bytes of the digest. *)
Definition digest (msg : list Z) : list Z :=
  let padded := pad msg in
  let '(a, b, c, d) :=
    fold_left process (chunks (length padded) 64 padded) initial in
  bytes_le 4 a ++ bytes_le 4 b ++ bytes_le 4 c ++ bytes_le 4 d.

Definition hex_digit (n : Z) : ascii :=
  if n <? 10 then ascii_of_nat (48 + Z.to_nat n)
  else ascii_of_nat (87 + Z.to_nat n).

Fixpoint hex (bytes : list Z) : string :=
  match bytes with
  | [] => EmptyString
  | b :: rest => String (hex_digit (b / 16)) (String (hex_digit (b mod 16)) (hex rest))
  end.

(** [s.encode()]: the UTF-8 bytes of a string of code points below 256. *)
Fixpoint encode (s : string) : list Z :=
  match s with
  | EmptyString => []
  | String c s' =>
      let n := Z.of_nat (nat_of_ascii c) in
      (if n <? 128 then [n] else [192 + n / 64; 128 + n mod 64]) ++ encode s'
  end.

(** [hashlib.md5(data).hexdigest()] *)
Definition hexdigest (data : list Z) : string := hex (digest data).

End MD5.

(** ** llm_client.py *)

Module LLMManager.

(** [self.max_retries] and [self.retry_delay], as [__init__] reads them. *)
Definition max_retries (config : Config) : Z :=
  default 3 (advanced_max_retries config).

Definition retry_delay (config : Config) : Z :=
  default 2 (advanced_retry_delay config).

(** [self.client.generate] with the keyword arguments passed on: one request to the
    backend; it is recorded with what came of it. *)
Definition client_generate (env : Env) (model : option string)
    (prompt : string) (kwargs : Kwargs) : M string := fun w =>
  let out := backend env (llm_calls w) model prompt kwargs in
  let w' := mkWorld (S (llm_calls w)) (clock_reads w) (db_ops w) (files w)
                    (dirs w) (collection w)
                    (EvGenerate model prompt kwargs out :: trace w) in
  match out with
  | Returns text => (Ok text, w')
  | Fails e => (Raise e, w')
  end.

(** [time.sleep] on an [int].  A negative length is refused with a
    [ValueError]; CPython keeps the length in nanoseconds on 64 bits, and
    refuses with an [OverflowError] a length that does not fit.  The call
    leaves no trace when it raises. *)
Definition sleep_limit : Z := 9223372036.

Definition sleep (seconds : Z) : M unit :=
  if (seconds <? - sleep_limit) || (sleep_limit <? seconds) then
    raise (mkExn "OverflowError"
                 "timestamp too large to convert to C _PyTime_t")
  else if seconds <? 0 then
    raise (ValueError "sleep length must be non-negative")
  else tell (EvSleep seconds).

(** A method called with positional arguments and with the keyword
    arguments of a dict passed on.  A key of the dict that names one of
    the parameters bound already is a second value for it: the call
    raises a [TypeError] before the body runs.  The key reported is the
    first such key of the dict. *)
Definition bind_kwargs (qualname : string) (parameters : list string)
    (kwargs : Kwargs) : Result unit :=
  match list_find (fun kv => bool_decide (fst kv ∈ parameters)) kwargs with
  | Some (_, (key, _)) =>
      Raise (mkExn "TypeError"
               (qualname +:+ "() got multiple values for argument '"
                +:+ key +:+ "'"))
  | None => Ok tt
  end.

(** The test [result and len(result.strip()) > 0]. *)
Definition accepted (result : string) : bool :=
  Py.nonempty result && (0 <? String.length (Py.strip result))%nat.

(** The loop of [_try_generate]: [attempt] is the loop variable and
    [remaining] the number of iterations of [range(self.max_retries)]
    still to run. *)
Fixpoint try_generate_loop (env : Env) (config : Config)
    (model : option string) (prompt : string) (kwargs : Kwargs)
    (attempt remaining : nat) : M (option string) :=
  match remaining with
  | O => mret None
  | S remaining' =>
      returned ←
        try_except
          (result ← client_generate env model prompt kwargs;
           if accepted result then mret (Some result)
           else mret None)
          (fun e =>
             (if Z.of_nat attempt <? max_retries config - 1
              then sleep (retry_delay config)
              else mret tt) ;;
             mret None);
      match returned with
      | Some result => mret (Some result)
      | None =>
          try_generate_loop env config model prompt kwargs
                            (S attempt) remaining'
      end
  end.

(** [_try_generate], called as [self._try_generate(model, prompt,
    **kwargs)]. *)
Definition _try_generate (env : Env) (config : Config)
    (model : option string) (prompt : string) (kwargs : Kwargs)
  : M (option string) :=
  match bind_kwargs "LLMManager._try_generate" ["self"; "model"; "prompt"]
                    kwargs with
  | Raise e => raise e
  | Ok _ =>
      try_generate_loop env config model prompt kwargs
                        0 (Z.to_nat (max_retries config))
  end.

(** [_get_model_config] *)
Definition _get_model_config (config : Config) (key : string)
  : Result ModelCfg :=
  match models config !! key with
  | Some cfg => Ok cfg
  | None =>
      match models config !! "prose" with
      | Some cfg => Ok cfg
      | None => Raise (KeyError "prose")
      end
  end.

(** The loop over [alternatives] in [generate_with_retry]. *)
Fixpoint try_alternatives (env : Env) (config : Config) (prompt : string)
    (kwargs : Kwargs) (alternatives : list string) : M (option string) :=
  match alternatives with
  | [] => mret None
  | alt :: rest =>
      result ← _try_generate env config (Some alt) prompt kwargs;
      if Py.truthy result then mret result
      else try_alternatives env config prompt kwargs rest
  end.

(** The loop [for alt in alternatives] on what the configuration holds:
    a null cannot be iterated. *)
Definition iterate_alternatives (env : Env) (config : Config)
    (prompt : string) (kwargs : Kwargs) (alternatives : option (list string))
  : M (option string) :=
  match alternatives with
  | None => raise (mkExn "TypeError" "'NoneType' object is not iterable")
  | Some alts => try_alternatives env config prompt kwargs alts
  end.

(** [generate_with_retry], called as [generate_with_retry(prompt,
    model_config_key, **kwargs)]. *)
Definition generate_with_retry (env : Env) (config : Config)
    (prompt model_config_key : string) (kwargs : Kwargs)
  : M (option string) :=
  match bind_kwargs "LLMManager.generate_with_retry"
                    ["self"; "prompt"; "model_config_key"] kwargs with
  | Raise e => raise e
  | Ok _ =>
      match _get_model_config config model_config_key with
      | Raise e => raise e
      | Ok model_cfg =>
          let primary :=
            Py.or_else (mc_primary model_cfg) (mc_model model_cfg) in
          result ← _try_generate env config primary prompt kwargs;
          if Py.truthy result then mret result
          else
            let fallback := mc_fallback model_cfg in
            let alternatives := mc_alternatives model_cfg in
            if Py.truthy fallback then
              result ← _try_generate env config fallback prompt kwargs;
              if Py.truthy result then mret result
              else iterate_alternatives env config prompt kwargs alternatives
            else iterate_alternatives env config prompt kwargs alternatives
      end
  end.

(** [refine_scene] *)
Definition refine_scene (env : Env) (config : Config)
    (prompt_template scene_content pass_type : string) : M (option string) :=
  let params := generation_refinement config in
  match str_format env prompt_template [("scene_content", scene_content)] with
  | Raise e => raise e
  | Ok full_prompt =>
      generate_with_retry env config full_prompt "refinement" params
  end.

End LLMManager.

(** ** The model chain, as the specification words it *)

Module Chain.

(** The chain a role resolves to: the primary model, then the fallback if
    one is configured, then the alternatives in the order of the list. *)
Definition chain (model_cfg : ModelCfg) : list (option string) :=
  Py.or_else (mc_primary model_cfg) (mc_model model_cfg)
  :: (if Py.truthy (mc_fallback model_cfg) then [mc_fallback model_cfg] else [])
  ++ map Some (default [] (mc_alternatives model_cfg)).

(** Keyword arguments that give no second value to a parameter of
    [generate_with_retry] or of [_try_generate]. *)
Definition reserved : list string :=
  ["self"; "prompt"; "model_config_key"; "model"].

Definition free_kwargs (kwargs : Kwargs) : Prop :=
  Forall (fun kv => fst kv ∉ reserved) kwargs.

(** A delay [time.sleep] accepts. *)
Definition valid_delay (config : Config) : Prop :=
  0 <= LLMManager.retry_delay config <= LLMManager.sleep_limit.

(** Each model of a chain is given its attempts in turn; the first result
    ends the run and the models after it are not called. *)
Fixpoint first_success (env : Env) (config : Config) (prompt : string)
    (kwargs : Kwargs) (chain : list (option string)) : M (option string) :=
  match chain with
  | [] => mret None
  | model :: rest =>
      result ← LLMManager._try_generate env config model prompt kwargs;
      if Py.truthy result then mret result
      else first_success env config prompt kwargs rest
  end.

(** An attempt counts as failed when the backend raises or when the text
    it returns is empty once stripped. *)
Definition attempt_fails (out : Outcome) : Prop :=
  match out with
  | Fails _ => True
  | Returns text => Py.strip text = ""
  end.

(** Every call of the backend for [model] with this prompt and these
    keyword arguments fails; every such call returns [text]. *)
Definition fails_on (env : Env) (prompt : string) (kwargs : Kwargs)
    (model : option string) : Prop :=
  forall n, attempt_fails (backend env n model prompt kwargs).

Definition returns_on (env : Env) (prompt : string) (kwargs : Kwargs)
    (model : option string) (text : string) : Prop :=
  forall n, backend env n model prompt kwargs = Returns text.

(** Every call of the backend for [model] fails, whatever it is asked. *)
Definition always_fails (env : Env) (model : option string) : Prop :=
  forall prompt kwargs, fails_on env prompt kwargs model.

End Chain.

(** ** The vector collection (the part of ChromaDB the code calls) *)

Global Instance Q_eq_dec : EqDecision Q.
Proof. solve_decision. Defined.

Global Instance PyVal_eq_dec : EqDecision PyVal.
Proof. solve_decision. Defined.

Module Chroma.

(** A [where] filter on one metadata key: equality with a value, or
    membership in a list of values ([$in]). *)
Inductive Where :=
| WhereEq (key : string) (value : PyVal)
| WhereIn (key : string) (values : list PyVal).

Definition where_matches (filter : option Where) (metadata : Metadata) : bool :=
  match filter with
  | None => true
  | Some (WhereEq key value) => bool_decide (metadata !! key = Some value)
  | Some (WhereIn key values) =>
      match metadata !! key with
      | Some v => bool_decide (v ∈ values)
      | None => false
      end
  end.

(** What [collection.query] returns for one query text: three lists in
    step, each wrapped in a list with one element per query text. *)
Record QueryResult := mkQueryResult {
  documents : list (list string);
  metadatas : list (list Metadata);
  distances : list (list Z)
}.

(** One operation on the collection: it is counted, and fails when the
    environment says so. *)
Definition operation {A : Type} (env : Env) (run : World -> Result A * World)
  : M A := fun w =>
  let w1 := mkWorld (llm_calls w) (clock_reads w) (S (db_ops w)) (files w)
                    (dirs w) (collection w) (trace w) in
  match db_fault env (db_ops w) with
  | Some e => (Raise e, w1)
  | None => run w1
  end.

Definition put (id : string) (record : Record_) (w : World) : World :=
  mkWorld (llm_calls w) (clock_reads w) (db_ops w) (files w) (dirs w)
          (<[id := record]> (collection w)) (trace w).

(** [collection.add(ids=[id], documents=[document], metadatas=[metadata])] *)
Definition add (env : Env) (id document : string) (metadata : Metadata)
  : M unit :=
  operation env (fun w =>
    match collection w !! id with
    | None => (Ok tt, put id (document, metadata) w)
    | Some _ =>
        if duplicate_raises env
        then (Raise (mkExn "DuplicateIDError" id), w)
        else (Ok tt, w)
    end).

(** [collection.update(ids=[id], documents=[document],
    metadatas=[metadata])]: the document is replaced and the metadata
    keys given are set; an id the collection does not hold is passed
    over. *)
Definition update (env : Env) (id document : string) (metadata : Metadata)
  : M unit :=
  operation env (fun w =>
    match collection w !! id with
    | Some (_, old) => (Ok tt, put id (document, metadata ∪ old) w)
    | None => (Ok tt, w)
    end).

(** Records ordered by their distance to the query, the closest first. *)
Fixpoint insert_by_distance (x : Record_ * Z) (l : list (Record_ * Z))
  : list (Record_ * Z) :=
  match l with
  | [] => [x]
  | y :: l' =>
      if snd x <=? snd y then x :: l else y :: insert_by_distance x l'
  end.

Definition nearest (env : Env) (query_text : string) (n_results : nat)
    (filter : option Where) (records : list Record_) : list (Record_ * Z) :=
  let matching := List.filter (fun r => where_matches filter (snd r)) records in
  let measured := map (fun r => (r, distance env query_text (fst r))) matching in
  firstn n_results (fold_right insert_by_distance [] measured).

(** [collection.query(query_texts=[query_text], n_results=n_results,
    where=filter)] *)
Definition query (env : Env) (query_text : string) (n_results : Z)
    (filter : option Where) : M QueryResult :=
  operation env (fun w =>
    if n_results <=? 0
    then (Raise (mkExn "TypeError" "Number of requested results cannot be negative, or zero."), w)
    else
      let hits := nearest env query_text (Z.to_nat n_results) filter
                    (map snd (map_to_list (collection w))) in
      (Ok (mkQueryResult [map (fun h => fst (fst h)) hits]
                         [map (fun h => snd (fst h)) hits]
                         [map snd hits]), w)).

End Chroma.

(** ** memory_manager.py *)

Module MemoryManager.

(** [datetime.now()] *)
Definition now (env : Env) : M DateTime := fun w =>
  (Ok (clock env (clock_reads w)),
   mkWorld (llm_calls w) (S (clock_reads w)) (db_ops w) (files w) (dirs w)
           (collection w) (trace w)).

(** A number in decimal, padded with zeros on the left to [width]. *)
Definition padded (width n : nat) : string :=
  let digits := NilZero.string_of_uint (Nat.to_uint n) in
  Py.concat (repeat "0" (width - String.length digits)) +:+ digits.

(** [d.isoformat()]: the microseconds are shown unless they are zero. *)
Definition isoformat (d : DateTime) : string :=
  padded 4 (dt_year d) +:+ "-" +:+ padded 2 (dt_month d) +:+ "-"
  +:+ padded 2 (dt_day d) +:+ "T" +:+ padded 2 (dt_hour d) +:+ ":"
  +:+ padded 2 (dt_minute d) +:+ ":" +:+ padded 2 (dt_second d)
  +:+ (if (dt_microsecond d =? 0)%nat then ""
       else "." +:+ padded 6 (dt_microsecond d)).

(** [d.strftime("%Y%m%d%H%M%S")] (for the years from 1000 on). *)
Definition strftime_seconds (d : DateTime) : string :=
  padded 4 (dt_year d) +:+ padded 2 (dt_month d) +:+ padded 2 (dt_day d)
  +:+ padded 2 (dt_hour d) +:+ padded 2 (dt_minute d)
  +:+ padded 2 (dt_second d).

(** [_hash_text] *)
Definition _hash_text (text : string) : string :=
  MD5.hexdigest (MD5.encode text).

(** [_generate_id] *)
Definition _generate_id (env : Env) (text entry_type : string) : M string :=
  let hash_str := _hash_text text in
  stamp ← now env;
  let timestamp := strftime_seconds stamp in
  mret (entry_type +:+ "_" +:+ timestamp +:+ "_" +:+ String.substring 0 8 hash_str).

Definition log_error (msg : string) : M unit := tell (EvLog LError msg).

(** [_add_chromadb] *)
Definition _add_chromadb (env : Env) (entry_id text : string)
    (metadata : Metadata) : M unit :=
  try_except
    (Chroma.add env entry_id text metadata)
    (fun e =>
       log_error ("Failed to add to ChromaDB: " +:+ exn_text e) ;;
       try_except
         (Chroma.update env entry_id text metadata)
         (fun e2 =>
            log_error ("Failed to update in ChromaDB: " +:+ exn_text e2))).

(** [_add_lancedb]: not implemented in the source ([pass]). *)
Definition _add_lancedb (entry_id text : string) (metadata : Metadata)
  : M unit := mret tt.

(** [add_entry].  An absent or empty [metadata] starts from a fresh
    dict; the three standard keys are then set over whatever it held. *)
Definition add_entry (env : Env) (config : Config) (text entry_type : string)
    (metadata : option Metadata) : M unit :=
  let metadata :=
    match metadata with
    | Some m => if bool_decide (m = ∅) then ∅ else m
    | None => ∅
    end in
  let metadata := <["type" := VStr entry_type]> metadata in
  stamp ← now env;
  let metadata := <["timestamp" := VStr (isoformat stamp)]> metadata in
  let metadata := <["text_hash" := VStr (_hash_text text)]> metadata in
  entry_id ← _generate_id env text entry_type;
  if String.eqb (vector_db_type config) "chromadb" then
    _add_chromadb env entry_id text metadata
  else if String.eqb (vector_db_type config) "lancedb" then
    _add_lancedb entry_id text metadata
  else mret tt.

(** One hit of a query: [{'text': ..., 'metadata': ..., 'distance': ...}] *)
Record Hit := mkHit {
  hit_text : string;
  hit_metadata : Metadata;
  hit_distance : Z
}.

(** [l[i]] *)
Definition index {A : Type} (l : list A) (i : nat) : Result A :=
  match l !! i with
  | Some x => Ok x
  | None => Raise (mkExn "IndexError" "list index out of range")
  end.

(** The loop [for i, doc in enumerate(docs)] of [_query_chromadb]. *)
Fixpoint format_hits (metas : list Metadata) (distances : list Z) (i : nat)
    (docs : list string) : Result (list Hit) :=
  match docs with
  | [] => Ok []
  | doc :: rest =>
      match index metas i, index distances i with
      | Ok meta, Ok dist =>
          match format_hits metas distances (S i) rest with
          | Ok hits => Ok (mkHit doc meta dist :: hits)
          | Raise e => Raise e
          end
      | Raise e, _ => Raise e
      | _, Raise e => Raise e
      end
  end.

Definition lift {A : Type} (r : Result A) : M A := fun w => (r, w).

(** The [where] filter [_query_chromadb] builds. *)
Definition where_filter (entry_types : list string) : option Chroma.Where :=
  match entry_types with
  | [] => None
  | [entry_type] => Some (Chroma.WhereEq "type" (VStr entry_type))
  | _ => Some (Chroma.WhereIn "type" (map VStr entry_types))
  end.

(** [_query_chromadb] *)
Definition _query_chromadb (env : Env) (query_text : string)
    (entry_types : list string) (top_k : Z) : M (list Hit) :=
  try_except
    (results ← Chroma.query env query_text top_k (where_filter entry_types);
     match Chroma.documents results with
     | [] => mret []
     | _ =>
         docs ← lift (index (Chroma.documents results) 0);
         metas ← lift (index (Chroma.metadatas results) 0);
         distances ← lift (index (Chroma.distances results) 0);
         lift (format_hits metas distances 0 docs)
     end)
    (fun e => mret []).

(** [_query_lancedb]: not implemented in the source. *)
Definition _query_lancedb (query_text : string) (entry_types : list string)
    (top_k : Z) : M (list Hit) := mret [].

(** [query] *)
Definition query (env : Env) (config : Config) (query_text : string)
    (entry_types : option (list string)) (top_k : Z) : M (list Hit) :=
  let entry_types := default [] entry_types in
  if String.eqb (vector_db_type config) "chromadb" then
    _query_chromadb env query_text entry_types top_k
  else if String.eqb (vector_db_type config) "lancedb" then
    _query_lancedb query_text entry_types top_k
  else mret [].

End MemoryManager.

(** ** What [add_entry] sends to the collection *)

Module Stored.

Import MemoryManager.

(** The identifier [add_entry] computes in a world: [_generate_id] reads
    the clock once more, after the reading that stamps the metadata. *)
Definition entry_id (env : Env) (w : World) (text entry_type : string)
  : string :=
  entry_type +:+ "_" +:+ strftime_seconds (clock env (S (clock_reads w)))
  +:+ "_" +:+ String.substring 0 8 (_hash_text text).

(** The metadata it sends: the caller's, with the three standard keys set
    over it. *)
Definition stamped (env : Env) (w : World) (text entry_type : string)
    (metadata : option Metadata) : Metadata :=
  <["text_hash" := VStr (_hash_text text)]>
    (<["timestamp" := VStr (isoformat (clock env (clock_reads w)))]>
       (<["type" := VStr entry_type]> (default ∅ metadata))).

(** The world after the two readings of the clock. *)
Definition after_clock (w : World) : World :=
  mkWorld (llm_calls w) (S (S (clock_reads w))) (db_ops w) (files w) (dirs w)
          (collection w) (trace w).

End Stored.

(** ** refine_scene.py *)

Module SceneRefiner.

(** The state [__init__] sets up: the three prompt templates and the
    style guide. *)
Record Refiner := mkRefiner {
  prompts : gmap string string;
  style_guide : string
}.

(** [SceneRefiner.__init__] *)
Definition init (config : Config) : M Refiner :=
  let prompts_dir := utils.get_project_path config ["prompts"] in
  cohesion ← utils.load_text_file
    (utils.os_path_join prompts_dir ["refinement_pass1_cohesion.txt"]);
  style ← utils.load_text_file
    (utils.os_path_join prompts_dir ["refinement_pass2_style.txt"]);
  polish ← utils.load_text_file
    (utils.os_path_join prompts_dir ["refinement_pass3_polish.txt"]);
  guide ← utils.load_text_file
    (utils.os_path_join prompts_dir ["style_guide.md"]);
  mret (mkRefiner
          (<["polish" := polish]>
             (<["style" := style]> (<["cohesion" := cohesion]> ∅)))
          guide).

(** [_run_pass] *)
Definition _run_pass (env : Env) (config : Config) (self : Refiner)
    (content pass_type : string) : M (option string) :=
  match prompts self !! pass_type with
  | None => mret None
  | Some prompt_template =>
      let prompt_template :=
        if String.eqb pass_type "style"
        then Py.replace prompt_template "{style_guide_content}"
                        (style_guide self)
        else prompt_template in
      LLMManager.refine_scene env config prompt_template content pass_type
  end.

(** [_get_stage_name] *)
Definition _get_stage_name (pass_num total_passes : Z) : string :=
  if pass_num <? total_passes then "refined" else "final".

(** The loop [for pass_num, pass_type in enumerate(passes, 1)] of
    [refine]: it yields the text after the last pass, or nothing when a
    pass fails (the function then returns [False]). *)
Fixpoint run_passes (env : Env) (config : Config) (self : Refiner)
    (book_name : string) (chapter scene : Z) (total_passes pass_num : Z)
    (current_content : string) (passes : list string) : M (option string) :=
  match passes with
  | [] => mret (Some current_content)
  | pass_type :: rest =>
      refined ← _run_pass env config self current_content pass_type;
      match refined with
      | Some text =>
          if Py.nonempty text then
            let stage := _get_stage_name pass_num total_passes in
            let output_path :=
              utils.get_scene_path config book_name chapter scene
                ("v" +:+ Py.str_of_int (pass_num + 1) +:+ "_" +:+ pass_type)
                stage in
            utils.save_text_file text output_path ;;
            run_passes env config self book_name chapter scene total_passes
                       (pass_num + 1) text rest
          else mret None
      | None => mret None
      end
  end.

(** [refine] *)
Definition refine (env : Env) (config : Config) (self : Refiner)
    (scene_path book_name : string) (chapter scene : Z)
    (passes : option (list string)) : M bool :=
  let passes := default ["cohesion"; "style"; "polish"] passes in
  found ← utils.os_path_exists scene_path;
  if negb found then mret false
  else
    content ← utils.load_text_file scene_path;
    done ← run_passes env config self book_name chapter scene
             (Z.of_nat (length passes)) 1 content passes;
    match done with
    | None => mret false
    | Some current_content =>
        let final_path :=
          utils.get_scene_path config book_name chapter scene "FINAL" "final" in
        utils.save_text_file current_content final_path ;;
        mret true
    end.

End SceneRefiner.

(** ** assemble_chapter.py *)

Module ChapterAssembler.

(** Whether a path matches a [glob] pattern whose only special character
    is the star, which stands for any run of characters within one path
    component. *)
Fixpoint wild_match (pattern s : string) : bool :=
  match pattern with
  | EmptyString => negb (Py.nonempty s)
  | String p pattern' =>
      if Ascii.eqb p "*" then
        (fix star (s : string) : bool :=
           wild_match pattern' s
           || match s with
              | String c s' => if Ascii.eqb c "/" then false else star s'
              | EmptyString => false
              end) s
      else
        match s with
        | String c s' => Ascii.eqb p c && wild_match pattern' s'
        | EmptyString => false
        end
  end.

(** Whether a string holds one of the characters in a list. *)
Fixpoint holds_any (chars : list ascii) (s : string) : bool :=
  match s with
  | EmptyString => false
  | String c s' => existsb (Ascii.eqb c) chars || holds_any chars s'
  end.

(** The last component of a path: what follows its last slash ([acc] is
    the component read so far, reversed). *)
Fixpoint last_component (acc s : string) : string :=
  match s with
  | EmptyString => String.rev acc
  | String c s' =>
      if Ascii.eqb c "/" then last_component "" s'
      else last_component (String c acc) s'
  end.

(** Names that start with a dot are hidden: a pattern matches them only
    if its own last component starts with a dot. *)
Definition hidden (name : string) : bool := Py.startswith name ".".

(** The patterns of [glob] covered here: no special character in the
    directory part, and in the last component, which is not empty, no
    special character but the star. *)
Definition in_fragment (pattern : string) : bool :=
  negb (holds_any ["*"; "?"; "["]%char (utils.os_path_dirname pattern))
  && negb (holds_any ["?"; "["]%char (last_component "" pattern))
  && Py.nonempty (last_component "" pattern).

(** [glob.glob(pattern)]: the paths that exist and match, in no
    particular order.  A pattern outside the fragment is reported as
    such. *)
Definition glob (pattern : string) : M (list string) := fun w =>
  if in_fragment pattern then
    (Ok (List.filter
           (fun path =>
              wild_match pattern path
              && (hidden (last_component "" pattern)
                  || negb (hidden (last_component "" path))))
           (map fst (map_to_list (files w)) ++ elements (dirs w))), w)
  else (Raise (mkExn "Unmodelled" "glob pattern outside the fragment"), w).

(** [_discover_scenes] *)
Definition _discover_scenes (config : Config) (book_name : string)
    (chapter : Z) : M (list string) :=
  let scenes_dir :=
    utils.get_project_path config ["output"; book_name; "scenes"; "final"] in
  found ← utils.os_path_exists scenes_dir;
  let scenes_dir :=
    if negb found then Py.replace scenes_dir "final" "refined"
    else scenes_dir in
  let pattern := "chapter_" +:+ Py.fmt_02d chapter +:+ "_scene_*_FINAL.md" in
  scene_files ← glob (utils.os_path_join scenes_dir [pattern]);
  mret (Py.sorted scene_files).

(** [_remove_scene_header] *)
Definition _remove_scene_header (content : string) : string :=
  if Py.startswith content "---" then
    match Py.split content "---" 2 with
    | _ :: _ :: body :: _ => Py.strip body
    | _ => content
    end
  else content.

Definition separator : string := Py.nl +:+ Py.nl +:+ "---" +:+ Py.nl +:+ Py.nl.

(** The loop of [_concatenate_scenes] over the scene paths; [parts] is the
    list built so far. *)
Fixpoint load_scenes (parts : list string) (scene_paths : list string)
  : M (list string) :=
  match scene_paths with
  | [] => mret parts
  | scene_path :: rest =>
      content ← utils.load_text_file scene_path;
      if negb (Py.nonempty content) then load_scenes parts rest
      else
        let content := _remove_scene_header content in
        load_scenes (parts ++ [content; separator]) rest
  end.

(** [_concatenate_scenes] *)
Definition _concatenate_scenes (scene_paths : list string) (chapter : Z)
  : M string :=
  parts ← load_scenes
    ["# Chapter " +:+ Py.str_of_int chapter +:+ Py.nl +:+ Py.nl] scene_paths;
  let parts :=
    match last parts with
    | Some final => if String.eqb (Py.strip final) "---"
                    then removelast parts else parts
    | None => parts
    end in
  mret (Py.concat parts).

(** The prompt of [_smooth_chapter]. *)
Definition smoothing_prompt (content : string) : string :=
  "This is a complete chapter assembled from individual scenes.

Review and improve:
1. **Scene-to-scene transitions**: Ensure smooth flow between scenes
2. **Emotional arc**: Check that the chapter has a coherent emotional progression
3. **Pacing consistency**: Ensure pacing doesn't have jarring shifts
4. **Continuity**: Fix any small continuity issues between scenes
5. **Chapter-ending impact**: Ensure the chapter ends with appropriate impact

Make MINIMAL changes to improve flow and coherence. Do not rewrite extensively.
Focus on transitions, pacing, and overall chapter unity.

CHAPTER CONTENT:
" +:+ content +:+ "

OUTPUT:
Provide the smoothed chapter with improved transitions and flow.
".

(** [_smooth_chapter] *)
Definition _smooth_chapter (env : Env) (config : Config) (content : string)
    (chapter : Z) : M (option string) :=
  smoothed ← LLMManager.generate_with_retry env config
    (smoothing_prompt content) "review"
    [("temperature", VFloat (7 # 10));
     ("num_predict", VInt (Z.of_nat (Py.count_fields false content) + 500))];
  if Py.truthy smoothed then mret smoothed else mret None.

(** [assemble] *)
Definition assemble (env : Env) (config : Config) (book_name : string)
    (chapter : Z) (scene_paths : option (list string)) (smooth : bool)
  : M (option string) :=
  scene_paths ←
    match scene_paths with
    | None => _discover_scenes config book_name chapter
    | Some paths => mret paths
    end;
  match scene_paths with
  | [] => mret None
  | _ =>
      chapter_content ← _concatenate_scenes scene_paths chapter;
      if negb (Py.nonempty chapter_content) then mret None
      else
        let raw_path :=
          utils.get_chapter_path config book_name chapter "raw" in
        utils.save_text_file chapter_content raw_path ;;
        if smooth && default true (chapter_smoothing_enabled config) then
          smoothed ← _smooth_chapter env config chapter_content chapter;
          match smoothed with
          | Some text =>
              if Py.nonempty text then
                let smooth_path :=
                  utils.get_chapter_path config book_name chapter "v1" in
                utils.save_text_file text smooth_path ;;
                mret (Some text)
              else mret (Some chapter_content)
          | None => mret (Some chapter_content)
          end
        else mret (Some chapter_content)
  end.

End ChapterAssembler.

(** ** Scenes joined into a chapter, as the specification words it *)

Module Joined.

(** A scene text that is loaded as it is: not empty, and without a
    leading metadata block. *)
Definition plain (text : string) : Prop :=
  Py.nonempty text = true /\ Py.startswith text "---" = false.

(** The parts the loop of [_concatenate_scenes] adds for such scenes. *)
Definition interleaved (texts : list string) : list string :=
  flat_map (fun t => [t; ChapterAssembler.separator]) texts.

End Joined.

(** ** generate_scene.py *)

Module SceneGenerator.

(** The metadata [_extract_scene_metadata] gathers from an outline. *)
Record SceneMetadata := mkSceneMetadata {
  pov_character : string;
  location : string;
  scene_title : string;
  target_word_count : Z
}.

(** The loop of [_generate_with_validation]: [attempt] is the loop
    variable and [remaining] the number of iterations of
    [range(max_retries)] still to run. *)
Fixpoint validation_loop (env : Env) (config : Config) (prompt : string)
    (metadata : SceneMetadata) (attempt remaining : nat) : M (option string) :=
  match remaining with
  | O => mret None
  | S remaining' =>
      prose ← LLMManager.generate_with_retry env config prompt "prose" [];
      let next := validation_loop env config prompt metadata
                                  (S attempt) remaining' in
      match prose with
      | None => next
      | Some text =>
          if negb (Py.nonempty text) then next
          else
            match utils.validate_word_count text
                    (target_word_count metadata)
                    (scene_min_words config) (scene_max_words config) with
            | Raise e => raise e
            | Ok (valid, word_count, message) =>
                if valid then mret (Some text)
                else if Z.of_nat attempt <? scene_max_retries config - 1
                     then next
                     else mret (Some text)
            end
      end
  end.

(** [_generate_with_validation] *)
Definition _generate_with_validation (env : Env) (config : Config)
    (prompt : string) (metadata : SceneMetadata) : M (option string) :=
  validation_loop env config prompt metadata
                  0 (Z.to_nat (scene_max_retries config)).

End SceneGenerator.

(** ** The retry policy of scene generation, as the specification words it *)

Module BestEffort.

(** Whether a text passes the word-count gate; [None] when the validator
    raises. *)
Definition in_range (config : Config) (target : Z) (text : string)
  : option bool :=
  match utils.validate_word_count text target
          (scene_min_words config) (scene_max_words config) with
  | Ok (valid, _, _) => Some valid
  | Raise _ => None
  end.

(** [attempts] full generations at most.  An attempt that yields nothing
    is passed over; one whose text is in range ends the run with that
    text; one whose text is out of range is retried, except the last,
    whose text is returned as it is. *)
Fixpoint generate (env : Env) (config : Config) (prompt : string)
    (target : Z) (attempts : nat) : M (option string) :=
  match attempts with
  | O => mret None
  | S rest =>
      prose ← LLMManager.generate_with_retry env config prompt "prose" [];
      if negb (Py.truthy prose) then generate env config prompt target rest
      else
        match utils.validate_word_count (default "" prose) target
                (scene_min_words config) (scene_max_words config) with
        | Raise e => raise e
        | Ok (true, _, _) => mret prose
        | Ok (false, _, _) =>
            match rest with
            | O => mret prose
            | S _ => generate env config prompt target rest
            end
        end
  end.

End BestEffort.

(** ** Example configurations, environments and worlds *)

Module Example.

Definition noon : DateTime := mkDateTime 2024 3 9 12 0 0 0.

(** A world in which nothing has happened yet. *)
Definition empty_world : World := mkWorld 0 0 0 ∅ ∅ ∅ [].

Definition refused : Exn := mkExn "ConnectionError" "connection refused".

(** A backend on which model A is unreachable, model B answers with
    blanks, and model C writes. *)
Definition backend_abc (n : nat) (model : option string) (prompt : string)
    (kwargs : Kwargs) : Outcome :=
  match model with
  | Some "C" => Returns "Once upon a time."
  | Some "B" => Returns "  "
  | _ => Fails refused
  end.

Definition env_abc : Env :=
  mkEnv backend_abc (fun _ => noon) (fun _ => None) true (fun _ _ => 0)
        Py.format_plain.

Definition chain_abc : ModelCfg :=
  mkModelCfg (Some "A") None (Some "B") (Some ["C"]).

Definition config_abc : Config :=
  mkConfig "/srv/story" {[ "prose" := chain_abc ]} None None []
           800 1200 3 (Some false) "chromadb".

(** A clock that moves on by one second every two readings: the two
    readings of one [add_entry] fall in the same second, those of the
    next call in the next second. *)
Definition ticking (n : nat) : DateTime :=
  mkDateTime 2024 3 9 12 0 (n / 2) 0.

Definition env_ticking : Env :=
  mkEnv backend_abc ticking (fun _ => None) true (fun _ _ => 0)
        Py.format_plain.

Definition unavailable : Exn := mkExn "InternalError" "database is locked".

(** An environment whose collection fails on every operation. *)
Definition env_down : Env :=
  mkEnv backend_abc (fun _ => noon) (fun _ => Some unavailable) true
        (fun _ _ => 0) Py.format_plain.

(** An environment whose collection fails on its second operation and
    on no other; its clock stands still. *)
Definition env_fails_once : Env :=
  mkEnv backend_abc (fun _ => noon)
        (fun n => if (n =? 1)%nat then Some unavailable else None) true
        (fun _ _ => 0) Py.format_plain.

(** A store with one scene summary, added while the collection worked. *)
Definition world_one_summary : World :=
  world_after
    (MemoryManager.add_entry env_fails_once config_abc
       "They reach the ford at dusk." "scene_summary"
       (Some {[ "chapter" := VInt 1 ]}))
    empty_world.

(** Metadata in which the caller sets a type of its own. *)
Definition caller_metadata : Metadata :=
  <["type" := VStr "note"]> {[ "book" := VStr "Tidewater" ]}.

(** A store with a character entry and a world entry. *)
Definition world_two_entries : World :=
  world_after
    (MemoryManager.add_entry env_ticking config_abc
       "The river Ash floods every spring." "world" None)
    (world_after
       (MemoryManager.add_entry env_ticking config_abc
          "Mira is afraid of water." "character" None)
       empty_world).

(** A project with its prompt templates, its style guide and the raw
    text of scene 1 of chapter 1. *)
Definition raw_scene_path : string :=
  "/srv/story/output/Tidewater/scenes/raw/chapter_01_scene_01_v1.md".

Definition project_files : gmap string string :=
  <["/srv/story/prompts/refinement_pass1_cohesion.txt" :=
      "Fix the flow of this scene: {scene_content}"]>
  (<["/srv/story/prompts/refinement_pass2_style.txt" :=
      "Follow {style_guide_content} in this scene: {scene_content}"]>
  (<["/srv/story/prompts/refinement_pass3_polish.txt" :=
      "Polish this scene: {scene_content}"]>
  (<["/srv/story/prompts/style_guide.md" := "short sentences"]>
  (<[raw_scene_path := "Mira waded in."]> ∅)))).

Definition world_project : World := mkWorld 0 0 0 project_files ∅ ∅ [].

(** A backend whose model C answers each call with a text of its own. *)
Definition backend_drafts (n : nat) (model : option string) (prompt : string)
    (kwargs : Kwargs) : Outcome :=
  match model with
  | Some "C" => Returns ("Draft " +:+ Py.str_of_int (Z.of_nat n) +:+ ".")
  | _ => Fails refused
  end.

Definition env_drafts : Env :=
  mkEnv backend_drafts (fun _ => noon) (fun _ => None) true (fun _ _ => 0)
        Py.format_plain.

Definition config_drafts : Config :=
  mkConfig "/srv/story" {[ "prose" := mkModelCfg (Some "C") None None (Some []) ]}
           None None [] 800 1200 3 (Some false) "chromadb".

(** The refiner [__init__] builds in that project. *)
Definition refiner_drafts : SceneRefiner.Refiner :=
  match result_of (SceneRefiner.init config_drafts) world_project with
  | Ok self => self
  | Raise _ => SceneRefiner.mkRefiner ∅ ""
  end.

(** The refinement of that scene with the passes cohesion and style. *)
Definition refine_two_passes : M bool :=
  self ← SceneRefiner.init config_drafts;
  SceneRefiner.refine env_drafts config_drafts self raw_scene_path
    "Tidewater" 1 1 (Some ["cohesion"; "style"]).

(** A project in which scenes 1 and 2 of chapter 1 are final. *)
Definition world_final_scenes : World :=
  world_after
    (utils.save_text_file "Text A"
       (utils.get_scene_path config_drafts "Tidewater" 1 1 "FINAL" "final") ;;
     utils.save_text_file "Text B"
       (utils.get_scene_path config_drafts "Tidewater" 1 2 "FINAL" "final"))
    empty_world.

(** A backend that answers the first call with an empty text and the
    calls after it with a draft, and one that fails the first call and
    answers the calls after it. *)
Definition backend_blank_first (n : nat) (model : option string)
    (prompt : string) (kwargs : Kwargs) : Outcome :=
  match n with
  | O => Returns ""
  | S _ => Returns "The tide went out."
  end.

Definition backend_error_first (n : nat) (model : option string)
    (prompt : string) (kwargs : Kwargs) : Outcome :=
  match n with
  | O => Fails refused
  | S _ => Returns "The tide went out."
  end.

Definition env_blank_first : Env :=
  mkEnv backend_blank_first (fun _ => noon) (fun _ => None) true
        (fun _ _ => 0) Py.format_plain.

Definition env_error_first : Env :=
  mkEnv backend_error_first (fun _ => noon) (fun _ => None) true
        (fun _ _ => 0) Py.format_plain.

(** Two attempts per model, five seconds between retries. *)
Definition config_two_attempts : Config :=
  mkConfig "/srv/story" {[ "prose" := mkModelCfg (Some "C") None None (Some []) ]}
           (Some 2) (Some 5) [] 800 1200 3 (Some false) "chromadb".

(** A backend that writes a short text at every call, a different one at
    each of the first three. *)
Definition backend_tries (n : nat) (model : option string) (prompt : string)
    (kwargs : Kwargs) : Outcome :=
  match n with
  | 0%nat => Returns "First try."
  | 1%nat => Returns "Second try, still short."
  | _ => Returns "Third and last try."
  end.

Definition env_tries : Env :=
  mkEnv backend_tries (fun _ => noon) (fun _ => None) true (fun _ _ => 0)
        Py.format_plain.

Definition scene_metadata : SceneGenerator.SceneMetadata :=
  SceneGenerator.mkSceneMetadata "Mira" "The ford" "Crossing" 1000.

End Example.

(** ** More example environments *)

Module Offline.

(** A backend that refuses every call. *)
Definition backend_refusing (n : nat) (model : option string) (prompt : string)
    (kwargs : Kwargs) : Outcome := Fails Example.refused.

Definition env : Env :=
  mkEnv backend_refusing (fun _ => Example.noon) (fun _ => None) true
        (fun _ _ => 0) Py.format_plain.

End Offline.

(** ** Scene files as [_concatenate_scenes] reads them *)

Module Loaded.

(** What [load_text_file] returns for a path that is not a directory. *)
Definition content_of (w : World) (path : string) : string :=
  Py.universal_newlines (default "" (files w !! path)).


(** The heading [_concatenate_scenes] starts a chapter with. *)
Definition heading (chapter : Z) : string :=
  "# Chapter " +:+ Py.str_of_int chapter +:+ Py.nl +:+ Py.nl.

End Loaded.

(** ** A project with chapter smoothing left at its default *)

Module Studio.

(** Smoothing is served by model C; [smoothing_enabled] is not set. *)
Definition config : Config :=
  mkConfig "/srv/story"
           (<["review" := mkModelCfg (Some "C") None None (Some [])]>
              {[ "prose" := Example.chain_abc ]})
           None None [] 800 1200 3 None "chromadb".

(** The final scenes of chapter 1 in [Example.world_final_scenes]. *)
Definition final_scenes : list string :=
  [utils.get_scene_path config "Tidewater" 1 1 "FINAL" "final";
   utils.get_scene_path config "Tidewater" 1 2 "FINAL" "final"].

(** The raw chapter they make. *)
Definition raw_chapter : string :=
  Loaded.heading 1 +:+ Py.join ChapterAssembler.separator ["Text A"; "Text B"].

End Studio.

(** ** utils.py: file names *)

Module FileNames.

(** The characters the pattern of [sanitize_filename] removes: the angle
    brackets, the colon, the double quote, the slash, the backslash, the
    bar, the question mark and the star. *)
Definition invalid (c : ascii) : bool :=
  existsb (Ascii.eqb c)
    ["<"; ">"; ":"; ascii_of_nat 34; "/"; ascii_of_nat 92; "|"; "?"; "*"]%char.

(** The [re.sub] of [sanitize_filename]: every such character is cut
    out. *)
Fixpoint remove_invalid (name : string) : string :=
  match name with
  | EmptyString => EmptyString
  | String c name' =>
      if invalid c then remove_invalid name'
      else String c (remove_invalid name')
  end.

(** [sanitize_filename] *)
Definition sanitize_filename (name : string) : string :=
  let name := remove_invalid name in
  let name := Py.replace name " " "_" in
  String.substring 0 100 name.

(** Whether every character of a string passes a test. *)
Fixpoint every (test : ascii -> bool) (s : string) : bool :=
  match s with
  | EmptyString => true
  | String c s' => test c && every test s'
  end.

(** A character that may stay in a file name. *)
Definition allowed (c : ascii) : bool :=
  negb (invalid c) && negb (Ascii.eqb c " ").

End FileNames.

(** ** assemble_chapter.py: the manuscript *)

Module BookAssembler.

(** The loop [for chapter in range(1, num_chapters + 1)] of
    [_create_manuscript]: [chapter] is the loop variable, [remaining] the
    number of iterations still to run, [parts] the list built so far. *)
Fixpoint load_chapters (config : Config) (book_name : string)
    (parts : list string) (chapter : Z) (remaining : nat) : M (list string) :=
  match remaining with
  | O => mret parts
  | S remaining' =>
      let chapter_path :=
        utils.get_chapter_path config book_name chapter "v1" in
      found ← utils.os_path_exists chapter_path;
      if (found : bool) then
        content ← utils.load_text_file chapter_path;
        load_chapters config book_name
                      (parts ++ [content; Py.nl +:+ Py.nl])%list
                      (chapter + 1) remaining'
      else load_chapters config book_name parts (chapter + 1) remaining'
  end.

(** The three parts the manuscript starts with. *)
Definition title_parts (book_name : string) : list string :=
  ["# " +:+ book_name +:+ Py.nl +:+ Py.nl;
   "*Generated with StoryApp*" +:+ Py.nl +:+ Py.nl;
   "---" +:+ Py.nl +:+ Py.nl].

Definition manuscript_path (config : Config) (book_name : string) : string :=
  utils.get_project_path config
    ["output"; book_name; book_name +:+ "_manuscript.md"].

(** [_create_manuscript] *)
Definition _create_manuscript (config : Config) (book_name : string)
    (num_chapters : Z) : M unit :=
  parts ← load_chapters config book_name (title_parts book_name) 1
             (Z.to_nat num_chapters);
  let manuscript := Py.concat parts in
  utils.save_text_file manuscript (manuscript_path config book_name).

(** What a chapter brings to the manuscript: the text of its smoothed
    version followed by a blank line, or nothing when there is no such
    file. *)
Definition chapter_text (config : Config) (book_name : string) (w : World)
    (chapter : Z) : string :=
  match files w !! utils.get_chapter_path config book_name chapter "v1" with
  | Some content => Py.universal_newlines content +:+ Py.nl +:+ Py.nl
  | None => ""
  end.

(** The manuscript of the chapters from [chapter] on, [count] of them. *)
Definition chapters_text (config : Config) (book_name : string) (w : World)
    (chapter : Z) (count : nat) : string :=
  Py.concat (map (fun i => chapter_text config book_name w (chapter + Z.of_nat i))
                 (seq 0 count)).

Definition manuscript_text (config : Config) (book_name : string) (w : World)
    (num_chapters : Z) : string :=
  Py.concat (title_parts book_name)
  +:+ chapters_text config book_name w 1 (Z.to_nat num_chapters).

End BookAssembler.

(** ** refine_scene.py: what a run is given and what it leaves *)

Module Refined.

(** The passes [refine] runs: those given, or the three standard ones. *)
Definition passes_of (passes : option (list string)) : list string :=
  default ["cohesion"; "style"; "polish"] passes.

(** The path of the final version of a scene. *)
Definition final_path (config : Config) (book_name : string)
    (chapter scene : Z) : string :=
  utils.get_scene_path config book_name chapter scene "FINAL" "final".

(** The name of a scene file. *)
Definition scene_file (chapter scene : Z) (version : string) : string :=
  "chapter_" +:+ Py.fmt_02d chapter +:+ "_scene_" +:+ Py.fmt_02d scene
  +:+ "_" +:+ version +:+ ".md".

End Refined.

(* ===================================================================== *)
(** * Part II. Properties                                                  *)
(* ===================================================================== *)

(** Projections of a world that is written out are computed; nothing else
    is unfolded. *)
Ltac world_simpl :=
  cbn [llm_calls clock_reads db_ops files dirs collection trace fst snd].

(** ** Strings *)

Lemma string_app_assoc (a b c : string) : (a +:+ b) +:+ c = a +:+ (b +:+ c).
Proof.
  induction a as [|x a IH]; [reflexivity|].
  change (String x ((a +:+ b) +:+ c) = String x (a +:+ (b +:+ c))).
  rewrite IH. reflexivity.
Qed.

Lemma string_app_nil_r (a : string) : a +:+ "" = a.
Proof.
  induction a as [|x a IH]; [reflexivity|].
  change (String x (a +:+ "") = String x a). rewrite IH. reflexivity.
Qed.

Lemma string_length_app (a b : string) :
  String.length (a +:+ b) = (String.length a + String.length b)%nat.
Proof.
  induction a as [|c a IH]; [reflexivity|].
  change (String c a +:+ b) with (String c (a +:+ b)).
  cbn [String.length]. rewrite IH. reflexivity.
Qed.

Lemma string_app_inv_head (a x y : string) : a +:+ x = a +:+ y -> x = y.
Proof.
  induction a as [|c a IH]; [auto|].
  change (String c (a +:+ x) = String c (a +:+ y) -> x = y).
  intros H. injection H as H. auto.
Qed.

(** Two strings that are equal end alike and start alike. *)
Lemma app_ends_eq (a b x y : string) :
  String.length x = String.length y -> a +:+ x = b +:+ y -> a = b /\ x = y.
Proof.
  intros Hlen Heq.
  assert (Hab : String.length a = String.length b).
  { apply (f_equal String.length) in Heq.
    rewrite !string_length_app in Heq. lia. }
  revert b Heq Hab. induction a as [|c a IH]; intros [|d b] Heq Hab;
    try discriminate Hab.
  - split; [reflexivity | exact Heq].
  - change (String c (a +:+ x) = String d (b +:+ y)) in Heq.
    injection Heq as -> Heq. injection Hab as Hab.
    destruct (IH b Heq Hab) as (-> & ->). split; reflexivity.
Qed.

Lemma app_suffix_eq (a b x y : string) :
  String.length x = String.length y -> a +:+ x = b +:+ y -> x = y.
Proof. intros Hlen Heq. apply (app_ends_eq a b x y Hlen Heq). Qed.

Lemma string_app_inv_tail (a b x : string) : a +:+ x = b +:+ x -> a = b.
Proof. intros Heq. apply (app_ends_eq a b x x eq_refl Heq). Qed.

(** ** Generation with retries and fallback models *)

Section Generation.

Import LLMManager Chain.

Variable env : Env.
Variable config : Config.

Lemma strip_empty : Py.strip "" = "".
Proof. reflexivity. Qed.

Lemma length_pos_nonempty (s : string) :
  (0 <? String.length s)%nat = true <-> s <> "".
Proof.
  destruct s; simpl; split; intros H; try congruence; try discriminate.
  reflexivity.
Qed.

Lemma accepted_iff (result : string) :
  accepted result = true <-> Py.strip result <> "".
Proof.
  unfold accepted. rewrite andb_true_iff, length_pos_nonempty.
  split; [tauto|]. intros H. split; [|exact H].
  destruct result; [|reflexivity]. exfalso. apply H, strip_empty.
Qed.

Lemma accepted_truthy (result : string) :
  accepted result = true -> Py.truthy (Some result) = true.
Proof. unfold accepted. rewrite andb_true_iff. tauto. Qed.

Lemma attempt_fails_returns (text : string) :
  attempt_fails (Returns text) -> accepted text = false.
Proof.
  simpl. intros H. destruct (accepted text) eqn:E; [|reflexivity].
  apply accepted_iff in E. contradiction.
Qed.

(** A sleep either leaves its event or raises and leaves nothing. *)
Lemma sleep_cases seconds w :
  sleep seconds w = (Ok tt, emit (EvSleep seconds) w)
  \/ exists e, sleep seconds w = (Raise e, w).
Proof.
  unfold sleep.
  destruct ((seconds <? - sleep_limit) || (sleep_limit <? seconds));
    [right; eexists; reflexivity|].
  destruct (seconds <? 0); [right; eexists; reflexivity | left; reflexivity].
Qed.

(** A delay that is not negative and fits the clock is slept. *)
Lemma sleep_valid w :
  valid_delay config ->
  sleep (retry_delay config) w
  = (Ok tt, emit (EvSleep (retry_delay config)) w).
Proof.
  intros [Hlo Hhi]. unfold sleep.
  replace (retry_delay config <? - sleep_limit) with false
    by (symmetry; apply Z.ltb_ge; unfold sleep_limit in *; lia).
  replace (sleep_limit <? retry_delay config) with false
    by (symmetry; apply Z.ltb_ge; lia).
  replace (retry_delay config <? 0) with false
    by (symmetry; apply Z.ltb_ge; lia).
  reflexivity.
Qed.

(** Keyword arguments that name no parameter are passed on. *)
Lemma bind_kwargs_free qualname parameters kwargs :
  (forall p, p ∈ parameters -> p ∈ reserved) ->
  free_kwargs kwargs ->
  bind_kwargs qualname parameters kwargs = Ok tt.
Proof.
  intros Hsub Hfree. unfold bind_kwargs.
  replace (list_find (fun kv => bool_decide (fst kv ∈ parameters)) kwargs)
    with (@None (nat * (string * PyVal))); [reflexivity|].
  symmetry. apply list_find_None.
  eapply Forall_impl; [exact Hfree|]. intros kv Hkv Hin.
  apply Hkv, Hsub. apply bool_decide_unpack in Hin. exact Hin.
Qed.

Lemma try_generate_parameters p :
  p ∈ ["self"; "model"; "prompt"] -> p ∈ reserved.
Proof. unfold reserved. rewrite !elem_of_cons, !elem_of_nil. tauto. Qed.

Lemma generate_with_retry_parameters p :
  p ∈ ["self"; "prompt"; "model_config_key"] -> p ∈ reserved.
Proof. unfold reserved. rewrite !elem_of_cons, !elem_of_nil. tauto. Qed.

Lemma try_generate_free model prompt kwargs w :
  free_kwargs kwargs ->
  _try_generate env config model prompt kwargs w
  = try_generate_loop env config model prompt kwargs
      0 (Z.to_nat (max_retries config)) w.
Proof.
  intros Hfree. unfold _try_generate.
  rewrite (bind_kwargs_free _ _ _ try_generate_parameters Hfree). reflexivity.
Qed.

(** A call of [_try_generate] runs the loop, or fails to bind its
    arguments and does nothing. *)
Lemma try_generate_cases model prompt kwargs w :
  _try_generate env config model prompt kwargs w
  = try_generate_loop env config model prompt kwargs
      0 (Z.to_nat (max_retries config)) w
  \/ exists e, _try_generate env config model prompt kwargs w = (Raise e, w).
Proof.
  unfold _try_generate.
  destruct (bind_kwargs _ _ kwargs) as [[]|e];
    [left; reflexivity | right; eexists; reflexivity].
Qed.

(** One pass of the loop of [_try_generate], unfolded. *)
Lemma try_generate_loop_step model prompt kwargs attempt remaining w :
  try_generate_loop env config model prompt kwargs attempt (S remaining) w =
  let w1 := mkWorld (S (llm_calls w)) (clock_reads w) (db_ops w) (files w)
              (dirs w) (collection w)
              (EvGenerate model prompt kwargs
                 (backend env (llm_calls w) model prompt kwargs) :: trace w) in
  match backend env (llm_calls w) model prompt kwargs with
  | Returns text =>
      if accepted text then (Ok (Some text), w1)
      else try_generate_loop env config model prompt kwargs
             (S attempt) remaining w1
  | Fails e =>
      if Z.of_nat attempt <? max_retries config - 1 then
        match sleep (retry_delay config) w1 with
        | (Ok _, w2) =>
            try_generate_loop env config model prompt kwargs
              (S attempt) remaining w2
        | (Raise e', w2) => (Raise e', w2)
        end
      else try_generate_loop env config model prompt kwargs
             (S attempt) remaining w1
  end.
Proof.
  cbn [try_generate_loop]. unfold mbind, M_bind, try_except, client_generate.
  destruct (backend env (llm_calls w) model prompt kwargs) as [text|e].
  - destruct (accepted text); reflexivity.
  - destruct (Z.of_nat attempt <? max_retries config - 1); [|reflexivity].
    destruct (sleep (retry_delay config) _) as [[[]|e'] w2]; reflexivity.
Qed.

(** Whatever [_try_generate] returns is non-empty once stripped. *)
Lemma try_generate_loop_result model prompt kwargs remaining :
  forall attempt w text w',
    try_generate_loop env config model prompt kwargs attempt remaining w
    = (Ok (Some text), w') ->
    accepted text = true.
Proof.
  induction remaining as [|remaining IH]; intros attempt w text w' H.
  - discriminate H.
  - rewrite try_generate_loop_step in H. cbv zeta in H.
    destruct (backend env (llm_calls w) model prompt kwargs) as [t|e].
    + destruct (accepted t) eqn:E.
      * injection H as -> _. exact E.
      * eapply IH, H.
    + destruct (Z.of_nat attempt <? max_retries config - 1);
        [|eapply IH, H].
      destruct (sleep (retry_delay config) _) as [[[]|e'] w2];
        [eapply IH, H | discriminate H].
Qed.

Lemma try_generate_result model prompt kwargs w text w' :
  _try_generate env config model prompt kwargs w = (Ok (Some text), w') ->
  accepted text = true.
Proof.
  destruct (try_generate_cases model prompt kwargs w) as [-> | (e & ->)];
    [apply try_generate_loop_result | discriminate].
Qed.

(** With a delay that can be slept, the loop of [_try_generate] never
    raises. *)
Lemma try_generate_loop_total model prompt kwargs remaining :
  valid_delay config ->
  forall attempt w, exists r w',
    try_generate_loop env config model prompt kwargs attempt remaining w
    = (Ok r, w').
Proof.
  intros Hdelay.
  induction remaining as [|remaining IH]; intros attempt w.
  - eexists _, _. reflexivity.
  - rewrite try_generate_loop_step. cbv zeta.
    destruct (backend env (llm_calls w) model prompt kwargs) as [t|e].
    + destruct (accepted t); [eexists _, _; reflexivity | apply IH].
    + destruct (Z.of_nat attempt <? max_retries config - 1); [|apply IH].
      rewrite (sleep_valid _ Hdelay). apply IH.
Qed.

(** A model whose every call fails uses up its attempts and yields
    nothing. *)
Lemma try_generate_loop_fails model prompt kwargs remaining :
  valid_delay config ->
  fails_on env prompt kwargs model ->
  forall attempt w, exists w',
    try_generate_loop env config model prompt kwargs attempt remaining w
    = (Ok None, w')
    /\ llm_calls w' = (llm_calls w + remaining)%nat.
Proof.
  intros Hdelay Hfail.
  induction remaining as [|remaining IH]; intros attempt w.
  - exists w. split; [reflexivity | lia].
  - rewrite try_generate_loop_step. cbv zeta.
    pose proof (Hfail (llm_calls w)) as Hf.
    destruct (backend env (llm_calls w) model prompt kwargs) as [t|e].
    + rewrite (attempt_fails_returns _ Hf).
      edestruct IH as (w' & -> & Hc). eexists; split; [reflexivity|].
      rewrite Hc. simpl. lia.
    + destruct (Z.of_nat attempt <? max_retries config - 1);
        [rewrite (sleep_valid _ Hdelay)|];
        (edestruct IH as (w' & -> & Hc); eexists; split; [reflexivity|]);
        rewrite Hc; simpl; lia.
Qed.

(** A model whose every call returns an acceptable text yields it at the
    first attempt. *)
Lemma try_generate_first_attempt model prompt kwargs text w :
  free_kwargs kwargs ->
  0 < max_retries config ->
  backend env (llm_calls w) model prompt kwargs = Returns text ->
  accepted text = true ->
  exists w',
    _try_generate env config model prompt kwargs w = (Ok (Some text), w')
    /\ llm_calls w' = S (llm_calls w).
Proof.
  intros Hfree Hpos Hb Hacc. rewrite (try_generate_free _ _ _ _ Hfree).
  destruct (Z.to_nat (max_retries config)) as [|n] eqn:E; [lia|].
  rewrite try_generate_loop_step. cbv zeta. rewrite Hb, Hacc.
  eexists; split; reflexivity.
Qed.

(** One model is called at most [max_retries] times, and exactly that many
    times when it yields nothing. *)
Lemma try_generate_loop_calls model prompt kwargs remaining :
  forall attempt w r w',
    try_generate_loop env config model prompt kwargs attempt remaining w
    = (r, w') ->
    (llm_calls w' <= llm_calls w + remaining)%nat
    /\ (r = Ok None -> llm_calls w' = (llm_calls w + remaining)%nat).
Proof.
  induction remaining as [|remaining IH]; intros attempt w r w' H.
  - injection H as <- <-. split; [lia | intros _; lia].
  - rewrite try_generate_loop_step in H. cbv zeta in H.
    destruct (backend env (llm_calls w) model prompt kwargs) as [t|e].
    + destruct (accepted t).
      * injection H as <- <-. cbn [llm_calls]. split; [lia | discriminate].
      * apply IH in H as [Hle Heq]. cbn [llm_calls] in Hle, Heq.
        split; [lia | intros Hr; rewrite (Heq Hr); lia].
    + destruct (Z.of_nat attempt <? max_retries config - 1).
      * destruct (sleep_cases (retry_delay config)
                    (mkWorld (S (llm_calls w)) (clock_reads w) (db_ops w)
                       (files w) (dirs w) (collection w)
                       (EvGenerate model prompt kwargs (Fails e) :: trace w)))
          as [Hs | (e' & Hs)]; rewrite Hs in H.
        -- apply IH in H as [Hle Heq]. cbn [llm_calls emit] in Hle, Heq.
           split; [lia | intros Hr; rewrite (Heq Hr); lia].
        -- injection H as <- <-. cbn [llm_calls].
           split; [lia | discriminate].
      * apply IH in H as [Hle Heq]. cbn [llm_calls] in Hle, Heq.
        split; [lia | intros Hr; rewrite (Heq Hr); lia].
Qed.

End Generation.

Section ChainOrder.

Import LLMManager Chain.

Variable env : Env.
Variable config : Config.

Lemma try_alternatives_first_success prompt kwargs alternatives w :
  try_alternatives env config prompt kwargs alternatives w
  = first_success env config prompt kwargs (map Some alternatives) w.
Proof.
  revert w. induction alternatives as [|alt rest IH]; intros w; [reflexivity|].
  cbn [try_alternatives map first_success]. unfold mbind, M_bind.
  destruct (_try_generate env config (Some alt) prompt kwargs w) as [[r|e] w1];
    [|reflexivity].
  destruct (Py.truthy r); [reflexivity | apply IH].
Qed.

(** With keyword arguments that bind and alternatives that are a list,
    a generation is the run of the chain. *)
Lemma generate_with_retry_first_success prompt key kwargs model_cfg w :
  _get_model_config config key = Ok model_cfg ->
  free_kwargs kwargs ->
  mc_alternatives model_cfg <> None ->
  generate_with_retry env config prompt key kwargs w
  = first_success env config prompt kwargs (chain model_cfg) w.
Proof.
  intros Hcfg Hfree Halt. unfold generate_with_retry, chain.
  rewrite (bind_kwargs_free _ _ _ generate_with_retry_parameters Hfree), Hcfg.
  destruct (mc_alternatives model_cfg) as [alts|]; [|contradiction].
  cbn [first_success default iterate_alternatives]. unfold mbind, M_bind.
  destruct (_try_generate env config _ prompt kwargs w) as [[r|e] w1];
    [|reflexivity].
  destruct (Py.truthy r); [reflexivity|].
  destruct (Py.truthy (mc_fallback model_cfg)); cbn [app first_success].
  - unfold mbind, M_bind.
    destruct (_try_generate env config _ prompt kwargs w1) as [[r2|e] w2];
      [|reflexivity].
    destruct (Py.truthy r2); [reflexivity|].
    apply try_alternatives_first_success.
  - apply try_alternatives_first_success.
Qed.

Lemma first_success_result prompt kwargs models :
  forall w text w',
    first_success env config prompt kwargs models w = (Ok (Some text), w') ->
    accepted text = true.
Proof.
  induction models as [|model rest IH]; intros w text w' H.
  - discriminate H.
  - cbn [first_success] in H. unfold mbind, M_bind in H.
    destruct (_try_generate env config model prompt kwargs w)
      as [[r|e] w1] eqn:E; [|discriminate H].
    destruct (Py.truthy r) eqn:T.
    + injection H as -> ->.
      eapply try_generate_result. exact E.
    + eapply IH, H.
Qed.

(** With keyword arguments that bind and a delay that can be slept, the
    run of a chain never raises. *)
Lemma first_success_total prompt kwargs models :
  free_kwargs kwargs -> valid_delay config ->
  forall w, exists r w',
    first_success env config prompt kwargs models w = (Ok r, w').
Proof.
  intros Hfree Hdelay.
  induction models as [|model rest IH]; intros w.
  - eexists _, _. reflexivity.
  - cbn [first_success]. unfold mbind, M_bind.
    destruct (try_generate_loop_total env config model prompt kwargs
                (Z.to_nat (max_retries config)) Hdelay 0%nat w)
      as (r & w1 & E).
    rewrite (try_generate_free env config _ _ _ _ Hfree), E.
    destruct (Py.truthy r); [eexists _, _; reflexivity | apply IH].
Qed.

Lemma first_success_skip prompt kwargs model rest w :
  free_kwargs kwargs -> valid_delay config ->
  fails_on env prompt kwargs model ->
  exists w1,
    first_success env config prompt kwargs (model :: rest) w
    = first_success env config prompt kwargs rest w1
    /\ llm_calls w1 = (llm_calls w + Z.to_nat (max_retries config))%nat.
Proof.
  intros Hfree Hdelay Hf. cbn [first_success]. unfold mbind, M_bind.
  rewrite (try_generate_free env config _ _ _ _ Hfree).
  destruct (try_generate_loop_fails env config model prompt kwargs
              (Z.to_nat (max_retries config)) Hdelay Hf 0%nat w)
    as (w1 & -> & Hc).
  exists w1. split; [reflexivity | exact Hc].
Qed.

(** C1. For every role that resolves to a model chain, called with
    keyword arguments that name none of the parameters bound by position
    and with alternatives that are a list, [generate_with_retry] gives
    the primary model its attempts, then the fallback if one is
    configured, then the alternatives in list order, and returns the
    first result, without calling the models after it; a text it returns
    is non-empty once stripped.  On a chain [A, B, C] where every such
    call of A and of B fails and C returns a text, with a retry delay
    that [time.sleep] accepts, it returns C's text, after [max_retries]
    calls of A, as many of B and one of C. *)
Theorem generate_with_retry_chain_order prompt key kwargs model_cfg w :
  _get_model_config config key = Ok model_cfg ->
  free_kwargs kwargs ->
  mc_alternatives model_cfg <> None ->
  generate_with_retry env config prompt key kwargs w
  = first_success env config prompt kwargs (chain model_cfg) w
  /\ (forall text w',
        generate_with_retry env config prompt key kwargs w
        = (Ok (Some text), w') ->
        Py.strip text <> "")
  /\ (forall A B C text,
        chain model_cfg = [A; B; C] ->
        fails_on env prompt kwargs A -> fails_on env prompt kwargs B ->
        returns_on env prompt kwargs C text -> Py.strip text <> "" ->
        0 < max_retries config ->
        valid_delay config ->
        exists w',
          generate_with_retry env config prompt key kwargs w
          = (Ok (Some text), w')
          /\ llm_calls w'
             = (llm_calls w + 2 * Z.to_nat (max_retries config) + 1)%nat).
Proof.
  intros Hcfg Hfree Halt.
  pose proof (generate_with_retry_first_success prompt key kwargs _ w
                Hcfg Hfree Halt) as Heq.
  split; [exact Heq|]. split.
  - intros text w' H. rewrite Heq in H.
    apply first_success_result in H. apply accepted_iff, H.
  - intros A B C text Hchain HA HB HC Htext Hpos Hdelay.
    rewrite Heq, Hchain.
    destruct (first_success_skip prompt kwargs A [B; C] w Hfree Hdelay HA)
      as (w1 & -> & H1).
    destruct (first_success_skip prompt kwargs B [C] w1 Hfree Hdelay HB)
      as (w2 & -> & H2).
    cbn [first_success]. unfold mbind, M_bind.
    destruct (try_generate_first_attempt env config C prompt kwargs text w2
                Hfree Hpos (HC _) (proj2 (accepted_iff text) Htext))
      as (w3 & -> & H3).
    rewrite (accepted_truthy _ (proj2 (accepted_iff text) Htext)).
    exists w3. split; [reflexivity|]. lia.
Qed.

End ChainOrder.

Lemma generate_with_retry_chain_order_witness :
  exists w',
    LLMManager.generate_with_retry Example.env_abc Example.config_abc
      "Write the scene." "review" [("temperature", VFloat (7 # 10))]
      Example.empty_world
    = (Ok (Some "Once upon a time."), w')
    /\ llm_calls w' = 7%nat.
Proof.
  destruct (generate_with_retry_chain_order Example.env_abc Example.config_abc
              "Write the scene." "review" [("temperature", VFloat (7 # 10))]
              Example.chain_abc Example.empty_world eq_refl)
    as (_ & _ & H).
  - repeat constructor. cbn [fst]. unfold Chain.reserved.
    intros Hin. repeat (apply elem_of_cons in Hin as [Hin|Hin];
                        [discriminate Hin|]).
    apply elem_of_nil in Hin. exact Hin.
  - discriminate.
  - apply (H (Some "A") (Some "B") (Some "C") "Once upon a time.").
    + reflexivity.
    + intros n. exact I.
    + intros n. reflexivity.
    + intros n. reflexivity.
    + discriminate.
    + reflexivity.
    + unfold Chain.valid_delay. vm_compute. split; discriminate.
Defined.

(** ** The memory store *)

Section Memory.

Import MemoryManager Stored.

Variable env : Env.

Lemma add_entry_chromadb config text entry_type metadata w :
  vector_db_type config = "chromadb" ->
  add_entry env config text entry_type metadata w
  = _add_chromadb env (entry_id env w text entry_type) text
      (stamped env w text entry_type metadata) (after_clock w).
Proof.
  intros Hdb. unfold add_entry, _generate_id, now, mbind, M_bind, mret, M_ret.
  rewrite Hdb. cbn [String.eqb clock_reads]. unfold entry_id, stamped, after_clock.
  replace (match metadata with
           | Some m => if bool_decide (m = ∅) then ∅ else m
           | None => ∅
           end) with (default (∅ : Metadata) metadata); [reflexivity|].
  destruct metadata as [m|]; [|reflexivity]. cbn [default].
  case_bool_decide as Hm; [subst m|]; reflexivity.
Qed.

Lemma add_entry_other config text entry_type metadata w :
  vector_db_type config <> "chromadb" ->
  add_entry env config text entry_type metadata w = (Ok tt, after_clock w).
Proof.
  intros Hdb. unfold add_entry, _generate_id, now, mbind, M_bind, mret, M_ret.
  destruct (String.eqb (vector_db_type config) "chromadb") eqn:E.
  - apply String.eqb_eq in E. contradiction.
  - destruct (String.eqb (vector_db_type config) "lancedb"); reflexivity.
Qed.

(** What [_add_chromadb] can do to the collection: it never raises, it
    touches no record but the one of the id, and that record is left as it
    was, or set to the document and metadata given, or updated with
    them. *)
Lemma add_chromadb_cases id text metadata w :
  exists w',
    _add_chromadb env id text metadata w = (Ok tt, w')
    /\ clock_reads w' = clock_reads w
    /\ (forall j, j <> id -> collection w' !! j = collection w !! j)
    /\ (collection w' !! id = collection w !! id
        \/ collection w' !! id = Some (text, metadata)
        \/ exists d old,
             collection w !! id = Some (d, old)
             /\ collection w' !! id = Some (text, metadata ∪ old))
    /\ (db_fault env (db_ops w) = None -> is_Some (collection w' !! id)).
Proof.
  unfold _add_chromadb, try_except, Chroma.add, Chroma.update,
    Chroma.operation, Chroma.put, log_error, tell, emit, mbind, M_bind.
  world_simpl.
  destruct (db_fault env (db_ops w)) as [e1|] eqn:F1;
    [| destruct (collection w !! id) as [[d old]|] eqn:L;
       [destruct (duplicate_raises env)|] ];
    world_simpl;
    try (destruct (db_fault env (S (db_ops w))) as [e2|] eqn:F2; world_simpl);
    try (destruct (collection w !! id) as [[d old]|] eqn:L; world_simpl);
    try (rewrite L; world_simpl).
  all: eexists; (split; [reflexivity|]); world_simpl.
  all: split; [reflexivity|].
  all: split;
    [intros j Hj; first [reflexivity | apply lookup_insert_ne; congruence]|].
  all: split;
    [ first [ left; reflexivity
            | left; assumption
            | right; left; apply lookup_insert_eq
            | right; right; eexists _, _;
              split; [reflexivity | apply lookup_insert_eq] ]
    | intros HF;
      first [congruence | rewrite ?lookup_insert_eq, ?L; eauto] ].
Qed.

Lemma add_chromadb_dom id text metadata w :
  exists w',
    _add_chromadb env id text metadata w = (Ok tt, w')
    /\ clock_reads w' = clock_reads w
    /\ dom (collection w) ⊆ dom (collection w')
    /\ dom (collection w') ⊆ {[id]} ∪ dom (collection w)
    /\ (db_fault env (db_ops w) = None -> id ∈ dom (collection w')).
Proof.
  destruct (add_chromadb_cases id text metadata w)
    as (w' & Hrun & Hclock & Hother & Hid & Hok).
  exists w'. split; [exact Hrun|]. split; [exact Hclock|].
  split; [|split].
  - intros j Hj. apply elem_of_dom in Hj. apply elem_of_dom.
    destruct (decide (j = id)) as [->|Hne]; [|rewrite Hother; auto].
    destruct Hid as [E | [E | (d & old & _ & E)]]; rewrite E; eauto.
  - intros j Hj. apply elem_of_dom in Hj.
    destruct (decide (j = id)) as [->|Hne];
      [apply elem_of_union_l, elem_of_singleton; reflexivity|].
    rewrite Hother in Hj by exact Hne.
    apply elem_of_union_r, elem_of_dom, Hj.
  - intros HF. apply elem_of_dom, Hok, HF.
Qed.

Lemma stamped_keys w text entry_type metadata :
  stamped env w text entry_type metadata !! "type" = Some (VStr entry_type)
  /\ stamped env w text entry_type metadata !! "timestamp"
     = Some (VStr (isoformat (clock env (clock_reads w))))
  /\ stamped env w text entry_type metadata !! "text_hash"
     = Some (VStr (_hash_text text)).
Proof.
  unfold stamped. repeat split.
  - rewrite !lookup_insert_ne by discriminate. apply lookup_insert_eq.
  - rewrite lookup_insert_ne by discriminate. apply lookup_insert_eq.
  - apply lookup_insert_eq.
Qed.

Lemma add_entry_returns config text entry_type metadata w :
  exists w', add_entry env config text entry_type metadata w = (Ok tt, w').
Proof.
  destruct (decide (vector_db_type config = "chromadb")) as [Hdb|Hdb].
  - rewrite (add_entry_chromadb _ _ _ _ _ Hdb).
    destruct (add_chromadb_cases (entry_id env w text entry_type) text
                (stamped env w text entry_type metadata) (after_clock w))
      as (w' & Hrun & _). eauto.
  - rewrite (add_entry_other _ _ _ _ _ Hdb). eauto.
Qed.

(** What is sent to the collection holds the caller's keys, but for the
    three standard ones. *)
Lemma stamped_other_keys w text entry_type metadata key :
  key <> "type" -> key <> "timestamp" -> key <> "text_hash" ->
  stamped env w text entry_type metadata !! key
  = default (∅ : Metadata) metadata !! key.
Proof.
  intros H1 H2 H3. unfold stamped.
  rewrite !lookup_insert_ne by congruence. reflexivity.
Qed.

(** An insert that goes through puts the record under the id. *)
Lemma add_chromadb_fresh id text metadata w :
  db_fault env (db_ops w) = None ->
  collection w !! id = None ->
  exists w',
    _add_chromadb env id text metadata w = (Ok tt, w')
    /\ collection w' = <[id := (text, metadata)]> (collection w)
    /\ trace w' = trace w.
Proof.
  intros Hfault Hfresh.
  unfold _add_chromadb, try_except, Chroma.add, Chroma.operation, Chroma.put.
  world_simpl. rewrite Hfault, Hfresh. world_simpl.
  eexists. split; [reflexivity|]. split; reflexivity.
Qed.

(** C10. Whatever metadata the caller passes, what [add_entry] sends to
    the collection has its [type] equal to the [entry_type] argument, its
    [timestamp] equal to the clock reading of the call and its
    [text_hash] equal to the hash of the text, and holds the caller's
    other keys as they were.  On ChromaDB, when the insert goes through
    under an id the collection does not hold, the collection afterwards
    is the one before with the text and that metadata under the id.  In
    every case the call returns, and a record of the collection
    afterwards is one it held before or is the record of the id with
    these three fields. *)
Theorem add_entry_stamps_metadata config text entry_type metadata w :
  (stamped env w text entry_type metadata !! "type" = Some (VStr entry_type)
   /\ stamped env w text entry_type metadata !! "timestamp"
      = Some (VStr (isoformat (clock env (clock_reads w))))
   /\ stamped env w text entry_type metadata !! "text_hash"
      = Some (VStr (_hash_text text))
   /\ forall key,
        key <> "type" -> key <> "timestamp" -> key <> "text_hash" ->
        stamped env w text entry_type metadata !! key
        = default (∅ : Metadata) metadata !! key)
  /\ (vector_db_type config = "chromadb" ->
      db_fault env (db_ops w) = None ->
      collection w !! entry_id env w text entry_type = None ->
      exists w',
        add_entry env config text entry_type metadata w = (Ok tt, w')
        /\ collection w'
           = <[entry_id env w text entry_type
               := (text, stamped env w text entry_type metadata)]>
               (collection w))
  /\ exists w',
       add_entry env config text entry_type metadata w = (Ok tt, w')
       /\ forall j document stored,
            collection w' !! j = Some (document, stored) ->
            collection w !! j = Some (document, stored)
            \/ (j = entry_id env w text entry_type
                /\ document = text
                /\ stored !! "type" = Some (VStr entry_type)
                /\ stored !! "timestamp"
                   = Some (VStr (isoformat (clock env (clock_reads w))))
                /\ stored !! "text_hash" = Some (VStr (_hash_text text))).
Proof.
  destruct (stamped_keys w text entry_type metadata) as (Ht & Hs & Hh).
  split; [|split].
  - split; [exact Ht|]. split; [exact Hs|]. split; [exact Hh|].
    intros key. apply stamped_other_keys.
  - intros Hdb Hfault Hfresh.
    rewrite (add_entry_chromadb _ _ _ _ _ Hdb).
    destruct (add_chromadb_fresh (entry_id env w text entry_type) text
                (stamped env w text entry_type metadata) (after_clock w)
                Hfault Hfresh) as (w' & Hrun & Hcol & _).
    exists w'. split; [exact Hrun | exact Hcol].
  - destruct (decide (vector_db_type config = "chromadb")) as [Hdb|Hdb].
    + rewrite (add_entry_chromadb _ _ _ _ _ Hdb).
      destruct (add_chromadb_cases (entry_id env w text entry_type) text
                  (stamped env w text entry_type metadata) (after_clock w))
        as (w' & Hrun & _ & Hother & Hid & _).
      cbn [after_clock collection] in Hother, Hid.
      exists w'. split; [exact Hrun|]. intros j document stored Hj.
      destruct (decide (j = entry_id env w text entry_type)) as [Ej|Hne].
      * subst j. destruct Hid as [E | [E | (d & old & _ & E)]].
        -- left. rewrite <- E. exact Hj.
        -- right. rewrite E in Hj. injection Hj as <- <-. auto.
        -- right. rewrite E in Hj. injection Hj as <- <-.
           repeat split; auto; apply lookup_union_Some_l; assumption.
      * left. rewrite <- Hother by exact Hne. exact Hj.
    + rewrite (add_entry_other _ _ _ _ _ Hdb). eexists. split; [reflexivity|].
      intros j document stored Hj. left. exact Hj.
Qed.

(** C4, as the code has it.  When the collection's [add] fails in the
    backend, [add_entry] on ChromaDB returns as if nothing had happened.
    The failure is logged as an error and an [update] of the same id is
    tried.  When the update fails too it is logged as well and the
    collection is as it was.  When the update goes through, the record
    the collection held under the id gets the text and the metadata sent,
    and a collection that held no such record is left as it was: the
    entry is not stored. *)
Theorem add_entry_swallows_store_failure config text entry_type metadata
    w e1 :
  vector_db_type config = "chromadb" ->
  db_fault env (db_ops w) = Some e1 ->
  exists w',
    add_entry env config text entry_type metadata w = (Ok tt, w')
    /\ db_ops w' = S (S (db_ops w))
    /\ match db_fault env (S (db_ops w)) with
       | Some e2 =>
           history w'
           = (history w
              ++ [EvLog LError
                    ("Failed to add to ChromaDB: " +:+ exn_text e1);
                  EvLog LError
                    ("Failed to update in ChromaDB: " +:+ exn_text e2)])%list
           /\ collection w' = collection w
       | None =>
           history w'
           = (history w
              ++ [EvLog LError
                    ("Failed to add to ChromaDB: " +:+ exn_text e1)])%list
           /\ collection w'
              = match collection w !! entry_id env w text entry_type with
                | Some (_, old) =>
                    <[entry_id env w text entry_type
                      := (text,
                          stamped env w text entry_type metadata ∪ old)]>
                      (collection w)
                | None => collection w
                end
       end.
Proof.
  intros Hdb F1.
  rewrite (add_entry_chromadb _ _ _ _ _ Hdb).
  unfold _add_chromadb, try_except, Chroma.add, Chroma.update,
    Chroma.operation, Chroma.put, log_error, tell, emit, mbind, M_bind,
    after_clock.
  world_simpl. rewrite F1. world_simpl.
  destruct (db_fault env (S (db_ops w))) as [e2|]; world_simpl.
  - eexists. split; [reflexivity|]. world_simpl. split; [reflexivity|].
    split; [|reflexivity]. unfold history. world_simpl.
    cbn [rev]. rewrite <- app_assoc. reflexivity.
  - destruct (collection w !! entry_id env w text entry_type)
      as [[document old]|];
      (eexists; split; [reflexivity|]); world_simpl;
      (split; [reflexivity|]); split; reflexivity.
Qed.

(** Two ids of the same type and text are the same only if their stamps
    are. *)
Lemma entry_id_stamp w1 w2 text entry_type :
  entry_id env w1 text entry_type = entry_id env w2 text entry_type ->
  strftime_seconds (clock env (S (clock_reads w1)))
  = strftime_seconds (clock env (S (clock_reads w2))).
Proof.
  unfold entry_id. intros H.
  do 2 apply string_app_inv_head in H.
  apply string_app_inv_tail in H. exact H.
Qed.

(** C2, as the code has it.  The id of an entry is made of its type, the
    second at which the clock is read and the hash of its text.  Two
    calls with the same text and type whose ids are stamped with the same
    second compute the same id, and together they add no other id to the
    collection; unless the first insert fails in the backend, the
    collection holds that id after them.  Two calls whose ids are stamped
    differently compute different ids; when no operation of the
    collection fails, both ids are in the collection after them, with
    whatever it held before. *)
Theorem add_entry_twice_ids config text entry_type m1 m2 w :
  vector_db_type config = "chromadb" ->
  (strftime_seconds (clock env (S (S (S (clock_reads w)))))
   = strftime_seconds (clock env (S (clock_reads w))) ->
   entry_id env
     (world_after (add_entry env config text entry_type m1) w)
     text entry_type
   = entry_id env w text entry_type
   /\ dom (collection
            (world_after (add_entry env config text entry_type m2)
               (world_after (add_entry env config text entry_type m1) w)))
      ⊆ {[entry_id env w text entry_type]} ∪ dom (collection w)
   /\ (db_fault env (db_ops w) = None ->
       dom (collection
              (world_after (add_entry env config text entry_type m2)
                 (world_after (add_entry env config text entry_type m1) w)))
       = {[entry_id env w text entry_type]} ∪ dom (collection w)))
  /\ (strftime_seconds (clock env (S (S (S (clock_reads w)))))
      <> strftime_seconds (clock env (S (clock_reads w))) ->
      entry_id env
        (world_after (add_entry env config text entry_type m1) w)
        text entry_type
      <> entry_id env w text entry_type
      /\ ((forall n, db_fault env n = None) ->
          dom (collection
                 (world_after (add_entry env config text entry_type m2)
                    (world_after (add_entry env config text entry_type m1) w)))
          = {[entry_id env w text entry_type]}
            ∪ ({[entry_id env
                   (world_after (add_entry env config text entry_type m1) w)
                   text entry_type]}
               ∪ dom (collection w)))).
Proof.
  intros Hdb. unfold world_after.
  rewrite (add_entry_chromadb _ _ _ m1 w Hdb).
  set (id := entry_id env w text entry_type).
  destruct (add_chromadb_dom id text (stamped env w text entry_type m1)
              (after_clock w)) as (w1 & Hrun1 & Hclock1 & Hsub1 & Hsup1 & Hin1).
  rewrite Hrun1. cbn [snd].
  cbn [after_clock collection clock_reads db_ops] in Hclock1, Hsub1, Hsup1, Hin1.
  rewrite (add_entry_chromadb _ _ _ m2 w1 Hdb).
  set (id2 := entry_id env w1 text entry_type).
  destruct (add_chromadb_dom id2 text (stamped env w1 text entry_type m2)
              (after_clock w1)) as (w2 & Hrun2 & _ & Hsub2 & Hsup2 & Hin2).
  rewrite Hrun2. cbn [snd].
  cbn [after_clock collection db_ops] in Hsub2, Hsup2, Hin2.
  split.
  - intros Hsec.
    assert (Hid : id2 = id).
    { unfold id2, id, entry_id. rewrite Hclock1, Hsec. reflexivity. }
    rewrite Hid in *.
    split; [reflexivity|]. split.
    + intros j Hj. apply Hsup2 in Hj. apply elem_of_union in Hj as [Hj|Hj].
      * apply elem_of_union_l, Hj.
      * apply Hsup1, Hj.
    + intros HF. apply set_eq. intros j. split.
      * intros Hj. apply Hsup2 in Hj. apply elem_of_union in Hj as [Hj|Hj].
        -- apply elem_of_union_l, Hj.
        -- apply Hsup1, Hj.
      * intros Hj. apply Hsub2. apply elem_of_union in Hj as [Hj|Hj].
        -- apply elem_of_singleton in Hj. subst j. apply Hin1, HF.
        -- apply Hsub1, Hj.
  - intros Hsec. split.
    + intros Heq. apply Hsec. apply entry_id_stamp in Heq.
      rewrite Hclock1 in Heq. exact Heq.
    + intros Hnone. apply set_eq. intros j. split.
      * intros Hj. apply Hsup2 in Hj. apply elem_of_union in Hj as [Hj|Hj].
        -- apply elem_of_union_r, elem_of_union_l, Hj.
        -- apply Hsup1 in Hj. apply elem_of_union in Hj as [Hj|Hj].
           ++ apply elem_of_union_l, Hj.
           ++ apply elem_of_union_r, elem_of_union_r, Hj.
      * intros Hj. apply elem_of_union in Hj as [Hj|Hj].
        -- apply elem_of_singleton in Hj. subst j.
           apply Hsub2, Hin1, Hnone.
        -- apply elem_of_union in Hj as [Hj|Hj].
           ++ apply elem_of_singleton in Hj. subst j. apply Hin2, Hnone.
           ++ apply Hsub2, Hsub1, Hj.
Qed.

End Memory.

(** C2 fails as stated: two calls with the same text and type, one second
    apart, leave two entries in a collection that was empty. *)
Lemma add_entry_twice_next_second :
  let add := MemoryManager.add_entry Example.env_ticking Example.config_abc
               "Mira is afraid of water." "character" None in
  let w1 := world_after add Example.empty_world in
  let w2 := world_after add w1 in
  result_of add Example.empty_world = Ok tt
  /\ result_of add w1 = Ok tt
  /\ dom (collection w2)
     = {[ "character_20240309120000_91534437";
          "character_20240309120001_91534437" ]}
  /\ size (collection w2) = 2%nat.
Proof. vm_compute. repeat split; reflexivity. Qed.

Lemma add_entry_twice_ids_witness :
  let add := MemoryManager.add_entry Example.env_abc Example.config_abc
               "Mira is afraid of water." "character" None in
  let w1 := world_after add Example.empty_world in
  let w2 := world_after add w1 in
  Stored.entry_id Example.env_abc w1 "Mira is afraid of water." "character"
  = Stored.entry_id Example.env_abc Example.empty_world
      "Mira is afraid of water." "character"
  /\ dom (collection w2)
     ⊆ {[ Stored.entry_id Example.env_abc Example.empty_world
            "Mira is afraid of water." "character" ]}
       ∪ dom (collection Example.empty_world)
  /\ (db_fault Example.env_abc (db_ops Example.empty_world) = None ->
      dom (collection w2)
      = {[ Stored.entry_id Example.env_abc Example.empty_world
             "Mira is afraid of water." "character" ]}
        ∪ dom (collection Example.empty_world)).
Proof.
  exact (proj1 (add_entry_twice_ids Example.env_abc Example.config_abc
                  "Mira is afraid of water." "character" None None
                  Example.empty_world eq_refl) eq_refl).
Defined.

(** C4 fails as stated: on a collection that fails on every operation,
    [add_entry] returns as it does on one that works, and the entry is not
    stored. *)
Lemma add_entry_failure_not_surfaced :
  let add env := MemoryManager.add_entry env Example.config_abc
                   "They reach the ford at dusk." "scene_summary" None in
  result_of (add Example.env_down) Example.empty_world = Ok tt
  /\ collection (world_after (add Example.env_down) Example.empty_world) = ∅
  /\ result_of (add Example.env_abc) Example.empty_world = Ok tt
  /\ size (collection (world_after (add Example.env_abc) Example.empty_world))
     = 1%nat.
Proof. vm_compute. repeat split; reflexivity. Qed.

(** A second summary of the same scene, added in the same second while
    the collection's [add] fails: the failure is logged, and the update
    that goes through changes the record of the first. *)
Lemma add_entry_swallows_store_failure_witness :
  exists w',
    MemoryManager.add_entry Example.env_fails_once Example.config_abc
      "They reach the ford at dusk." "scene_summary"
      (Some {[ "scene" := VInt 2 ]}) Example.world_one_summary
    = (Ok tt, w')
    /\ db_ops w' = 3%nat
    /\ history w'
       = [EvLog LError ("Failed to add to ChromaDB: " +:+ "database is locked")]
    /\ size (collection w') = 1%nat
    /\ exists stored,
         collection w'
         !! Stored.entry_id Example.env_fails_once Example.world_one_summary
              "They reach the ford at dusk." "scene_summary"
         = Some ("They reach the ford at dusk.", stored)
         /\ stored !! "scene" = Some (VInt 2)
         /\ stored !! "chapter" = Some (VInt 1).
Proof.
  destruct (add_entry_swallows_store_failure Example.env_fails_once
              Example.config_abc "They reach the ford at dusk."
              "scene_summary" (Some {[ "scene" := VInt 2 ]})
              Example.world_one_summary Example.unavailable
              eq_refl eq_refl) as (w' & Hrun & Hops & Hhist & Hcol).
  exists w'. split; [exact Hrun|]. split; [exact Hops|].
  split; [exact Hhist|]. rewrite Hcol.
  split; [vm_compute; reflexivity|].
  eexists. split; [vm_compute; reflexivity|].
  split; vm_compute; reflexivity.
Defined.

(** A caller that sets a type of its own: the record stored has the type
    of the call, and the caller's other key. *)
Lemma add_entry_stamps_metadata_witness :
  exists w' stored,
    MemoryManager.add_entry Example.env_abc Example.config_abc
      "Mira is afraid of water." "character" (Some Example.caller_metadata)
      Example.empty_world = (Ok tt, w')
    /\ collection w' !! "character_20240309120000_91534437"
       = Some ("Mira is afraid of water.", stored)
    /\ Example.caller_metadata !! "type" = Some (VStr "note")
    /\ stored !! "type" = Some (VStr "character")
    /\ stored !! "book" = Some (VStr "Tidewater")
    /\ is_Some (stored !! "timestamp")
    /\ is_Some (stored !! "text_hash").
Proof.
  destruct (add_entry_stamps_metadata Example.env_abc Example.config_abc
              "Mira is afraid of water." "character"
              (Some Example.caller_metadata) Example.empty_world)
    as ((Htype & Htime & Hhash & Hother) & Hstore & _).
  destruct (Hstore eq_refl eq_refl) as (w' & Hrun & Hcol).
  { vm_compute. reflexivity. }
  exists w', (Stored.stamped Example.env_abc Example.empty_world
                "Mira is afraid of water." "character"
                (Some Example.caller_metadata)).
  split; [exact Hrun|]. split.
  { rewrite Hcol. vm_compute. reflexivity. }
  split; [reflexivity|]. split; [exact Htype|].
  split; [rewrite Hother by discriminate; reflexivity|].
  split; [rewrite Htime | rewrite Hhash]; eauto.
Defined.

(** ** Queries on the memory store *)

Section Query.

Import MemoryManager.

Variable env : Env.

Lemma in_insert_by_distance x y l :
  In x (Chroma.insert_by_distance y l) -> x = y \/ In x l.
Proof.
  induction l as [|z l IH]; cbn [Chroma.insert_by_distance].
  - intros [H|[]]. left. congruence.
  - destruct (snd y <=? snd z).
    + intros [H|H]; [left; congruence | right; exact H].
    + intros [H|H]; [right; left; exact H|].
      destruct (IH H) as [E|E]; [left; exact E | right; right; exact E].
Qed.

Lemma in_sorted_by_distance x l :
  In x (fold_right Chroma.insert_by_distance [] l) -> In x l.
Proof.
  induction l as [|y l IH]; cbn [fold_right]; [tauto|].
  intros H. apply in_insert_by_distance in H as [H|H];
    [left; congruence | right; apply IH, H].
Qed.

(** The records a query finds are records of the collection that pass
    the filter. *)
Lemma nearest_sound query_text n filter records hit :
  In hit (Chroma.nearest env query_text n filter records) ->
  In (fst hit) records
  /\ Chroma.where_matches filter (snd (fst hit)) = true.
Proof.
  unfold Chroma.nearest. intros H.
  apply list_elem_of_In, subseteq_take, list_elem_of_In in H.
  apply in_sorted_by_distance in H.
  apply in_map_iff in H as (r & <- & Hr).
  apply filter_In in Hr. exact Hr.
Qed.

(** On three lists in step the formatting loop never runs out of
    range. *)
Lemma format_hits_in_step (found : list (Record_ * Z)) :
  forall before,
    format_hits (map (fun h => snd (fst h)) (before ++ found))
                (map snd (before ++ found)) (length before)
                (map (fun h => fst (fst h)) found)
    = Ok (map (fun h => mkHit (fst (fst h)) (snd (fst h)) (snd h)) found).
Proof.
  induction found as [|h found IH]; intros before; [reflexivity|].
  cbn [map format_hits]. unfold index.
  rewrite !list_lookup_fmap.
  rewrite (lookup_app_r before) by lia.
  replace (length before - length before)%nat with 0%nat by lia.
  cbn [lookup list_lookup fmap option_fmap option_map].
  specialize (IH (before ++ [h])%list).
  rewrite <- app_assoc, length_app in IH. cbn [app length] in IH.
  replace (length before + 1)%nat with (S (length before)) in IH by lia.
  rewrite IH. reflexivity.
Qed.

(** The filter built from a non-empty list of types lets through the
    metadata whose [type] is one of them, and no other. *)
Lemma where_filter_sound entry_types metadata :
  entry_types <> [] ->
  Chroma.where_matches (where_filter entry_types) metadata = true ->
  exists t, metadata !! "type" = Some (VStr t) /\ In t entry_types.
Proof.
  intros Hne. destruct entry_types as [|t1 [|t2 rest]]; [contradiction| |].
  - cbn [where_filter Chroma.where_matches]. intros H.
    apply bool_decide_eq_true in H. exists t1. split; [exact H | left; reflexivity].
  - cbn [where_filter Chroma.where_matches].
    destruct (metadata !! "type") as [v|]; [|discriminate].
    intros H. apply bool_decide_eq_true in H.
    apply list_elem_of_In, in_map_iff in H as (t & <- & Ht).
    exists t. split; [reflexivity | exact Ht].
Qed.

(** [_query_chromadb] never raises; what it returns are records of the
    collection that pass the filter, with their distances. *)
Lemma query_chromadb_found query_text entry_types top_k w :
  exists found w',
    _query_chromadb env query_text entry_types top_k w
    = (Ok (map (fun h => mkHit (fst (fst h)) (snd (fst h)) (snd h)) found), w')
    /\ forall h, In h found ->
         In (fst h) (map snd (map_to_list (collection w)))
         /\ Chroma.where_matches (where_filter entry_types) (snd (fst h))
            = true.
Proof.
  unfold _query_chromadb, try_except, Chroma.query, Chroma.operation,
    lift, index, mbind, M_bind, mret, M_ret.
  world_simpl.
  destruct (db_fault env (db_ops w)) as [e|].
  { exists []. eexists. split; [reflexivity | intros h []]. }
  destruct (top_k <=? 0).
  { exists []. eexists. split; [reflexivity | intros h []]. }
  cbn [Chroma.documents Chroma.metadatas Chroma.distances lookup list_lookup].
  world_simpl.
  pose proof (format_hits_in_step
                (Chroma.nearest env query_text (Z.to_nat top_k)
                   (where_filter entry_types)
                   (map snd (map_to_list (collection w)))) []) as Hfmt.
  cbn [app length] in Hfmt. rewrite Hfmt.
  eexists _, _. split; [reflexivity|].
  intros h Hh. eapply nearest_sound, Hh.
Qed.

(** C7. With a non-empty list of entry types, every hit a query returns
    is a record of the collection whose stored [type] is one of the types
    asked for; restricted to ["character"], no hit has another type. *)
Theorem query_respects_entry_types config query_text entry_types top_k
    w hits w' :
  entry_types <> [] ->
  query env config query_text (Some entry_types) top_k w = (Ok hits, w') ->
  (forall hit, In hit hits ->
     (exists id,
        collection w !! id = Some (hit_text hit, hit_metadata hit))
     /\ exists t,
          hit_metadata hit !! "type" = Some (VStr t) /\ In t entry_types)
  /\ (entry_types = ["character"] ->
      forall hit, In hit hits ->
        hit_metadata hit !! "type" = Some (VStr "character")).
Proof.
  intros Hne Hq.
  assert (Hall : forall hit, In hit hits ->
     (exists id,
        collection w !! id = Some (hit_text hit, hit_metadata hit))
     /\ exists t,
          hit_metadata hit !! "type" = Some (VStr t) /\ In t entry_types).
  { unfold query in Hq. cbn [default] in Hq.
    destruct (String.eqb (vector_db_type config) "chromadb").
    - destruct (query_chromadb_found query_text entry_types top_k w)
        as (found & w1 & Hrun & Hfound).
      unfold id in Hq. rewrite Hrun in Hq. injection Hq as <- <-.
      intros hit Hhit. apply in_map_iff in Hhit as (h & <- & Hh).
      cbn [hit_text hit_metadata].
      destruct (Hfound h Hh) as (Hin & Hmatch). split.
      + apply in_map_iff in Hin as ([id r] & Hr & Hid).
        cbn [snd] in Hr. subst r. exists id.
        apply (elem_of_map_to_list (M := gmap string)), list_elem_of_In.
        destruct (fst h). exact Hid.
      + apply where_filter_sound; assumption.
    - destruct (String.eqb (vector_db_type config) "lancedb");
        injection Hq as <- <-; intros hit []. }
  split; [exact Hall|].
  intros -> hit Hhit. destruct (Hall hit Hhit) as (_ & t & Ht & [<-|[]]).
  exact Ht.
Qed.

(** A query returns a list, whatever the collection does. *)
Lemma query_total config query_text entry_types top_k w :
  exists hits w',
    query env config query_text entry_types top_k w = (Ok hits, w').
Proof.
  unfold query.
  destruct (String.eqb (vector_db_type config) "chromadb").
  - destruct (query_chromadb_found query_text (default [] entry_types) top_k w)
      as (found & w1 & Hrun & _). eauto.
  - destruct (String.eqb (vector_db_type config) "lancedb");
      eexists _, _; reflexivity.
Qed.

End Query.

Lemma query_respects_entry_types_witness :
  exists hits,
    result_of (MemoryManager.query Example.env_ticking Example.config_abc
                 "Who fears the river?" (Some ["character"]) 5)
              Example.world_two_entries = Ok hits
    /\ map MemoryManager.hit_text hits = ["Mira is afraid of water."]
    /\ List.Forall
         (fun hit =>
            MemoryManager.hit_metadata hit !! "type" = Some (VStr "character"))
         hits.
Proof.
  eexists. split; [vm_compute; reflexivity|]. split; [reflexivity|].
  apply List.Forall_forall.
  refine (proj2 (query_respects_entry_types Example.env_ticking
                   Example.config_abc "Who fears the river?" ["character"] 5
                   Example.world_two_entries _
                   (world_after
                      (MemoryManager.query Example.env_ticking
                         Example.config_abc "Who fears the river?"
                         (Some ["character"]) 5)
                      Example.world_two_entries) _ _) eq_refl).
  - discriminate.
  - vm_compute. reflexivity.
Defined.

(** ** Files written, and what leaves them alone *)

Section Written.

Lemma bind_Ok_inv {A B : Type} (m : M A) (f : A -> M B) w b w' :
  (m ≫= f) w = (Ok b, w') ->
  exists a w1, m w = (Ok a, w1) /\ f a w1 = (Ok b, w').
Proof.
  unfold mbind, M_bind. destruct (m w) as [[a|e] w1]; [eauto | discriminate].
Qed.

Lemma written_cons e calls reads ops fs ds col t :
  written (mkWorld calls reads ops fs ds col (e :: t))
  = (written (mkWorld calls reads ops fs ds col t)
     ++ match e with
        | EvWrite path content => [(path, content)]
        | _ => []
        end)%list.
Proof.
  unfold written, history. cbn [trace rev].
  rewrite flat_map_app. cbn [flat_map]. rewrite app_nil_r. reflexivity.
Qed.

Lemma written_trace w1 w2 : trace w1 = trace w2 -> written w1 = written w2.
Proof. unfold written, history. intros ->. reflexivity. Qed.

Variable env : Env.
Variable config : Config.

Lemma try_generate_loop_written model prompt kwargs remaining :
  forall attempt w r w',
    LLMManager.try_generate_loop env config model prompt kwargs
      attempt remaining w = (r, w') ->
    written w' = written w.
Proof.
  induction remaining as [|remaining IH]; intros attempt w r w' H.
  - injection H as _ <-. reflexivity.
  - rewrite try_generate_loop_step in H. cbv zeta in H.
    assert (Hw1 : written
              (mkWorld (S (llm_calls w)) (clock_reads w) (db_ops w) (files w)
                 (dirs w) (collection w)
                 (EvGenerate model prompt kwargs
                    (backend env (llm_calls w) model prompt kwargs)
                  :: trace w)) = written w).
    { rewrite written_cons, app_nil_r. apply written_trace. reflexivity. }
    destruct (backend env (llm_calls w) model prompt kwargs) as [t|e].
    + destruct (LLMManager.accepted t).
      * injection H as _ <-. exact Hw1.
      * rewrite (IH _ _ _ _ H). exact Hw1.
    + destruct (_ <? _); [|rewrite (IH _ _ _ _ H); exact Hw1].
      destruct (sleep_cases (LLMManager.retry_delay config)
                  (mkWorld (S (llm_calls w)) (clock_reads w) (db_ops w)
                     (files w) (dirs w) (collection w)
                     (EvGenerate model prompt kwargs (Fails e) :: trace w)))
        as [Hs | (e' & Hs)]; rewrite Hs in H.
      * rewrite (IH _ _ _ _ H).
        unfold emit. world_simpl. rewrite written_cons, app_nil_r.
        rewrite <- Hw1. apply written_trace. reflexivity.
      * injection H as _ <-. exact Hw1.
Qed.

Lemma try_generate_written model prompt kwargs w r w' :
  LLMManager._try_generate env config model prompt kwargs w = (r, w') ->
  written w' = written w.
Proof.
  destruct (try_generate_cases env config model prompt kwargs w)
    as [-> | (e & ->)].
  - apply try_generate_loop_written.
  - intros H. injection H as _ <-. reflexivity.
Qed.

Lemma first_success_written prompt kwargs models :
  forall w r w',
    Chain.first_success env config prompt kwargs models w = (r, w') ->
    written w' = written w.
Proof.
  induction models as [|model rest IH]; intros w r w' H.
  - injection H as _ <-. reflexivity.
  - cbn [Chain.first_success] in H. unfold mbind, M_bind in H.
    destruct (LLMManager._try_generate env config model prompt kwargs w)
      as [[x|e] w1] eqn:E;
      apply try_generate_written in E.
    + destruct (Py.truthy x).
      * injection H as _ <-. exact E.
      * rewrite (IH _ _ _ H). exact E.
    + injection H as _ <-. exact E.
Qed.

Lemma iterate_alternatives_written prompt kwargs alternatives w r w' :
  LLMManager.iterate_alternatives env config prompt kwargs alternatives w
  = (r, w') ->
  written w' = written w.
Proof.
  destruct alternatives as [alts|]; cbn [LLMManager.iterate_alternatives].
  - rewrite try_alternatives_first_success. apply first_success_written.
  - intros H. injection H as _ <-. reflexivity.
Qed.

(** A generation writes no file. *)
Lemma generate_with_retry_written prompt key kwargs w r w' :
  LLMManager.generate_with_retry env config prompt key kwargs w = (r, w') ->
  written w' = written w.
Proof.
  unfold LLMManager.generate_with_retry.
  destruct (LLMManager.bind_kwargs _ _ kwargs) as [[]|e];
    [|intros H; injection H as _ <-; reflexivity].
  destruct (LLMManager._get_model_config config key) as [model_cfg|e];
    [|intros H; injection H as _ <-; reflexivity].
  unfold mbind, M_bind.
  destruct (LLMManager._try_generate env config _ prompt kwargs w)
    as [[x|e] w1] eqn:E1; apply try_generate_written in E1;
    [|intros H; injection H as _ <-; exact E1].
  destruct (Py.truthy x); [intros H; injection H as _ <-; exact E1|].
  destruct (Py.truthy (mc_fallback model_cfg)).
  - destruct (LLMManager._try_generate env config _ prompt kwargs w1)
      as [[y|e] w2] eqn:E2; apply try_generate_written in E2;
      [|intros H; injection H as _ <-; congruence].
    destruct (Py.truthy y); [intros H; injection H as _ <-; congruence|].
    intros H. apply iterate_alternatives_written in H. congruence.
  - intros H. apply iterate_alternatives_written in H. congruence.
Qed.

Lemma run_pass_written self content pass_type w r w' :
  SceneRefiner._run_pass env config self content pass_type w = (r, w') ->
  written w' = written w.
Proof.
  unfold SceneRefiner._run_pass, LLMManager.refine_scene.
  destruct (SceneRefiner.prompts self !! pass_type) as [template|].
  - destruct (str_format env _ _) as [full_prompt|e].
    + apply generate_with_retry_written.
    + intros H. injection H as _ <-. reflexivity.
  - intros H. injection H as _ <-. reflexivity.
Qed.

(** A file saved is one more file written. *)
Lemma save_text_file_written content path w w' :
  utils.save_text_file content path w = (Ok tt, w') ->
  written w' = (written w ++ [(path, content)])%list.
Proof.
  unfold utils.save_text_file, utils.ensure_dir, utils.write_file,
    mbind, M_bind.
  destruct (forallb _ _); [|case_bool_decide; discriminate].
  world_simpl. case_bool_decide as Hdir; [discriminate|].
  intros Hrun. injection Hrun as <-. rewrite written_cons. reflexivity.
Qed.

End Written.

(** ** The refinement passes *)

Section Refinement.

Import SceneRefiner.

Variable env : Env.
Variable config : Config.

(** C5, as the code has it.  A refinement run with the passes cohesion
    and style that completes writes exactly three scene files, in this
    order: what the cohesion pass returns for the text of the scene, as
    [v2_cohesion] under the stage [refined]; what the style pass returns
    for that text, as [v3_style] under the stage [final]; and that same
    text once more, as [FINAL] under the stage [final]. *)
Theorem refine_two_passes_writes self scene_path book_name chapter scene
    w w' :
  refine env config self scene_path book_name chapter scene
         (Some ["cohesion"; "style"]) w = (Ok true, w') ->
  exists first second w1 w2 w3,
    _run_pass env config self (Loaded.content_of w scene_path) "cohesion" w
    = (Ok (Some first), w1)
    /\ utils.save_text_file first
         (utils.get_scene_path config book_name chapter scene
            "v2_cohesion" "refined") w1 = (Ok tt, w2)
    /\ _run_pass env config self first "style" w2 = (Ok (Some second), w3)
    /\ written w'
       = (written w
          ++ [(utils.get_scene_path config book_name chapter scene
                 "v2_cohesion" "refined", first);
              (utils.get_scene_path config book_name chapter scene
                 "v3_style" "final", second);
              (utils.get_scene_path config book_name chapter scene
                 "FINAL" "final", second)])%list.
Proof.
  unfold refine. cbn [default length].
  intros H.
  apply bind_Ok_inv in H as (found & w0 & Hfound & H).
  unfold utils.os_path_exists in Hfound. injection Hfound as _ <-.
  destruct (negb found); [discriminate H|].
  apply bind_Ok_inv in H as (content & w1 & Hload & H).
  assert (Hw1 : w1 = w /\ content = Loaded.content_of w scene_path).
  { unfold utils.load_text_file, Loaded.content_of in *.
    destruct (files w !! scene_path); [|case_bool_decide];
      try discriminate; injection Hload as <- <-; auto. }
  destruct Hw1 as (-> & ->).
  apply bind_Ok_inv in H as (done & w5 & Hpasses & H).
  destruct done as [current|]; [|discriminate H].
  apply bind_Ok_inv in H as ([] & w6 & Hsave3 & H).
  injection H as <-.
  apply save_text_file_written in Hsave3.
  (* the first pass *)
  cbn [run_passes] in Hpasses.
  apply bind_Ok_inv in Hpasses as (refined1 & w2 & Hpass1 & Hpasses).
  pose proof (run_pass_written env config _ _ _ _ _ _ Hpass1) as Hwritten1.
  destruct refined1 as [text1|]; [|discriminate Hpasses].
  destruct (Py.nonempty text1); [|discriminate Hpasses].
  apply bind_Ok_inv in Hpasses as ([] & w3 & Hsave1 & Hpasses).
  pose proof (save_text_file_written _ _ _ _ Hsave1) as Hwritten2.
  (* the second pass *)
  apply bind_Ok_inv in Hpasses as (refined2 & w4 & Hpass2 & Hpasses).
  pose proof (run_pass_written env config _ _ _ _ _ _ Hpass2) as Hwritten3.
  destruct refined2 as [text2|]; [|discriminate Hpasses].
  destruct (Py.nonempty text2); [|discriminate Hpasses].
  apply bind_Ok_inv in Hpasses as ([] & w4' & Hsave2 & Hpasses).
  apply save_text_file_written in Hsave2.
  injection Hpasses as <- <-.
  exists text1, text2, w2, w3, w4.
  split; [exact Hpass1|]. split; [exact Hsave1|]. split; [exact Hpass2|].
  rewrite Hsave3, Hsave2, Hwritten3, Hwritten2, Hwritten1.
  rewrite <- !app_assoc. reflexivity.
Qed.

End Refinement.

(** C5 fails as stated: this run with the passes cohesion and style
    completes and writes three scene files, two of them under the stage
    [final]. *)
Lemma refine_two_passes_three_files :
  result_of Example.refine_two_passes Example.world_project = Ok true
  /\ written (world_after Example.refine_two_passes Example.world_project)
     = [("/srv/story/output/Tidewater/scenes/refined/chapter_01_scene_01_v2_cohesion.md",
         "Draft 0.");
        ("/srv/story/output/Tidewater/scenes/final/chapter_01_scene_01_v3_style.md",
         "Draft 1.");
        ("/srv/story/output/Tidewater/scenes/final/chapter_01_scene_01_FINAL.md",
         "Draft 1.")].
Proof. vm_compute. split; reflexivity. Qed.

Lemma refine_two_passes_writes_witness :
  exists first second w1 w2 w3,
    SceneRefiner._run_pass Example.env_drafts Example.config_drafts
      Example.refiner_drafts
      (Loaded.content_of Example.world_project Example.raw_scene_path)
      "cohesion" Example.world_project
    = (Ok (Some first), w1)
    /\ utils.save_text_file first
         (utils.get_scene_path Example.config_drafts "Tidewater" 1 1
            "v2_cohesion" "refined") w1 = (Ok tt, w2)
    /\ SceneRefiner._run_pass Example.env_drafts Example.config_drafts
         Example.refiner_drafts first "style" w2
       = (Ok (Some second), w3)
    /\ written
         (world_after
            (SceneRefiner.refine Example.env_drafts Example.config_drafts
               Example.refiner_drafts Example.raw_scene_path "Tidewater" 1 1
               (Some ["cohesion"; "style"]))
            Example.world_project)
       = (written Example.world_project
          ++ [(utils.get_scene_path Example.config_drafts "Tidewater" 1 1
                 "v2_cohesion" "refined", first);
              (utils.get_scene_path Example.config_drafts "Tidewater" 1 1
                 "v3_style" "final", second);
              (utils.get_scene_path Example.config_drafts "Tidewater" 1 1
                 "FINAL" "final", second)])%list.
Proof.
  apply (refine_two_passes_writes Example.env_drafts Example.config_drafts
           Example.refiner_drafts Example.raw_scene_path "Tidewater" 1 1
           Example.world_project).
  vm_compute. reflexivity.
Defined.

(** ** Retries within one model *)

(** C3 at the input where the code departs from it.  With two attempts
    configured, a first response that is empty is followed by the second
    attempt at once: no delay stands between the two calls. *)
Lemma try_generate_blank_retry_no_delay :
  let run := LLMManager._try_generate Example.env_blank_first
               Example.config_two_attempts (Some "C") "Write." [] in
  result_of run Example.empty_world = Ok (Some "The tide went out.")
  /\ history (world_after run Example.empty_world)
     = [EvGenerate (Some "C") "Write." [] (Returns "");
        EvGenerate (Some "C") "Write." [] (Returns "The tide went out.")].
Proof. vm_compute. split; reflexivity. Qed.

(** The sibling path: a first attempt that raises is followed by the
    configured delay before the second attempt. *)
Lemma try_generate_error_retry_delay :
  let run := LLMManager._try_generate Example.env_error_first
               Example.config_two_attempts (Some "C") "Write." [] in
  result_of run Example.empty_world = Ok (Some "The tide went out.")
  /\ history (world_after run Example.empty_world)
     = [EvGenerate (Some "C") "Write." [] (Fails Example.refused);
        EvSleep 5;
        EvGenerate (Some "C") "Write." [] (Returns "The tide went out.")].
Proof. vm_compute. split; reflexivity. Qed.

(** ** Chapter assembly *)

Section Assembly.

Import ChapterAssembler Joined.

Lemma load_scenes_plain w scene_paths :
  forall texts parts,
    Forall2 (fun path text =>
               Py.universal_newlines <$> files w !! path = Some text)
            scene_paths texts ->
    Forall plain texts ->
    load_scenes parts scene_paths w = (Ok (parts ++ interleaved texts)%list, w).
Proof.
  induction scene_paths as [|path rest IH]; intros texts parts Hfiles Hplain.
  - inversion Hfiles; subst. cbn [interleaved flat_map].
    rewrite app_nil_r. reflexivity.
  - inversion Hfiles as [|? text ? texts' Hpath Hrest]; subst.
    inversion Hplain as [|? ? [Hne Hhdr] Hplain']; subst.
    cbn [load_scenes]. unfold mbind, M_bind, utils.load_text_file.
    destruct (files w !! path) as [stored|]; [|discriminate Hpath].
    injection Hpath as Hpath. rewrite Hpath, Hne. cbn [negb].
    unfold _remove_scene_header. rewrite Hhdr.
    rewrite (IH texts' _ Hrest Hplain').
    cbn [interleaved flat_map]. rewrite <- app_assoc. reflexivity.
Qed.

Lemma concat_app (l1 l2 : list string) :
  Py.concat (l1 ++ l2) = Py.concat l1 +:+ Py.concat l2.
Proof.
  induction l1 as [|x l1 IH]; [reflexivity|].
  cbn [app Py.concat fold_right]. fold (Py.concat (l1 ++ l2)).
  rewrite IH. fold (Py.concat l1).
  symmetry. apply string_app_assoc.
Qed.

Lemma interleaved_join text texts :
  exists body,
    interleaved (text :: texts) = (body ++ [separator])%list
    /\ Py.concat body = Py.join separator (text :: texts).
Proof.
  revert text. induction texts as [|next texts IH]; intros text.
  - exists [text]. split; [reflexivity|].
    cbn. apply string_app_nil_r.
  - destruct (IH next) as (body & Hbody & Hjoin).
    exists (text :: separator :: body). split.
    + cbn [interleaved flat_map app] in *. rewrite Hbody. reflexivity.
    + change (text +:+ separator +:+ Py.concat body
              = text +:+ separator +:+ Py.join separator (next :: texts)).
      rewrite Hjoin. reflexivity.
Qed.

(** Scenes that are non-empty and carry no header are joined, in order,
    under the chapter heading, with the separator between them and none
    after the last. *)
Lemma concatenate_scenes_joins w scene_paths texts chapter :
  scene_paths <> [] ->
  Forall2 (fun path text =>
             Py.universal_newlines <$> files w !! path = Some text)
          scene_paths texts ->
  Forall plain texts ->
  _concatenate_scenes scene_paths chapter w
  = (Ok ("# Chapter " +:+ Py.str_of_int chapter +:+ Py.nl +:+ Py.nl
         +:+ Py.join separator texts), w).
Proof.
  intros Hne Hfiles Hplain. unfold _concatenate_scenes, mbind, M_bind.
  rewrite (load_scenes_plain w scene_paths texts _ Hfiles Hplain).
  destruct texts as [|text texts].
  { inversion Hfiles; subst. contradiction. }
  destruct (interleaved_join text texts) as (body & -> & Hjoin).
  rewrite app_assoc, last_snoc.
  replace (String.eqb (Py.strip separator) "---") with true by reflexivity.
  rewrite removelast_last, concat_app, Hjoin.
  cbn [Py.concat fold_right]. unfold mret, M_ret. f_equal. f_equal.
  rewrite string_app_nil_r, !string_app_assoc. reflexivity.
Qed.

End Assembly.


(** ** Word-count validation *)

Section WordCount.

Import utils.

(** C9. [validate_word_count] returns for every non-zero target, and for
    every target when the word count is out of range; with the word count
    within [min_words, max_words] and the target 0 it raises
    [ZeroDivisionError]: the deviation is computed by dividing by the
    target. *)
Theorem validate_word_count_zero_target text min_words max_words :
  (forall target, target <> 0 ->
     exists r, validate_word_count text target min_words max_words = Ok r)
  /\ (count_words text < min_words \/ max_words < count_words text ->
      exists r, validate_word_count text 0 min_words max_words = Ok r)
  /\ (min_words <= count_words text <= max_words ->
      validate_word_count text 0 min_words max_words
      = Raise ZeroDivisionError).
Proof.
  unfold validate_word_count, true_div. repeat split.
  - intros target Htarget.
    destruct (count_words text <? min_words); [eauto|].
    destruct (count_words text >? max_words); [eauto|].
    destruct (Z.eqb_spec target 0) as [E|_]; [contradiction | eauto].
  - intros [H|H].
    + apply Z.ltb_lt in H. rewrite H. eauto.
    + destruct (count_words text <? min_words); [eauto|].
      apply Z.gt_lt_iff, Z.gtb_gt in H. rewrite H. eauto.
  - intros [Hmin Hmax].
    apply Z.ltb_ge in Hmin. rewrite Hmin.
    destruct (count_words text >? max_words) eqn:E; [|reflexivity].
    apply Z.gtb_gt in E. lia.
Qed.

End WordCount.

Lemma validate_word_count_zero_target_witness :
  utils.validate_word_count "Mira waded in." 0 1 5 = Raise ZeroDivisionError.
Proof.
  apply (validate_word_count_zero_target "Mira waded in." 1 5).
  vm_compute. split; discriminate.
Defined.

(** ** Scene generation with validation *)

Section Validation.

Import SceneGenerator.

Variable env : Env.
Variable config : Config.

(** With the primary model answering at once, a generation is one call
    of the backend. *)
Lemma generate_with_retry_primary prompt key kwargs model_cfg text w :
  Chain.free_kwargs kwargs ->
  LLMManager._get_model_config config key = Ok model_cfg ->
  0 < LLMManager.max_retries config ->
  backend env (llm_calls w)
    (Py.or_else (mc_primary model_cfg) (mc_model model_cfg)) prompt kwargs
  = Returns text ->
  LLMManager.accepted text = true ->
  exists w',
    LLMManager.generate_with_retry env config prompt key kwargs w
    = (Ok (Some text), w')
    /\ llm_calls w' = S (llm_calls w).
Proof.
  intros Hfree Hcfg Hpos Hback Hacc.
  unfold LLMManager.generate_with_retry.
  rewrite (bind_kwargs_free _ _ _ generate_with_retry_parameters Hfree), Hcfg.
  unfold mbind, M_bind.
  destruct (try_generate_first_attempt env config _ prompt kwargs text w
              Hfree Hpos Hback Hacc) as (w' & -> & Hcalls).
  rewrite (accepted_truthy _ Hacc). exists w'. split; [reflexivity | exact Hcalls].
Qed.

(** The test on the loop variable singles out the last iteration. *)
Lemma validation_loop_best_effort prompt metadata remaining :
  forall attempt w,
    (remaining = 0%nat
     \/ Z.of_nat attempt + Z.of_nat remaining = scene_max_retries config) ->
    validation_loop env config prompt metadata attempt remaining w
    = BestEffort.generate env config prompt (target_word_count metadata)
        remaining w.
Proof.
  induction remaining as [|remaining IH]; intros attempt w Hinv; [reflexivity|].
  destruct Hinv as [Hinv|Hinv]; [discriminate Hinv|].
  cbn [validation_loop BestEffort.generate]. unfold mbind, M_bind.
  destruct (LLMManager.generate_with_retry env config prompt "prose" [] w)
    as [[prose|e] w1]; [|reflexivity].
  assert (Hnext : validation_loop env config prompt metadata (S attempt)
                    remaining w1
                  = BestEffort.generate env config prompt
                      (target_word_count metadata) remaining w1).
  { apply IH. destruct remaining; [left; reflexivity | right; lia]. }
  destruct prose as [text|]; [|exact Hnext].
  cbn [Py.truthy default]. unfold id.
  destruct (Py.nonempty text); cbn [negb]; [|exact Hnext].
  destruct (utils.validate_word_count text (target_word_count metadata)
              (scene_min_words config) (scene_max_words config))
    as [[[valid word_count] message]|e]; [|reflexivity].
  destruct valid; [reflexivity|].
  destruct remaining as [|remaining].
  - replace (Z.of_nat attempt <? scene_max_retries config - 1) with false;
      [reflexivity|]. symmetry. apply Z.ltb_ge. lia.
  - replace (Z.of_nat attempt <? scene_max_retries config - 1) with true;
      [exact Hnext|]. symmetry. apply Z.ltb_lt. lia.
Qed.

(** When every call of the primary model returns a text that is out of
    range, each of [attempts] generations is made and the text of the
    last is returned. *)
Lemma best_effort_all_out_of_range prompt target model_cfg attempts :
  LLMManager._get_model_config config "prose" = Ok model_cfg ->
  0 < LLMManager.max_retries config ->
  (forall n, exists text,
      backend env n (Py.or_else (mc_primary model_cfg) (mc_model model_cfg))
        prompt [] = Returns text
      /\ LLMManager.accepted text = true
      /\ BestEffort.in_range config target text = Some false) ->
  forall w, exists text w',
    BestEffort.generate env config prompt target (S attempts) w
    = (Ok (Some text), w')
    /\ llm_calls w' = (llm_calls w + S attempts)%nat
    /\ backend env (llm_calls w + attempts)
         (Py.or_else (mc_primary model_cfg) (mc_model model_cfg)) prompt []
       = Returns text.
Proof.
  intros Hcfg Hpos Hall.
  induction attempts as [|attempts IH]; intros w;
    destruct (Hall (llm_calls w)) as (text & Hback & Hacc & Hrange);
    destruct (generate_with_retry_primary prompt "prose" [] model_cfg text w
                (Forall_nil_2 _) Hcfg Hpos Hback Hacc) as (w1 & Hgen & Hcalls);
    cbn [BestEffort.generate]; unfold mbind, M_bind; rewrite Hgen;
    rewrite (accepted_truthy _ Hacc); cbn [negb default]; unfold id;
    unfold BestEffort.in_range in Hrange;
    destruct (utils.validate_word_count text target (scene_min_words config)
                (scene_max_words config))
      as [[[valid word_count] message]|e]; try discriminate Hrange;
    injection Hrange as ->.
  - exists text, w1. split; [reflexivity|]. split; [lia|].
    rewrite Nat.add_0_r. exact Hback.
  - destruct (IH w1) as (last & w' & Hrun & Hlast & Hfinal).
    exists last, w'. split; [exact Hrun|]. split; [lia|].
    rewrite Hcalls in Hfinal.
    replace (llm_calls w + S attempts)%nat
      with (S (llm_calls w) + attempts)%nat by lia.
    exact Hfinal.
Qed.

(** C8. [_generate_with_validation] makes at most [max_retries] full
    generations: an attempt that yields nothing is passed over, one whose
    text is in range ends the run, one whose text is out of range is
    retried, except the last attempt, whose non-empty text is returned
    though out of range.  In particular, when every generation returns a
    text that is out of range, every one of the [max_retries] attempts is
    made and the text of the last call is returned. *)
Theorem generate_with_validation_best_effort prompt metadata w :
  _generate_with_validation env config prompt metadata w
  = BestEffort.generate env config prompt (target_word_count metadata)
      (Z.to_nat (scene_max_retries config)) w
  /\ (forall model_cfg,
        LLMManager._get_model_config config "prose" = Ok model_cfg ->
        0 < LLMManager.max_retries config ->
        0 < scene_max_retries config ->
        (forall n, exists text,
            backend env n
              (Py.or_else (mc_primary model_cfg) (mc_model model_cfg))
              prompt [] = Returns text
            /\ LLMManager.accepted text = true
            /\ BestEffort.in_range config (target_word_count metadata) text
               = Some false) ->
        exists text w',
          _generate_with_validation env config prompt metadata w
          = (Ok (Some text), w')
          /\ llm_calls w'
             = (llm_calls w + Z.to_nat (scene_max_retries config))%nat
          /\ backend env
               (llm_calls w + Z.to_nat (scene_max_retries config) - 1)
               (Py.or_else (mc_primary model_cfg) (mc_model model_cfg))
               prompt []
             = Returns text).
Proof.
  assert (Heq : _generate_with_validation env config prompt metadata w
                = BestEffort.generate env config prompt
                    (target_word_count metadata)
                    (Z.to_nat (scene_max_retries config)) w).
  { apply validation_loop_best_effort.
    destruct (Z.to_nat (scene_max_retries config)) eqn:E;
      [left; reflexivity | right; lia]. }
  split; [exact Heq|].
  intros model_cfg Hcfg Hpos Hscene Hall. rewrite Heq.
  destruct (Z.to_nat (scene_max_retries config)) as [|attempts] eqn:E; [lia|].
  destruct (best_effort_all_out_of_range prompt (target_word_count metadata)
              model_cfg attempts Hcfg Hpos Hall w)
    as (text & w' & Hrun & Hcalls & Hlast).
  exists text, w'. split; [exact Hrun|]. split; [exact Hcalls|].
  replace (llm_calls w + S attempts - 1)%nat
    with (llm_calls w + attempts)%nat by lia.
  exact Hlast.
Qed.

End Validation.

Lemma generate_with_validation_best_effort_witness :
  exists w',
    SceneGenerator._generate_with_validation Example.env_tries
      Example.config_drafts "Write the scene." Example.scene_metadata
      Example.empty_world
    = (Ok (Some "Third and last try."), w')
    /\ llm_calls w' = 3%nat.
Proof.
  destruct (generate_with_validation_best_effort Example.env_tries
              Example.config_drafts "Write the scene." Example.scene_metadata
              Example.empty_world) as (_ & H).
  destruct (H (mkModelCfg (Some "C") None None (Some [])) eq_refl eq_refl
              eq_refl)
    as (text & w' & Hrun & Hcalls & Hlast).
  - intros [|[|n]]; eexists; (split; [reflexivity|]); split; reflexivity.
  - exists w'. injection Hlast as <-. split; [exact Hrun | exact Hcalls].
Defined.

(* ===================================================================== *)
(** * Part III. Further properties of the code                             *)
(* ===================================================================== *)

(** ** The orchestrator *)

Section Orchestrator.

Import LLMManager Chain.

Variable env : Env.
Variable config : Config.

(** X1. One call of [_try_generate] calls the backend at most
    [max_retries] times, whether it returns or raises, and exactly that
    many times when it returns [None].  Called with keyword arguments that
    name none of its parameters, and with a retry delay that [time.sleep]
    accepts, it does not raise, whatever the backend does. *)
Theorem try_generate_calls_bounded model prompt kwargs w :
  (forall r w',
     _try_generate env config model prompt kwargs w = (r, w') ->
     (llm_calls w' <= llm_calls w + Z.to_nat (max_retries config))%nat
     /\ (r = Ok None ->
         llm_calls w' = (llm_calls w + Z.to_nat (max_retries config))%nat))
  /\ (free_kwargs kwargs -> valid_delay config ->
      exists r w',
        _try_generate env config model prompt kwargs w = (Ok r, w')).
Proof.
  split.
  - intros r w' Hrun.
    destruct (try_generate_cases env config model prompt kwargs w)
      as [Hloop | (e & Hraise)].
    + rewrite Hloop in Hrun.
      apply (try_generate_loop_calls env config model prompt kwargs _ _ _ _ _
               Hrun).
    + rewrite Hraise in Hrun. injection Hrun as <- <-.
      split; [lia | discriminate].
  - intros Hfree Hdelay. rewrite (try_generate_free env config _ _ _ _ Hfree).
    apply try_generate_loop_total, Hdelay.
Qed.

Lemma first_success_all_fail prompt kwargs models :
  free_kwargs kwargs -> valid_delay config ->
  Forall (fails_on env prompt kwargs) models ->
  forall w, exists w',
    first_success env config prompt kwargs models w = (Ok None, w')
    /\ llm_calls w'
       = (llm_calls w + length models * Z.to_nat (max_retries config))%nat.
Proof.
  intros Hfree Hdelay.
  induction 1 as [|model rest Hfail _ IH]; intros w.
  - exists w. split; [reflexivity | cbn; lia].
  - destruct (first_success_skip env config prompt kwargs model rest w
                Hfree Hdelay Hfail) as (w1 & -> & Hcalls).
    destruct (IH w1) as (w' & Hrun & Hcalls').
    exists w'. split; [exact Hrun|]. rewrite Hcalls', Hcalls. cbn [length]. lia.
Qed.

(** X2. Once the role resolves to a chain, with keyword arguments that
    name no parameter, alternatives that are a list and a retry delay
    that [time.sleep] accepts, [generate_with_retry] does not raise: a
    failure of the backend is not passed on to the caller.  When every
    such call of every model of the chain fails, it returns [None], after
    [max_retries] calls for each model of the chain. *)
Theorem generate_with_retry_all_models_fail prompt key kwargs model_cfg w :
  _get_model_config config key = Ok model_cfg ->
  free_kwargs kwargs ->
  mc_alternatives model_cfg <> None ->
  valid_delay config ->
  (exists r w',
     generate_with_retry env config prompt key kwargs w = (Ok r, w'))
  /\ (Forall (fails_on env prompt kwargs) (chain model_cfg) ->
      exists w',
        generate_with_retry env config prompt key kwargs w = (Ok None, w')
        /\ llm_calls w'
           = (llm_calls w
              + length (chain model_cfg) * Z.to_nat (max_retries config))%nat).
Proof.
  intros Hcfg Hfree Halt Hdelay.
  rewrite (generate_with_retry_first_success env config _ _ _ _ w
             Hcfg Hfree Halt).
  split.
  - apply first_success_total; assumption.
  - intros Hall. apply first_success_all_fail; assumption.
Qed.

(** X3. A role key that the configuration does not hold is served by the
    chain of the role [prose]: the run is the same as for [prose]. *)
Theorem generate_with_retry_unknown_role prompt key kwargs w :
  models config !! key = None ->
  generate_with_retry env config prompt key kwargs w
  = generate_with_retry env config prompt "prose" kwargs w.
Proof.
  intros Hkey. unfold generate_with_retry, _get_model_config.
  rewrite Hkey. destruct (models config !! "prose"); reflexivity.
Qed.

End Orchestrator.

Lemma free_kwargs_nil : Chain.free_kwargs [].
Proof. constructor. Qed.

Lemma valid_delay_default (config : Config) :
  advanced_retry_delay config = None -> Chain.valid_delay config.
Proof.
  intros Hnone. unfold Chain.valid_delay, LLMManager.retry_delay.
  rewrite Hnone. cbn [default]. unfold LLMManager.sleep_limit. lia.
Qed.

Lemma try_generate_calls_bounded_witness :
  exists r w',
    LLMManager._try_generate Offline.env Example.config_abc (Some "A")
      "Write the scene." [] Example.empty_world = (Ok r, w').
Proof.
  apply (proj2 (try_generate_calls_bounded Offline.env Example.config_abc
                  (Some "A") "Write the scene." [] Example.empty_world)).
  - exact free_kwargs_nil.
  - apply valid_delay_default. reflexivity.
Defined.

Lemma generate_with_retry_all_models_fail_witness :
  exists w',
    LLMManager.generate_with_retry Offline.env Example.config_abc
      "Write the scene." "prose" [] Example.empty_world = (Ok None, w')
    /\ llm_calls w' = 9%nat.
Proof.
  apply (proj2 (generate_with_retry_all_models_fail Offline.env
                  Example.config_abc "Write the scene." "prose" []
                  Example.chain_abc Example.empty_world eq_refl
                  free_kwargs_nil ltac:(discriminate)
                  (valid_delay_default Example.config_abc eq_refl))).
  repeat constructor.
Defined.

Lemma generate_with_retry_unknown_role_witness :
  LLMManager.generate_with_retry Example.env_abc Example.config_abc
    "Smooth the chapter." "review" [] Example.empty_world
  = LLMManager.generate_with_retry Example.env_abc Example.config_abc
      "Smooth the chapter." "prose" [] Example.empty_world.
Proof.
  apply (generate_with_retry_unknown_role Example.env_abc Example.config_abc
           "Smooth the chapter." "review" [] Example.empty_world).
  reflexivity.
Defined.

(** ** Queries that fail *)

Section QueryFailure.

Import MemoryManager.

Variable env : Env.

(** X4. A query returns the empty list, and leaves the collection as it
    is, when the collection fails in the backend, when [top_k] is not
    positive, and on a database type other than ChromaDB: no error of the
    store reaches the caller. *)
Theorem query_failure_empty config query_text entry_types top_k w :
  is_Some (db_fault env (db_ops w)) \/ top_k <= 0
  \/ vector_db_type config <> "chromadb" ->
  result_of (query env config query_text entry_types top_k) w = Ok []
  /\ collection (world_after (query env config query_text entry_types top_k) w)
     = collection w.
Proof.
  intros Hcase. unfold result_of, world_after, query.
  destruct (String.eqb (vector_db_type config) "chromadb") eqn:Edb.
  - unfold _query_chromadb, try_except, Chroma.query, Chroma.operation,
      mbind, M_bind, mret, M_ret.
    cbn [db_ops collection].
    destruct (db_fault env (db_ops w)) as [e|] eqn:F; [split; reflexivity|].
    destruct Hcase as [[e He]|[Hk|Hdb]]; [discriminate He | |].
    + apply Z.leb_le in Hk. rewrite Hk. split; reflexivity.
    + apply String.eqb_eq in Edb. contradiction.
  - destruct (String.eqb (vector_db_type config) "lancedb"); split; reflexivity.
Qed.

End QueryFailure.

Lemma query_failure_empty_witness :
  result_of (MemoryManager.query Example.env_down Example.config_abc
               "Who fears the river?" (Some ["character"]) 5)
            Example.world_two_entries = Ok []
  /\ collection
       (world_after (MemoryManager.query Example.env_down Example.config_abc
                       "Who fears the river?" (Some ["character"]) 5)
                    Example.world_two_entries)
     = collection Example.world_two_entries.
Proof.
  apply (query_failure_empty Example.env_down Example.config_abc
           "Who fears the river?" (Some ["character"]) 5
           Example.world_two_entries).
  left. eexists. reflexivity.
Defined.

(** ** The word-count gate *)

(** X5. For a non-zero target, [validate_word_count] reports the count of
    [count_words] and is valid exactly when that count lies within
    [min_words, max_words]: the target, and the deviation from it, play no
    part in the verdict.  A count below the minimum is reported as too
    short, one above the maximum as too long. *)
Theorem validate_word_count_verdict text target min_words max_words :
  target <> 0 ->
  exists valid message,
    utils.validate_word_count text target min_words max_words
    = Ok (valid, utils.count_words text, message)
    /\ (valid = true <-> min_words <= utils.count_words text <= max_words)
    /\ (utils.count_words text < min_words ->
        message = utils.TooShort (utils.count_words text) min_words)
    /\ (min_words <= utils.count_words text ->
        max_words < utils.count_words text ->
        message = utils.TooLong (utils.count_words text) max_words).
Proof.
  intros Htarget. unfold utils.validate_word_count, utils.true_div.
  destruct (Z.ltb_spec (utils.count_words text) min_words) as [Hlt|Hge].
  - eexists _, _. split; [reflexivity|]. repeat split; try lia; discriminate.
  - destruct (utils.count_words text >? max_words) eqn:Egt.
    + apply Z.gtb_gt in Egt.
      eexists _, _. split; [reflexivity|]. repeat split; try lia; discriminate.
    + assert (Hle : utils.count_words text <= max_words).
      { destruct (Z.gtb_spec (utils.count_words text) max_words);
          [discriminate | lia]. }
      destruct (Z.eqb_spec target 0) as [E|_]; [contradiction|].
      eexists _, _. split; [reflexivity|]. repeat split; lia.
Qed.

Lemma validate_word_count_verdict_witness :
  exists valid message,
    utils.validate_word_count "Mira waded in." 1000 800 1200
    = Ok (valid, utils.count_words "Mira waded in.", message)
    /\ (valid = true <-> 800 <= utils.count_words "Mira waded in." <= 1200)
    /\ (utils.count_words "Mira waded in." < 800 ->
        message = utils.TooShort (utils.count_words "Mira waded in.") 800)
    /\ (800 <= utils.count_words "Mira waded in." ->
        1200 < utils.count_words "Mira waded in." ->
        message = utils.TooLong (utils.count_words "Mira waded in.") 1200).
Proof.
  apply (validate_word_count_verdict "Mira waded in." 1000 800 1200).
  discriminate.
Defined.

(** ** Concatenation of scenes *)

Section Concatenation.

Import ChapterAssembler Joined Loaded.



End Concatenation.


(** ** Reversal and stripping *)

Lemma rev_app_app (a b : string) :
  forall acc, String.rev_app (a +:+ b) acc = String.rev_app b (String.rev_app a acc).
Proof.
  induction a as [|c a IH]; intros acc; [reflexivity|].
  change (String c a +:+ b) with (String c (a +:+ b)).
  cbn [String.rev_app]. apply IH.
Qed.

Lemma rev_app_acc (s : string) :
  forall acc, String.rev_app s acc = String.rev_app s "" +:+ acc.
Proof.
  induction s as [|c s IH]; intros acc; [reflexivity|].
  cbn [String.rev_app]. rewrite (IH (String c acc)), (IH (String c "")).
  rewrite string_app_assoc. reflexivity.
Qed.

Lemma rev_cons (c : ascii) (s : string) :
  String.rev (String c s) = String.rev s +:+ String c "".
Proof. unfold String.rev. cbn [String.rev_app]. apply rev_app_acc. Qed.

Lemma rev_snoc (s : string) (c : ascii) :
  String.rev (s +:+ String c "") = String c (String.rev s).
Proof. unfold String.rev. rewrite rev_app_app. reflexivity. Qed.

Lemma lstrip_keeps_last (s : string) (c : ascii) :
  Py.isspace c = false ->
  exists t, Py.lstrip (s +:+ String c "") = t +:+ String c "".
Proof.
  intros Hc. induction s as [|d s IH].
  - exists "". change ("" +:+ String c "") with (String c "").
    cbn [Py.lstrip]. rewrite Hc. reflexivity.
  - change (String d s +:+ String c "") with (String d (s +:+ String c "")).
    cbn [Py.lstrip]. destruct (Py.isspace d); [exact IH|].
    exists (String d s). reflexivity.
Qed.

(** Stripping leaves a first character that is not white space where it
    is. *)
Lemma strip_keeps_first (c : ascii) (s : string) :
  Py.isspace c = false ->
  exists t, Py.strip (String c s) = String c t.
Proof.
  intros Hc.
  assert (Hl : Py.lstrip (String c s) = String c s).
  { cbn [Py.lstrip]. rewrite Hc. reflexivity. }
  unfold Py.strip, Py.rstrip. rewrite Hl, rev_cons.
  destruct (lstrip_keeps_last (String.rev s) c Hc) as (t & ->).
  rewrite rev_snoc. eauto.
Qed.

(** ** A chapter is never empty *)

Section NeverEmpty.

Import ChapterAssembler Joined Loaded.

Lemma load_scenes_extends scene_paths :
  forall parts w r w',
    load_scenes parts scene_paths w = (Ok r, w') ->
    w' = w
    /\ (exists more, r = (parts ++ more)%list)
    /\ (Forall (fun path => content_of w path = "") scene_paths -> r = parts).
Proof.
  induction scene_paths as [|path rest IH]; intros parts w r w' Hrun.
  - injection Hrun as <- <-. split; [reflexivity|].
    split; [exists []; rewrite app_nil_r; reflexivity | reflexivity].
  - cbn [load_scenes] in Hrun.
    apply bind_Ok_inv in Hrun as (content & w1 & Hload & Hrun).
    assert (Hw1 : w1 = w /\ content = content_of w path).
    { unfold utils.load_text_file, content_of in *.
      destruct (files w !! path); [injection Hload as <- <-; auto|].
      case_bool_decide as Hdir; [discriminate|].
      injection Hload as <- <-; auto. }
    destruct Hw1 as (-> & ->).
    destruct (Py.nonempty (content_of w path)) eqn:Hne; cbn [negb] in Hrun.
    + apply IH in Hrun as (-> & (more & ->) & _).
      split; [reflexivity|]. split.
      * eexists. rewrite <- app_assoc. reflexivity.
      * intros Hall. inversion Hall as [|? ? Hempty _]; subst.
        rewrite Hempty in Hne. discriminate.
    + apply IH in Hrun as (-> & Hmore & Hrest).
      split; [reflexivity|]. split; [exact Hmore|].
      intros Hall. inversion Hall; subst. auto.
Qed.

Lemma heading_kept (chapter : Z) :
  String.eqb (Py.strip (heading chapter)) "---" = false.
Proof.
  unfold heading.
  change ("# Chapter " +:+ Py.str_of_int chapter +:+ Py.nl +:+ Py.nl)
    with (String "#" (" Chapter " +:+ Py.str_of_int chapter +:+ Py.nl +:+ Py.nl)).
  destruct (strip_keeps_first "#" (" Chapter " +:+ Py.str_of_int chapter
                                     +:+ Py.nl +:+ Py.nl) eq_refl) as (t & ->).
  reflexivity.
Qed.

(** The chapter text starts with the heading, whatever the scene files
    hold. *)
Lemma concatenate_scenes_starts scene_paths chapter w text w' :
  _concatenate_scenes scene_paths chapter w = (Ok text, w') ->
  w' = w
  /\ Py.nonempty text = true
  /\ (exists body, text = heading chapter +:+ body)
  /\ (Forall (fun path => content_of w path = "") scene_paths ->
      text = heading chapter).
Proof.
  intros Hrun. unfold _concatenate_scenes in Hrun.
  apply bind_Ok_inv in Hrun as (parts & w1 & Hload & Hrun).
  fold (heading chapter) in Hload.
  apply load_scenes_extends in Hload as (-> & (more & ->) & Hempty).
  unfold mret, M_ret in Hrun. injection Hrun as <- <-.
  split; [reflexivity|].
  destruct more as [|part more].
  - cbn [app last]. rewrite heading_kept.
    cbn [Py.concat fold_right]. rewrite string_app_nil_r.
    split; [reflexivity|]. split; [|reflexivity].
    exists "". symmetry. apply string_app_nil_r.
  - destruct (last (heading chapter :: part :: more)) as [final|];
      [destruct (String.eqb (Py.strip final) "---")|];
      cbn [Py.concat fold_right];
      (split; [reflexivity|]); (split; [eauto|]);
      intros Hall; specialize (Hempty Hall); discriminate Hempty.
Qed.

(** X7. What [_concatenate_scenes] returns is never empty: it starts with
    the chapter heading, and is the heading alone when every scene file is
    missing or empty.  The test [if not chapter_content] of [assemble] can
    therefore not succeed.  Reading the files leaves the world as it is. *)
Theorem concatenate_scenes_never_empty scene_paths chapter w text w' :
  _concatenate_scenes scene_paths chapter w = (Ok text, w') ->
  w' = w
  /\ Py.nonempty text = true
  /\ (exists body, text = heading chapter +:+ body)
  /\ (Forall (fun path => content_of w path = "") scene_paths ->
      text = heading chapter).
Proof. apply concatenate_scenes_starts. Qed.

End NeverEmpty.

Lemma concatenate_scenes_never_empty_witness :
  Py.nonempty (Loaded.heading 3) = true
  /\ ChapterAssembler._concatenate_scenes
       ["book/chapter_03_scene_01_FINAL.md"; "book/chapter_03_scene_02_FINAL.md"]
       3 Example.empty_world
     = (Ok (Loaded.heading 3), Example.empty_world).
Proof.
  pose proof (concatenate_scenes_never_empty
                ["book/chapter_03_scene_01_FINAL.md";
                 "book/chapter_03_scene_02_FINAL.md"]
                3 Example.empty_world (Loaded.heading 3) Example.empty_world
                eq_refl) as (_ & Hne & _).
  split; [exact Hne | reflexivity].
Defined.

(** ** Runs of [assemble] *)

Section AssembleRuns.

Import ChapterAssembler Loaded LLMManager Chain.

Variable env : Env.
Variable config : Config.

Lemma bind_inv {A B : Type} (m : M A) (f : A -> M B) w r w' :
  (m ≫= f) w = (r, w') ->
  (exists a w1, m w = (Ok a, w1) /\ f a w1 = (r, w'))
  \/ (exists e, m w = (Raise e, w') /\ r = Raise e).
Proof.
  unfold mbind, M_bind. destruct (m w) as [[a|e] w1]; [eauto|].
  intros H. injection H as <- <-. eauto.
Qed.

Lemma discover_scenes_world book_name chapter w :
  exists found, _discover_scenes config book_name chapter w = (found, w).
Proof.
  unfold _discover_scenes, utils.os_path_exists, glob, mbind, M_bind, mret, M_ret.
  destruct (in_fragment _); eexists; reflexivity.
Qed.

Lemma load_scenes_world scene_paths :
  forall parts w r w', load_scenes parts scene_paths w = (r, w') -> w' = w.
Proof.
  induction scene_paths as [|path rest IH]; intros parts w r w' Hrun.
  - injection Hrun as _ <-. reflexivity.
  - cbn [load_scenes] in Hrun. unfold mbind, M_bind, utils.load_text_file in Hrun.
    destruct (files w !! path) as [content|].
    + destruct (negb (Py.nonempty (Py.universal_newlines content)));
        eapply IH, Hrun.
    + case_bool_decide as Hdir.
      * injection Hrun as _ <-. reflexivity.
      * cbn [negb Py.nonempty] in Hrun. eapply IH, Hrun.
Qed.

Lemma concatenate_scenes_world scene_paths chapter w r w' :
  _concatenate_scenes scene_paths chapter w = (r, w') -> w' = w.
Proof.
  unfold _concatenate_scenes, mbind, M_bind.
  destruct (load_scenes _ scene_paths w) as [[parts|e] w1] eqn:Hload;
    apply load_scenes_world in Hload as ->;
    intros Hrun; injection Hrun as _ <-; reflexivity.
Qed.

Lemma save_text_file_calls content path w r w' :
  utils.save_text_file content path w = (r, w') -> llm_calls w' = llm_calls w.
Proof.
  unfold utils.save_text_file, utils.ensure_dir, utils.write_file, mbind, M_bind.
  destruct (forallb _ _);
    [|case_bool_decide; intros Hrun; injection Hrun as _ <-; reflexivity].
  world_simpl. case_bool_decide as Hdir; intros Hrun; injection Hrun as _ <-;
    reflexivity.
Qed.

(** The scene paths [assemble] works on: those given, or those
    discovered. *)
Lemma assemble_paths book_name chapter scene_paths w :
  exists found,
    match scene_paths with
    | None => _discover_scenes config book_name chapter
    | Some paths => mret paths
    end w = (found, w).
Proof.
  destruct scene_paths as [paths|]; [eexists; reflexivity|].
  apply discover_scenes_world.
Qed.

(** X8. With smoothing switched off, by the argument or by the
    configuration, [assemble] makes no call of the model, whether it
    returns or raises.  When it returns [None] it has done nothing; when
    it returns a text it has written one file, the raw chapter, and the
    text is what that file holds. *)
Theorem assemble_without_smoothing book_name chapter scene_paths smooth
    w r w' :
  smooth = false \/ chapter_smoothing_enabled config = Some false ->
  assemble env config book_name chapter scene_paths smooth w = (r, w') ->
  llm_calls w' = llm_calls w
  /\ (r = Ok None -> w' = w)
  /\ (forall text, r = Ok (Some text) ->
        written w'
        = (written w
           ++ [(utils.get_chapter_path config book_name chapter "raw", text)])%list).
Proof.
  intros Hoff Hrun.
  assert (Hsm : smooth && default true (chapter_smoothing_enabled config) = false).
  { destruct Hoff as [->| ->]; [reflexivity | destruct smooth; reflexivity]. }
  unfold assemble in Hrun. rewrite Hsm in Hrun.
  destruct (assemble_paths book_name chapter scene_paths w) as (found & Hp).
  apply bind_inv in Hrun as [(paths & w1 & Hpaths & Hrun)|(e & Hpaths & ->)];
    rewrite Hp in Hpaths; injection Hpaths as -> <-.
  2:{ repeat split; intros; discriminate. }
  destruct paths as [|path paths].
  { injection Hrun as <- <-. repeat split; intros; discriminate. }
  apply bind_inv in Hrun as [(content & w1 & Hcat & Hrun)|(e & Hcat & ->)].
  2:{ apply concatenate_scenes_world in Hcat as ->.
      repeat split; intros; discriminate. }
  apply concatenate_scenes_starts in Hcat as (-> & Hne & _).
  rewrite Hne in Hrun. cbn [negb] in Hrun.
  apply bind_inv in Hrun as [([] & w2 & Hsave & Hrun)|(e & Hsave & ->)].
  - injection Hrun as <- <-.
    split; [eapply save_text_file_calls, Hsave|].
    split; [discriminate|].
    intros text Htext. injection Htext as <-.
    eapply save_text_file_written, Hsave.
  - split; [eapply save_text_file_calls, Hsave|].
    split; intros; discriminate.
Qed.

(** The keyword arguments of [_smooth_chapter] name no parameter. *)
Lemma smoothing_kwargs_free (n : Z) :
  free_kwargs [("temperature", VFloat (7 # 10)); ("num_predict", VInt n)].
Proof.
  repeat constructor; cbn [fst]; unfold reserved;
    rewrite !elem_of_cons, elem_of_nil; intros H;
    repeat (destruct H as [H|H]; [discriminate H|]); exact H.
Qed.

(** X9. When smoothing is on and every call of every model of the review
    chain fails, with alternatives that are a list and a retry delay
    that [time.sleep] accepts, [assemble] still returns the chapter: the
    raw text, after [max_retries] calls for each model of the chain.  The
    raw chapter is the one file it writes; no smoothed version is
    saved. *)
Theorem assemble_smoothing_failure book_name chapter paths content cfg w w2 :
  paths <> [] ->
  _concatenate_scenes paths chapter w = (Ok content, w) ->
  utils.save_text_file content
    (utils.get_chapter_path config book_name chapter "raw") w = (Ok tt, w2) ->
  chapter_smoothing_enabled config <> Some false ->
  _get_model_config config "review" = Ok cfg ->
  mc_alternatives cfg <> None ->
  valid_delay config ->
  Forall (always_fails env) (chain cfg) ->
  exists w',
    assemble env config book_name chapter (Some paths) true w
    = (Ok (Some content), w')
    /\ written w'
       = (written w
          ++ [(utils.get_chapter_path config book_name chapter "raw",
               content)])%list
    /\ llm_calls w'
       = (llm_calls w + length (chain cfg) * Z.to_nat (max_retries config))%nat.
Proof.
  intros Hpaths Hcat Hsave Hon Hcfg Halt Hdelay Hall.
  assert (Hne : Py.nonempty content = true).
  { apply concatenate_scenes_starts in Hcat. tauto. }
  assert (Hsm : default true (chapter_smoothing_enabled config) = true).
  { destruct (chapter_smoothing_enabled config) as [[]|];
      [reflexivity | contradiction | reflexivity]. }
  pose proof (smoothing_kwargs_free
                (Z.of_nat (Py.count_fields false content) + 500)) as Hfree.
  destruct (first_success_all_fail env config
              (smoothing_prompt content)
              [("temperature", VFloat (7 # 10));
               ("num_predict",
                VInt (Z.of_nat (Py.count_fields false content) + 500))]
              (chain cfg) Hfree Hdelay
              (Forall_impl _ _ _ Hall (fun model Hmodel => Hmodel _ _)) w2)
    as (w' & Hrun & Hcalls).
  exists w'. split; [|split].
  - destruct paths as [|path paths]; [contradiction|].
    unfold assemble, mbind, M_bind, mret, M_ret.
    rewrite Hcat, Hne. cbn [negb]. rewrite Hsave, Hsm. cbn [andb].
    unfold _smooth_chapter, mbind, M_bind.
    rewrite (generate_with_retry_first_success env config _ _ _ _ _
               Hcfg Hfree Halt).
    rewrite Hrun. reflexivity.
  - rewrite (first_success_written env config _ _ _ _ _ _ Hrun).
    eapply save_text_file_written, Hsave.
  - rewrite Hcalls, (save_text_file_calls _ _ _ _ _ Hsave). reflexivity.
Qed.

(** X10. The text [assemble] returns is never empty and is what the last
    file it wrote holds: the raw chapter when that is all it wrote, the
    smoothed chapter when, with smoothing on, it wrote that after the raw
    one.  It writes no other file. *)
Theorem assemble_returns_last_saved book_name chapter scene_paths smooth
    w text w' :
  assemble env config book_name chapter scene_paths smooth w
  = (Ok (Some text), w') ->
  Py.nonempty text = true
  /\ exists raw,
       (text = raw
        /\ written w'
           = (written w
              ++ [(utils.get_chapter_path config book_name chapter "raw",
                   raw)])%list)
       \/ (smooth = true
           /\ chapter_smoothing_enabled config <> Some false
           /\ written w'
              = (written w
                 ++ [(utils.get_chapter_path config book_name chapter "raw",
                      raw);
                     (utils.get_chapter_path config book_name chapter "v1",
                      text)])%list).
Proof.
  intros Hrun. unfold assemble in Hrun.
  apply bind_Ok_inv in Hrun as (paths & w1 & Hpaths & Hrun).
  destruct (assemble_paths book_name chapter scene_paths w) as (found & Hp).
  rewrite Hp in Hpaths. injection Hpaths as -> <-.
  destruct paths as [|path paths]; [discriminate Hrun|].
  apply bind_Ok_inv in Hrun as (content & w1 & Hcat & Hrun).
  apply concatenate_scenes_starts in Hcat as (-> & Hne & _).
  rewrite Hne in Hrun. cbn [negb] in Hrun.
  apply bind_Ok_inv in Hrun as ([] & w2 & Hsave & Hrun).
  apply save_text_file_written in Hsave.
  destruct smooth;
    [destruct (chapter_smoothing_enabled config) as [[]|] eqn:Hon|];
    cbn [andb default] in Hrun;
    try (injection Hrun as <- <-; split; [exact Hne|];
         exists content; left; split; [reflexivity | exact Hsave]).
  all: apply bind_Ok_inv in Hrun as (smoothed & w3 & Hsmooth & Hrun);
    unfold _smooth_chapter in Hsmooth;
    apply bind_Ok_inv in Hsmooth as (answer & w4 & Hgen & Hret);
    apply (generate_with_retry_written env config) in Hgen;
    assert (Hw3 : written w3 = written w2)
      by (destruct (Py.truthy answer); injection Hret as _ <-; exact Hgen);
    destruct smoothed as [smoothed|];
    [destruct (Py.nonempty smoothed) eqn:Hsm|].
  all: try (injection Hrun as <- <-; split; [exact Hne|];
            exists content; left; split; [reflexivity|];
            rewrite Hw3; exact Hsave).
  all: apply bind_Ok_inv in Hrun as ([] & w5 & Hsave2 & Hrun);
    apply save_text_file_written in Hsave2;
    injection Hrun as <- <-; split; [exact Hsm|];
    exists content; right; split; [reflexivity|];
    (split; [discriminate|]);
    rewrite Hsave2, Hw3, Hsave, <- app_assoc; reflexivity.
Qed.

End AssembleRuns.

Lemma assemble_without_smoothing_witness :
  llm_calls
    (world_after
       (ChapterAssembler.assemble Example.env_drafts Example.config_drafts
          "Tidewater" 1 None true) Example.world_final_scenes)
  = llm_calls Example.world_final_scenes.
Proof.
  apply (proj1 (assemble_without_smoothing Example.env_drafts
                  Example.config_drafts "Tidewater" 1 None true
                  Example.world_final_scenes _ _
                  (or_intror eq_refl) (surjective_pairing _))).
Defined.

Lemma assemble_smoothing_failure_witness :
  exists w',
    ChapterAssembler.assemble Offline.env Studio.config "Tidewater" 1
      (Some Studio.final_scenes) true Example.world_final_scenes
    = (Ok (Some Studio.raw_chapter), w')
    /\ written w'
       = (written Example.world_final_scenes
          ++ [(utils.get_chapter_path Studio.config "Tidewater" 1 "raw",
               Studio.raw_chapter)])%list
    /\ llm_calls w' = 3%nat.
Proof.
  apply (assemble_smoothing_failure Offline.env Studio.config "Tidewater" 1
           Studio.final_scenes Studio.raw_chapter
           (mkModelCfg (Some "C") None None (Some []))
           Example.world_final_scenes
           (world_after
              (utils.save_text_file Studio.raw_chapter
                 (utils.get_chapter_path Studio.config "Tidewater" 1 "raw"))
              Example.world_final_scenes)).
  - discriminate.
  - vm_compute. reflexivity.
  - vm_compute. reflexivity.
  - discriminate.
  - reflexivity.
  - discriminate.
  - apply valid_delay_default. reflexivity.
  - repeat constructor.
Defined.

Lemma assemble_returns_last_saved_witness :
  Py.nonempty "Once upon a time." = true
  /\ exists raw,
       ("Once upon a time." = raw
        /\ written
             (world_after
                (ChapterAssembler.assemble Example.env_abc Studio.config
                   "Tidewater" 1 None true) Example.world_final_scenes)
           = (written Example.world_final_scenes
              ++ [(utils.get_chapter_path Studio.config "Tidewater" 1 "raw",
                   raw)])%list)
       \/ (true = true
           /\ chapter_smoothing_enabled Studio.config <> Some false
           /\ written
                (world_after
                   (ChapterAssembler.assemble Example.env_abc Studio.config
                      "Tidewater" 1 None true) Example.world_final_scenes)
              = (written Example.world_final_scenes
                 ++ [(utils.get_chapter_path Studio.config "Tidewater" 1 "raw",
                      raw);
                     (utils.get_chapter_path Studio.config "Tidewater" 1 "v1",
                      "Once upon a time.")])%list).
Proof.
  apply (assemble_returns_last_saved Example.env_abc Studio.config
           "Tidewater" 1 None true Example.world_final_scenes
           "Once upon a time.").
  vm_compute. reflexivity.
Defined.

(** ** File names *)

Section Sanitize.

Import FileNames.

Lemma replace_space_step (c : ascii) (s : string) :
  Py.replace_go " " "_" 0 (String c s)
  = String (if Ascii.eqb c " " then "_"%char else c)
           (Py.replace_go " " "_" 0 s).
Proof.
  cbn [Py.replace_go String.prefix String.length Nat.sub].
  destruct (ascii_dec " " c) as [<-|Hne].
  - replace (String.prefix "" s) with true by (destruct s; reflexivity).
    reflexivity.
  - destruct (Ascii.eqb_spec c " ") as [->|_]; [contradiction|]. reflexivity.
Qed.

Lemma every_substring test (s : string) :
  forall m, every test s = true -> every test (String.substring 0 m s) = true.
Proof.
  induction s as [|c s IH]; intros [|m] H; try reflexivity.
  cbn [String.substring every] in *.
  apply andb_true_iff in H as (Hc & Hs). rewrite Hc. apply IH, Hs.
Qed.

Lemma length_substring_le (s : string) :
  forall m, (String.length (String.substring 0 m s) <= m)%nat.
Proof.
  induction s as [|c s IH]; intros [|m]; cbn [String.substring String.length];
    try lia.
  specialize (IH m). lia.
Qed.

Lemma substring_all (s : string) :
  forall m, (String.length s <= m)%nat -> String.substring 0 m s = s.
Proof.
  induction s as [|c s IH]; intros [|m] H; cbn [String.length] in H;
    try reflexivity; try lia.
  cbn [String.substring]. rewrite IH by lia. reflexivity.
Qed.

Lemma remove_invalid_allowed (s : string) :
  every allowed s = true -> remove_invalid s = s.
Proof.
  induction s as [|c s IH]; [reflexivity|].
  cbn [every remove_invalid]. intros H.
  apply andb_true_iff in H as (Hc & Hs).
  unfold allowed in Hc. apply andb_true_iff in Hc as (Hc & _).
  apply negb_true_iff in Hc. rewrite Hc, (IH Hs). reflexivity.
Qed.

Lemma replace_space_allowed (s : string) :
  every allowed s = true -> Py.replace_go " " "_" 0 s = s.
Proof.
  induction s as [|c s IH]; [reflexivity|].
  cbn [every]. intros H. apply andb_true_iff in H as (Hc & Hs).
  rewrite replace_space_step, (IH Hs).
  unfold allowed in Hc. apply andb_true_iff in Hc as (_ & Hc).
  apply negb_true_iff in Hc. rewrite Hc. reflexivity.
Qed.

Lemma replaced_allowed (s : string) :
  every (fun c => negb (invalid c)) s = true ->
  every allowed (Py.replace_go " " "_" 0 s) = true.
Proof.
  induction s as [|c s IH]; [reflexivity|].
  cbn [every]. intros H. apply andb_true_iff in H as (Hc & Hs).
  rewrite replace_space_step. cbn [every]. rewrite (IH Hs), andb_true_r.
  unfold allowed. destruct (Ascii.eqb_spec c " ") as [->|Hne]; [reflexivity|].
  rewrite Hc. apply Ascii.eqb_neq in Hne. rewrite Hne. reflexivity.
Qed.

Lemma remove_invalid_valid (s : string) :
  every (fun c => negb (invalid c)) (remove_invalid s) = true.
Proof.
  induction s as [|c s IH]; [reflexivity|].
  cbn [remove_invalid]. destruct (invalid c) eqn:Hc; [exact IH|].
  cbn [every]. rewrite Hc, IH. reflexivity.
Qed.

(** X11. A sanitized name has at most 100 characters, none of them a
    space, an angle bracket, a colon, a double quote, a slash, a
    backslash, a bar, a question mark or a star; a name that is already so
    is left as it is, so that sanitizing twice changes nothing more. *)
Theorem sanitize_filename_safe (name : string) :
  (String.length (sanitize_filename name) <= 100)%nat
  /\ every allowed (sanitize_filename name) = true
  /\ (forall clean,
        (String.length clean <= 100)%nat -> every allowed clean = true ->
        sanitize_filename clean = clean)
  /\ sanitize_filename (sanitize_filename name) = sanitize_filename name.
Proof.
  assert (Hlen : forall s, (String.length (sanitize_filename s) <= 100)%nat)
    by (intros s; apply length_substring_le).
  assert (Hall : forall s, every allowed (sanitize_filename s) = true).
  { intros s. apply every_substring, replaced_allowed, remove_invalid_valid. }
  assert (Hfix : forall clean,
             (String.length clean <= 100)%nat -> every allowed clean = true ->
             sanitize_filename clean = clean).
  { intros clean Hl Ha. unfold sanitize_filename, Py.replace.
    rewrite (remove_invalid_allowed _ Ha), (replace_space_allowed _ Ha).
    apply substring_all, Hl. }
  repeat split; auto.
Qed.

End Sanitize.

(** ** The manuscript *)

Section ManuscriptText.

Import BookAssembler.

Variable config : Config.
Variable book_name : string.

Lemma chapters_text_step w chapter count :
  chapters_text config book_name w chapter (S count)
  = chapter_text config book_name w chapter
    +:+ chapters_text config book_name w (chapter + 1) count.
Proof.
  unfold chapters_text. cbn [seq map Py.concat fold_right].
  rewrite Z.add_0_r. f_equal.
  rewrite <- seq_shift, map_map. f_equal. apply map_ext. intros i.
  f_equal. lia.
Qed.

Lemma load_chapters_text w remaining :
  forall parts chapter,
    (forall i, (i < remaining)%nat ->
       utils.get_chapter_path config book_name (chapter + Z.of_nat i) "v1"
       ∉ dirs w) ->
    exists parts',
      load_chapters config book_name parts chapter remaining w = (Ok parts', w)
      /\ Py.concat parts'
         = Py.concat parts
           +:+ chapters_text config book_name w chapter remaining.
Proof.
  induction remaining as [|remaining IH]; intros parts chapter Hdirs.
  - exists parts. split; [reflexivity|].
    unfold chapters_text. cbn. symmetry. apply string_app_nil_r.
  - assert (Hfirst : utils.get_chapter_path config book_name chapter "v1"
                     ∉ dirs w).
    { specialize (Hdirs 0%nat ltac:(lia)). rewrite Z.add_0_r in Hdirs.
      exact Hdirs. }
    assert (Hrest : forall i, (i < remaining)%nat ->
              utils.get_chapter_path config book_name
                (chapter + 1 + Z.of_nat i) "v1" ∉ dirs w).
    { intros i Hi. specialize (Hdirs (S i) ltac:(lia)).
      replace (chapter + 1 + Z.of_nat i) with (chapter + Z.of_nat (S i)) by lia.
      exact Hdirs. }
    rewrite chapters_text_step.
    cbn [load_chapters].
    unfold mbind, M_bind, utils.os_path_exists, utils.load_text_file,
      chapter_text.
    rewrite (bool_decide_eq_false_2 _ Hfirst), orb_false_r.
    destruct (files w !! utils.get_chapter_path config book_name chapter "v1")
      as [content|] eqn:Hfile.
    + rewrite bool_decide_eq_true_2 by eauto.
      cbv beta iota. rewrite Hfile.
      destruct (IH (parts ++ [Py.universal_newlines content;
                              Py.nl +:+ Py.nl])%list (chapter + 1) Hrest)
        as (parts' & Hrun & Htext).
      exists parts'. split; [exact Hrun|].
      rewrite Htext, concat_app. cbn [Py.concat fold_right].
      rewrite string_app_nil_r, !string_app_assoc. reflexivity.
    + rewrite bool_decide_eq_false_2 by (intros [? ?]; discriminate).
      cbv beta iota.
      destruct (IH parts (chapter + 1) Hrest) as (parts' & Hrun & Htext).
      exists parts'. split; [exact Hrun|]. exact Htext.
Qed.

(** X12. The manuscript [_create_manuscript] saves is the title block
    followed, for each chapter from 1 to [num_chapters] in order, by the
    text of its smoothed version (the file of version [v1]) and a blank
    line.  A chapter without such a file brings nothing: it is left out,
    and the raw version of a chapter is never read. *)
Theorem create_manuscript_content num_chapters w :
  (forall chapter, 1 <= chapter <= num_chapters ->
     utils.get_chapter_path config book_name chapter "v1" ∉ dirs w) ->
  _create_manuscript config book_name num_chapters w
  = utils.save_text_file (manuscript_text config book_name w num_chapters)
      (manuscript_path config book_name) w.
Proof.
  intros Hdirs. unfold _create_manuscript, manuscript_text.
  destruct (load_chapters_text w (Z.to_nat num_chapters)
              (title_parts book_name) 1) as (parts & Hrun & Htext).
  { intros i Hi. apply Hdirs. lia. }
  unfold mbind at 1, M_bind at 1. rewrite Hrun, Htext. reflexivity.
Qed.

End ManuscriptText.

(** ** Paths that differ *)

Lemma chapter_path_shape (config : Config) (book_name : string) :
  exists prefix, forall chapter version,
    utils.get_chapter_path config book_name chapter version
    = prefix +:+ ("chapter_" +:+ Py.fmt_02d chapter +:+ "_" +:+ version
                  +:+ ".md").
Proof.
  unfold utils.get_chapter_path, utils.os_path_join at 1. cbn [fold_left].
  set (base := utils.get_project_path config _).
  exists (if negb (Py.nonempty base) || Py.startswith (String.rev base) "/"
          then base else base +:+ "/").
  intros chapter version. unfold utils.join2.
  change ("chapter_" +:+ Py.fmt_02d chapter +:+ "_" +:+ version +:+ ".md")
    with (String "c" ("hapter_" +:+ Py.fmt_02d chapter +:+ "_" +:+ version
                      +:+ ".md")).
  unfold Py.startswith at 1. cbn [String.prefix].
  destruct (ascii_dec "/" "c") as [E|_]; [discriminate E|].
  destruct (negb (Py.nonempty base) || Py.startswith (String.rev base) "/");
    [reflexivity|].
  rewrite string_app_assoc. reflexivity.
Qed.

(** The raw version of a chapter and the smoothed version of a chapter
    are different files. *)
Lemma raw_path_not_v1 (config : Config) (book_name : string) (c c' : Z) :
  utils.get_chapter_path config book_name c "raw"
  <> utils.get_chapter_path config book_name c' "v1".
Proof.
  destruct (chapter_path_shape config book_name) as (prefix & Hshape).
  rewrite !Hshape. intros Heq.
  assert (Hl : prefix +:+ ("chapter_" +:+ Py.fmt_02d c +:+ "_" +:+ "raw" +:+ ".md")
               = (prefix +:+ "chapter_" +:+ Py.fmt_02d c +:+ "_") +:+ "raw.md").
  { rewrite !string_app_assoc. reflexivity. }
  assert (Hr : prefix +:+ ("chapter_" +:+ Py.fmt_02d c' +:+ "_" +:+ "v1" +:+ ".md")
               = (prefix +:+ "chapter_" +:+ Py.fmt_02d c') +:+ "_v1.md").
  { rewrite !string_app_assoc. reflexivity. }
  rewrite Hl, Hr in Heq. apply app_suffix_eq in Heq; [discriminate Heq|reflexivity].
Qed.

Section ManuscriptUnsmoothed.

Import ChapterAssembler BookAssembler.

Variable env : Env.
Variable config : Config.

Lemma save_text_file_files content path w r w' :
  utils.save_text_file content path w = (r, w') ->
  files w' = files w \/ files w' = <[path := content]> (files w).
Proof.
  unfold utils.save_text_file, utils.ensure_dir, utils.write_file, mbind, M_bind.
  destruct (forallb _ _);
    [|case_bool_decide; intros Hrun; injection Hrun as _ <-; left;
      reflexivity].
  world_simpl. case_bool_decide as Hdir; intros Hrun; injection Hrun as _ <-;
    [left | right]; reflexivity.
Qed.

Lemma manuscript_text_files book_name w w' n :
  (forall chapter,
     files w' !! utils.get_chapter_path config book_name chapter "v1"
     = files w !! utils.get_chapter_path config book_name chapter "v1") ->
  manuscript_text config book_name w' n = manuscript_text config book_name w n.
Proof.
  intros Hfiles. unfold manuscript_text, chapters_text. f_equal. f_equal.
  apply map_ext. intros i. unfold chapter_text. rewrite Hfiles. reflexivity.
Qed.

(** X13. Assembling a chapter with smoothing switched off leaves the
    manuscript as it was: the run writes at most the raw chapter, which
    [_create_manuscript] does not read.  A chapter assembled this way is
    in the manuscript only if a smoothed version was saved before. *)
Theorem manuscript_ignores_unsmoothed book_name chapter scene_paths smooth
    w r w' num_chapters :
  smooth = false \/ chapter_smoothing_enabled config = Some false ->
  assemble env config book_name chapter scene_paths smooth w = (r, w') ->
  manuscript_text config book_name w' num_chapters
  = manuscript_text config book_name w num_chapters.
Proof.
  intros Hoff Hrun.
  assert (Hsm : smooth && default true (chapter_smoothing_enabled config) = false).
  { destruct Hoff as [->| ->]; [reflexivity | destruct smooth; reflexivity]. }
  unfold assemble in Hrun. rewrite Hsm in Hrun.
  destruct (assemble_paths config book_name chapter scene_paths w)
    as (found & Hp).
  apply bind_inv in Hrun as [(paths & w1 & Hpaths & Hrun)|(e & Hpaths & _)];
    rewrite Hp in Hpaths; injection Hpaths as -> <-; [|reflexivity].
  destruct paths as [|path paths]; [injection Hrun as _ <-; reflexivity|].
  apply bind_inv in Hrun as [(content & w1 & Hcat & Hrun)|(e & Hcat & _)].
  2:{ apply concatenate_scenes_world in Hcat as ->. reflexivity. }
  apply concatenate_scenes_starts in Hcat as (-> & Hne & _).
  rewrite Hne in Hrun. cbn [negb] in Hrun.
  assert (Hsave : exists r2,
            utils.save_text_file content
              (utils.get_chapter_path config book_name chapter "raw") w
            = (r2, w')).
  { apply bind_inv in Hrun as [([] & w2 & Hs & Hrun)|(e & Hs & _)];
      [injection Hrun as _ <-|]; eauto. }
  destruct Hsave as (r2 & Hsave).
  apply manuscript_text_files. intros c.
  apply save_text_file_files in Hsave as [-> | ->]; [reflexivity|].
  apply lookup_insert_ne, raw_path_not_v1.
Qed.

End ManuscriptUnsmoothed.

Lemma manuscript_ignores_unsmoothed_witness :
  BookAssembler.manuscript_text Example.config_drafts "Tidewater"
    (world_after
       (ChapterAssembler.assemble Example.env_drafts Example.config_drafts
          "Tidewater" 1 None true) Example.world_final_scenes) 1
  = BookAssembler.manuscript_text Example.config_drafts "Tidewater"
      Example.world_final_scenes 1.
Proof.
  apply (manuscript_ignores_unsmoothed Example.env_drafts
           Example.config_drafts "Tidewater" 1 None true
           Example.world_final_scenes _ _ 1
           (or_intror eq_refl) (surjective_pairing _)).
Defined.

Lemma create_manuscript_content_witness :
  BookAssembler._create_manuscript Example.config_drafts "Tidewater" 2
    Example.world_final_scenes
  = utils.save_text_file
      (BookAssembler.manuscript_text Example.config_drafts "Tidewater"
         Example.world_final_scenes 2)
      (BookAssembler.manuscript_path Example.config_drafts "Tidewater")
      Example.world_final_scenes.
Proof.
  apply (create_manuscript_content Example.config_drafts "Tidewater" 2
           Example.world_final_scenes).
  intros chapter Hchapter.
  assert (Hcases : chapter = 1 \/ chapter = 2) by lia.
  destruct Hcases as [-> | ->]; vm_compute; intros H; discriminate H.
Defined.

(** ** An entry added is an entry found *)

Section RoundTrip.

Import MemoryManager Stored.

Variable env : Env.

Lemma insert_by_distance_in x y l :
  x = y \/ In x l -> In x (Chroma.insert_by_distance y l).
Proof.
  induction l as [|z l IH]; cbn [Chroma.insert_by_distance].
  - intros [->|[]]. left. reflexivity.
  - destruct (snd y <=? snd z).
    + intros [->|H]; [left; reflexivity | right; exact H].
    + intros [->|[->|H]].
      * right. apply IH. left. reflexivity.
      * left. reflexivity.
      * right. apply IH. right. exact H.
Qed.

Lemma sorted_by_distance_in x l :
  In x l -> In x (fold_right Chroma.insert_by_distance [] l).
Proof.
  induction l as [|y l IH]; cbn [fold_right]; [tauto|].
  intros [->|H]; apply insert_by_distance_in; [left; reflexivity|].
  right. apply IH, H.
Qed.

Lemma length_insert_by_distance x l :
  length (Chroma.insert_by_distance x l) = S (length l).
Proof.
  induction l as [|y l IH]; cbn [Chroma.insert_by_distance]; [reflexivity|].
  destruct (snd x <=? snd y); cbn [length]; [reflexivity|].
  rewrite IH. reflexivity.
Qed.

Lemma length_sorted_by_distance l :
  length (fold_right Chroma.insert_by_distance [] l) = length l.
Proof.
  induction l as [|y l IH]; cbn [fold_right length]; [reflexivity|].
  rewrite length_insert_by_distance, IH. reflexivity.
Qed.

(** A query that asks for at least as many results as there are records
    finds every record that passes the filter. *)
Lemma nearest_complete query_text n filter records record :
  In record records ->
  Chroma.where_matches filter (snd record) = true ->
  (length records <= n)%nat ->
  In (record, distance env query_text (fst record))
     (Chroma.nearest env query_text n filter records).
Proof.
  intros Hin Hmatch Hlen. unfold Chroma.nearest.
  rewrite firstn_all2.
  - apply sorted_by_distance_in.
    apply (in_map (fun r => (r, distance env query_text (fst r)))).
    apply filter_In. split; assumption.
  - rewrite length_sorted_by_distance, length_map.
    etransitivity; [apply filter_length_le | exact Hlen].
Qed.

Lemma where_filter_complete entry_types entry_type (metadata : Metadata) :
  entry_types = [] \/ In entry_type entry_types ->
  metadata !! "type" = Some (VStr entry_type) ->
  Chroma.where_matches (where_filter entry_types) metadata = true.
Proof.
  intros Htypes Hmeta.
  destruct entry_types as [|t1 [|t2 rest]]; [reflexivity| |].
  - destruct Htypes as [|[->|[]]]; [discriminate|].
    cbn [where_filter Chroma.where_matches]. apply bool_decide_eq_true, Hmeta.
  - destruct Htypes as [|Hin]; [discriminate|].
    cbn [where_filter Chroma.where_matches]. rewrite Hmeta.
    apply bool_decide_eq_true, list_elem_of_In.
    apply (in_map VStr) in Hin. exact Hin.
Qed.

(** X14. On ChromaDB, an entry added under an id the collection does not
    hold yet is found by the query that follows, with its text, the
    metadata as stamped and its distance to the query, when the
    collection does not fail, the query is not restricted to other
    types, and [top_k] is at least the number of records. *)
Theorem add_entry_then_query config text entry_type metadata query_text
    entry_types top_k w :
  vector_db_type config = "chromadb" ->
  db_fault env (db_ops w) = None ->
  db_fault env (S (db_ops w)) = None ->
  collection w !! entry_id env w text entry_type = None ->
  Z.of_nat (size (collection w)) < top_k ->
  default [] entry_types = [] \/ In entry_type (default [] entry_types) ->
  exists hits w',
    (add_entry env config text entry_type metadata ;;
     query env config query_text entry_types top_k) w = (Ok hits, w')
    /\ In (mkHit text (stamped env w text entry_type metadata)
                 (distance env query_text text)) hits
    /\ collection w'
       = <[entry_id env w text entry_type
           := (text, stamped env w text entry_type metadata)]> (collection w).
Proof.
  intros Hdb Hadd Hquery Hfresh Hk Htypes.
  unfold mbind at 1, M_bind at 1.
  rewrite (add_entry_chromadb env config text entry_type metadata w Hdb).
  unfold _add_chromadb, try_except, Chroma.add, Chroma.operation.
  cbn [after_clock db_ops collection]. rewrite Hadd, Hfresh.
  unfold query. rewrite Hdb. cbn [String.eqb Ascii.eqb Bool.eqb].
  unfold _query_chromadb, try_except, Chroma.query, Chroma.operation,
    Chroma.put, lift, index, mbind, M_bind, mret, M_ret.
  world_simpl. rewrite Hquery.
  destruct (Z.leb_spec top_k 0) as [Hle|_]; [lia|].
  cbn [Chroma.documents Chroma.metadatas Chroma.distances lookup list_lookup].
  world_simpl.
  set (records := map snd (map_to_list
                     (<[entry_id env w text entry_type
                        := (text, stamped env w text entry_type metadata)]>
                        (collection w)))).
  pose proof (format_hits_in_step
                (Chroma.nearest env query_text (Z.to_nat top_k)
                   (where_filter (default [] entry_types)) records) [])
    as Hfmt.
  cbn [app length] in Hfmt. rewrite Hfmt.
  eexists _, _. split; [reflexivity|]. split; [|reflexivity].
  apply (in_map (fun h => mkHit (fst (fst h)) (snd (fst h)) (snd h))
           _ ((text, stamped env w text entry_type metadata),
              distance env query_text text)).
  apply (nearest_complete query_text (Z.to_nat top_k) _ records
           (text, stamped env w text entry_type metadata)).
  - unfold records.
    apply (in_map snd _ (entry_id env w text entry_type,
                         (text, stamped env w text entry_type metadata))).
    apply list_elem_of_In, elem_of_map_to_list, lookup_insert_eq.
  - apply (where_filter_complete _ entry_type); [exact Htypes|].
    apply stamped_keys.
  - unfold records. rewrite length_map, length_map_to_list.
    rewrite map_size_insert_None by exact Hfresh. lia.
Qed.

End RoundTrip.

Lemma add_entry_then_query_witness :
  exists hits w',
    (MemoryManager.add_entry Example.env_ticking Example.config_abc
       "Jonas guards the ford." "character" None ;;
     MemoryManager.query Example.env_ticking Example.config_abc
       "Who guards the ford?" (Some ["character"]) 5)
      Example.world_two_entries = (Ok hits, w')
    /\ In (MemoryManager.mkHit "Jonas guards the ford."
             (Stored.stamped Example.env_ticking Example.world_two_entries
                "Jonas guards the ford." "character" None)
             (distance Example.env_ticking "Who guards the ford?"
                "Jonas guards the ford.")) hits
    /\ collection w'
       = <[Stored.entry_id Example.env_ticking Example.world_two_entries
             "Jonas guards the ford." "character"
           := ("Jonas guards the ford.",
               Stored.stamped Example.env_ticking Example.world_two_entries
                 "Jonas guards the ford." "character" None)]>
           (collection Example.world_two_entries).
Proof.
  apply (add_entry_then_query Example.env_ticking Example.config_abc
           "Jonas guards the ford." "character" None "Who guards the ford?"
           (Some ["character"]) 5 Example.world_two_entries).
  - reflexivity.
  - reflexivity.
  - reflexivity.
  - vm_compute. reflexivity.
  - vm_compute. reflexivity.
  - right. left. reflexivity.
Defined.

(** ** Scene paths *)

Lemma nonempty_snoc (s : string) (c : ascii) :
  Py.nonempty (s +:+ String c "") = true.
Proof. destruct s; reflexivity. Qed.

(** Joining a component that does not start with a slash. *)
Lemma join2_word (path : string) (c : ascii) (rest : string) :
  c <> "/"%char ->
  utils.join2 path (String c rest)
  = (if negb (Py.nonempty path) || Py.startswith (String.rev path) "/"
     then path else path +:+ "/") +:+ String c rest.
Proof.
  intros Hc. unfold utils.join2. unfold Py.startswith at 1.
  cbn [String.prefix].
  destruct (ascii_dec "/" c) as [E|_]; [congruence|].
  destruct (negb (Py.nonempty path) || Py.startswith (String.rev path) "/");
    [reflexivity|].
  rewrite string_app_assoc. reflexivity.
Qed.

(** Joining to a path that ends with a character other than a slash. *)
Lemma join2_after_word (path : string) (last c : ascii) (rest : string) :
  last <> "/"%char -> c <> "/"%char ->
  utils.join2 (path +:+ String last "") (String c rest)
  = path +:+ String last "" +:+ "/" +:+ String c rest.
Proof.
  intros Hlast Hc. rewrite (join2_word _ _ _ Hc).
  rewrite nonempty_snoc, rev_snoc. unfold Py.startswith.
  cbn [negb orb String.prefix].
  destruct (ascii_dec "/" last) as [E|_]; [congruence|].
  rewrite !string_app_assoc. reflexivity.
Qed.

Lemma scene_path_shape (config : Config) (book_name : string) :
  exists prefix, forall chapter scene version,
    utils.get_scene_path config book_name chapter scene version "refined"
    = prefix +:+ "refined/" +:+ Refined.scene_file chapter scene version
    /\ utils.get_scene_path config book_name chapter scene version "final"
       = prefix +:+ "final/" +:+ Refined.scene_file chapter scene version.
Proof.
  unfold utils.get_scene_path, utils.get_project_path, utils.os_path_join.
  cbn [fold_left].
  set (root := utils.join2 (utils.join2 (utils.join2 _ "output") book_name)
                           "scenes").
  exists (if negb (Py.nonempty root) || Py.startswith (String.rev root) "/"
          then root else root +:+ "/").
  intros chapter scene version.
  fold (Refined.scene_file chapter scene version).
  set (prefix := if negb (Py.nonempty root)
                    || Py.startswith (String.rev root) "/"
                 then root else root +:+ "/").
  assert (Hfile : Refined.scene_file chapter scene version
                  = String "c" ("hapter_" +:+ Py.fmt_02d chapter +:+ "_scene_"
                                +:+ Py.fmt_02d scene +:+ "_" +:+ version
                                +:+ ".md")) by reflexivity.
  split.
  - change "refined" with (String "r" "efined") at 1.
    rewrite (join2_word root "r" "efined") by discriminate.
    fold prefix. change (String "r" "efined") with ("refine" +:+ String "d" "").
    rewrite <- string_app_assoc, Hfile.
    rewrite (join2_after_word (prefix +:+ "refine") "d" "c") by discriminate.
    rewrite !string_app_assoc. reflexivity.
  - change "final" with (String "f" "inal") at 1.
    rewrite (join2_word root "f" "inal") by discriminate.
    fold prefix. change (String "f" "inal") with ("fina" +:+ String "l" "").
    rewrite <- string_app_assoc, Hfile.
    rewrite (join2_after_word (prefix +:+ "fina") "l" "c") by discriminate.
    rewrite !string_app_assoc. reflexivity.
Qed.

(** The file a pass writes is never the final version of the scene. *)
Lemma pass_path_not_final (config : Config) (book_name : string)
    (chapter scene pass_num total_passes : Z) (label : string) :
  utils.get_scene_path config book_name chapter scene ("v" +:+ label)
    (SceneRefiner._get_stage_name pass_num total_passes)
  <> Refined.final_path config book_name chapter scene.
Proof.
  destruct (scene_path_shape config book_name) as (prefix & Hshape).
  unfold Refined.final_path, SceneRefiner._get_stage_name.
  rewrite (proj2 (Hshape chapter scene "FINAL")).
  destruct (pass_num <? total_passes).
  - rewrite (proj1 (Hshape chapter scene ("v" +:+ label))).
    intros H. apply string_app_inv_head in H. discriminate H.
  - rewrite (proj2 (Hshape chapter scene ("v" +:+ label))).
    intros H. unfold Refined.scene_file in H.
    do 6 apply string_app_inv_head in H. discriminate H.
Qed.

(** ** Runs of [refine] *)

Section RefineRuns.

Import SceneRefiner Refined.

Variable env : Env.
Variable config : Config.
Variable self : Refiner.
Variable book_name : string.
Variable chapter scene : Z.

Lemma last_cons_default {A : Type} (x d : A) (l : list A) :
  default d (last (x :: l)) = default x (last l).
Proof.
  revert x d. induction l as [|y l IH]; intros x d; [reflexivity|].
  change (last (x :: y :: l)) with (last (y :: l)).
  rewrite (IH y d), (IH y x). reflexivity.
Qed.

(** What the passes write: one file for each pass that went through,
    none of them the final version; when all went through, the text
    handed on is the one written last. *)
Lemma run_passes_writes passes :
  forall total_passes pass_num content w r w',
    run_passes env config self book_name chapter scene total_passes pass_num
               content passes w = (Ok r, w') ->
    exists extra,
      written w' = (written w ++ extra)%list
      /\ Forall (fun file => fst file <> final_path config book_name chapter scene)
                extra
      /\ (length extra <= length passes)%nat
      /\ (r = None -> (length extra < length passes)%nat)
      /\ (forall text, r = Some text ->
            length extra = length passes
            /\ text = default content (last (map snd extra))).
Proof.
  induction passes as [|pass_type rest IH];
    intros total_passes pass_num content w r w' Hrun.
  - injection Hrun as <- <-. exists [].
    rewrite app_nil_r.
    split; [reflexivity|]. split; [constructor|]. split; [cbn [length]; lia|].
    split; [discriminate|].
    intros final Hfinal. injection Hfinal as <-. split; reflexivity.
  - cbn [run_passes] in Hrun.
    apply bind_Ok_inv in Hrun as (refined & w1 & Hpass & Hrun).
    apply (run_pass_written env config) in Hpass.
    assert (Hnone : (Ok r, w') = (Ok None, w1) ->
              exists extra,
                written w' = (written w ++ extra)%list
                /\ Forall (fun file =>
                             fst file <> final_path config book_name chapter scene)
                          extra
                /\ (length extra <= length (pass_type :: rest))%nat
                /\ (r = None -> (length extra < length (pass_type :: rest))%nat)
                /\ (forall text, r = Some text ->
                      length extra = length (pass_type :: rest)
                      /\ text = default content (last (map snd extra)))).
    { intros H. injection H as -> ->. exists [].
      rewrite app_nil_r. cbn [length].
      split; [exact Hpass|]. split; [constructor|]. split; [lia|].
      split; [intros _; lia | discriminate]. }
    destruct refined as [text|]; [|apply Hnone; symmetry; exact Hrun].
    destruct (Py.nonempty text); [|apply Hnone; symmetry; exact Hrun].
    apply bind_Ok_inv in Hrun as ([] & w2 & Hsave & Hrun).
    apply save_text_file_written in Hsave.
    apply IH in Hrun as (extra & Hw & Hfinal & Hle & Hlt & Hsome).
    eexists (_ :: extra). split; [|split; [|split; [|split]]].
    + rewrite Hw, Hsave, Hpass, <- app_assoc. reflexivity.
    + constructor; [|exact Hfinal]. cbn [fst].
      apply pass_path_not_final.
    + cbn [length]. lia.
    + intros Hr. specialize (Hlt Hr). cbn [length]. lia.
    + intros final Hr. destruct (Hsome final Hr) as (Hlen & ->).
      cbn [length map snd]. split; [lia|].
      symmetry. apply last_cons_default.
Qed.


(** X16. A refinement that returns [True] has written one file for each
    pass and then the final version, in this order and nothing else; the
    final version holds the text of the last pass, that is what the file
    written just before it holds, or the text of the scene as it was
    when there is no pass. *)
Theorem refine_success_writes scene_path passes w w' :
  refine env config self scene_path book_name chapter scene passes w
  = (Ok true, w') ->
  exists extra,
    length extra = length (passes_of passes)
    /\ Forall (fun file => fst file <> final_path config book_name chapter scene)
              extra
    /\ written w'
       = (written w ++ extra
          ++ [(final_path config book_name chapter scene,
               default (Loaded.content_of w scene_path)
                       (last (map snd extra)))])%list.
Proof.
  unfold refine. fold (passes_of passes). intros H.
  apply bind_Ok_inv in H as (found & w0 & Hfound & H).
  unfold utils.os_path_exists in Hfound. injection Hfound as _ <-.
  destruct (negb found); [discriminate H|].
  apply bind_Ok_inv in H as (content & w1 & Hload & H).
  assert (Hw1 : w1 = w /\ content = Loaded.content_of w scene_path).
  { unfold utils.load_text_file, Loaded.content_of in *.
    destruct (files w !! scene_path); [|case_bool_decide];
      try discriminate; injection Hload as <- <-; auto. }
  destruct Hw1 as (-> & ->).
  apply bind_Ok_inv in H as (done & w2 & Hpasses & H).
  destruct done as [current|]; [|discriminate H].
  apply bind_Ok_inv in H as ([] & w3 & Hsave & H). injection H as <-.
  apply save_text_file_written in Hsave.
  apply run_passes_writes in Hpasses as (extra & Hw & Hfinal & _ & _ & Hsome).
  destruct (Hsome current eq_refl) as (Hlen & ->).
  exists extra. split; [exact Hlen|]. split; [exact Hfinal|].
  rewrite Hsave, Hw, <- app_assoc. reflexivity.
Qed.

End RefineRuns.


Lemma refine_success_writes_witness :
  exists extra,
    length extra = 2%nat
    /\ Forall (fun file =>
                 fst file
                 <> Refined.final_path Example.config_drafts "Tidewater" 1 1)
              extra
    /\ written
         (world_after
            (SceneRefiner.refine Example.env_drafts Example.config_drafts
               Example.refiner_drafts Example.raw_scene_path "Tidewater" 1 1
               (Some ["cohesion"; "style"])) Example.world_project)
       = (written Example.world_project ++ extra
          ++ [(Refined.final_path Example.config_drafts "Tidewater" 1 1,
               default
                 (Loaded.content_of Example.world_project
                    Example.raw_scene_path)
                 (last (map snd extra)))])%list.
Proof.
  apply (refine_success_writes Example.env_drafts Example.config_drafts
           Example.refiner_drafts "Tidewater" 1 1 Example.raw_scene_path
           (Some ["cohesion"; "style"]) Example.world_project).
  vm_compute. reflexivity.
Defined.
